(** * Twilio / ElevenLabs integration server: a shallow embedding of [main.py]

    The development follows the layout of the Python module:

    - [PyStr]: Python [str] values as lists of Unicode code points, with the
      string methods the handlers call ([strip], [replace], [startswith],
      [split], [join], [in], [lower], [capitalize], [encode]);
    - [Sha256]: [hashlib.sha256] and [hmac.new(...).hexdigest()], computed
      over byte lists;
    - [Py]: the dynamically typed values that travel through the handlers
      (JSON documents, datastore rows), exceptions, and the error monad in
      which handler bodies run;
    - one module per handler of [main.py];
    - the reference definitions the facts are stated with, and example
      data;
    - the facts proved about the handlers, module by module.

    What a handler prints is left out of the handlers: they are the
    handlers on a standard output that takes every text. [Logged] gives
    the call-end persister with its prints, where a print that raises
    changes the outcome. The inbound-call handler only builds a TwiML
    document and is not modelled.
    Exceptions are those deriving from [Exception]; cancellation of a task
    is outside the model. *)

From Stdlib Require Import String Ascii NArith ZArith List Bool Lia.
From Stdlib Require DecimalString.
Import ListNotations.

Set Implicit Arguments.
Set Warnings "-register-all".

(* ===================================================================== *)
(** ** Python strings *)
(* ===================================================================== *)

Module PyStr.

Local Open Scope N_scope.

(** A Python [str] is a sequence of code points. *)
Definition pystr := list N.

(** A byte string ([bytes]): every element is below 256. *)
Definition bytes := list N.

(** String literals of the source, written as Rocq strings. *)
Definition str (s : string) : pystr :=
  map N_of_ascii (list_ascii_of_string s).

Definition eqb (a b : pystr) : bool :=
  if list_eq_dec N.eq_dec a b then true else false.

(** [str.isspace] on one code point: the code points CPython's
    [_PyUnicode_IsWhitespace] accepts. *)
Definition isspace (c : N) : bool :=
  ((9 <=? c) && (c <=? 13)) || ((28 <=? c) && (c <=? 32))
  || (c =? 133) || (c =? 160) || (c =? 5760)
  || ((8192 <=? c) && (c <=? 8202))
  || (c =? 8232) || (c =? 8233) || (c =? 8239) || (c =? 8287) || (c =? 12288).

Fixpoint lstrip (s : pystr) : pystr :=
  match s with
  | [] => []
  | c :: r => if isspace c then lstrip r else s
  end.

Definition rstrip (s : pystr) : pystr := rev (lstrip (rev s)).

(** [s.strip()] *)
Definition strip (s : pystr) : pystr := rstrip (lstrip s).

(** [s.replace(" ", "")]: every U+0020 is dropped. *)
Definition remove_spaces (s : pystr) : pystr :=
  filter (fun c => negb (c =? 32)) s.

(** [s.startswith(p)] *)
Fixpoint startswith (p s : pystr) : bool :=
  match p, s with
  | [], _ => true
  | _ :: _, [] => false
  | a :: p', b :: s' => (a =? b) && startswith p' s'
  end.

(** [p in s] for two strings: [p] occurs as a contiguous run of [s]. *)
Fixpoint contains (p s : pystr) : bool :=
  startswith p s ||
  match s with
  | [] => false
  | _ :: s' => contains p s'
  end.

(** [s.split(sep)] for a one-character separator: the pieces between the
    occurrences of [sep], empty pieces kept, never an empty list. *)
Fixpoint split (sep : N) (s : pystr) : list pystr :=
  match s with
  | [] => [[]]
  | c :: r =>
      if c =? sep then [] :: split sep r
      else match split sep r with
           | [] => [[c]]
           | p :: ps => (c :: p) :: ps
           end
  end.

(** [sep.join(parts)] *)
Fixpoint join (sep : pystr) (parts : list pystr) : pystr :=
  match parts with
  | [] => []
  | [p] => p
  | p :: ps => p ++ sep ++ join sep ps
  end.

(** [str.isascii] *)
Definition isascii (s : pystr) : bool := forallb (fun c => c <? 128) s.

Definition lower_ascii_char (c : N) : N :=
  if (65 <=? c) && (c <=? 90) then c + 32 else c.

Definition upper_ascii_char (c : N) : N :=
  if (97 <=? c) && (c <=? 122) then c - 32 else c.

(** Python's case mappings follow the Unicode tables. On ASCII strings they
    are the two functions above; on other strings they are what the
    interpreter's tables say, which the caller passes in ([Py.runtime]). *)

(** [s.lower()] *)
Definition lower_with (unicode_lower : pystr -> pystr) (s : pystr)
  : pystr :=
  if isascii s then map lower_ascii_char s else unicode_lower s.

(** [s.capitalize()]: the first character upper-cased, the rest
    lower-cased. *)
Definition capitalize_with (unicode_capitalize : pystr -> pystr)
    (s : pystr) : pystr :=
  if isascii s then
    match s with
    | [] => []
    | c :: r => upper_ascii_char c :: map lower_ascii_char r
    end
  else unicode_capitalize s.

(** [s.encode("utf-8")] on one code point (surrogates, which the strict
    codec refuses, do not occur in a header or in a decoded body). *)
Definition utf8_char (c : N) : bytes :=
  if c <? 128 then [c]
  else if c <? 2048 then [192 + c / 64; 128 + c mod 64]
  else if c <? 65536 then
    [224 + c / 4096; 128 + (c / 64) mod 64; 128 + c mod 64]
  else
    [240 + c / 262144; 128 + (c / 4096) mod 64;
     128 + (c / 64) mod 64; 128 + c mod 64].

Definition encode_utf8 (s : pystr) : bytes := flat_map utf8_char s.

Definition continuation (b : N) : bool := (128 <=? b) && (b <=? 191).

(** [b.decode("utf-8")] with the strict error handler: [None] stands for
    [UnicodeDecodeError] (a stray or missing continuation byte, an overlong
    form, a surrogate, a value above U+10FFFF). *)
Fixpoint decode_utf8 (b : bytes) : option pystr :=
  match b with
  | [] => Some []
  | b0 :: r0 =>
      if b0 <? 128 then option_map (cons b0) (decode_utf8 r0)
      else if (194 <=? b0) && (b0 <=? 223) then
        match r0 with
        | b1 :: r1 =>
            if continuation b1
            then option_map (cons ((b0 - 192) * 64 + (b1 - 128)))
                            (decode_utf8 r1)
            else None
        | _ => None
        end
      else if (224 <=? b0) && (b0 <=? 239) then
        match r0 with
        | b1 :: b2 :: r2 =>
            let c := (b0 - 224) * 4096 + (b1 - 128) * 64 + (b2 - 128) in
            if continuation b1 && continuation b2 && (2048 <=? c)
               && negb ((55296 <=? c) && (c <=? 57343))
            then option_map (cons c) (decode_utf8 r2)
            else None
        | _ => None
        end
      else if (240 <=? b0) && (b0 <=? 244) then
        match r0 with
        | b1 :: b2 :: b3 :: r3 =>
            let c := (b0 - 240) * 262144 + (b1 - 128) * 4096
                     + (b2 - 128) * 64 + (b3 - 128) in
            if continuation b1 && continuation b2 && continuation b3
               && (65536 <=? c) && (c <=? 1114111)
            then option_map (cons c) (decode_utf8 r3)
            else None
        | _ => None
        end
      else None
  end.

End PyStr.

(* ===================================================================== *)
(** ** [hashlib.sha256] and [hmac] *)
(* ===================================================================== *)

Module Sha256.

Import PyStr.
Local Open Scope N_scope.

Definition w32 (x : N) : N := x mod 4294967296.

Definition add32 (a b : N) : N := w32 (a + b).

Definition rotr (n x : N) : N :=
  N.lor (N.shiftr x n) (w32 (N.shiftl x (32 - n))).

Definition Ch (x y z : N) : N :=
  N.lxor (N.land x y) (N.land (N.lxor x 4294967295) z).

Definition Maj (x y z : N) : N :=
  N.lxor (N.lxor (N.land x y) (N.land x z)) (N.land y z).

Definition Sigma0 (x : N) : N :=
  N.lxor (N.lxor (rotr 2 x) (rotr 13 x)) (rotr 22 x).

Definition Sigma1 (x : N) : N :=
  N.lxor (N.lxor (rotr 6 x) (rotr 11 x)) (rotr 25 x).

Definition sigma0 (x : N) : N :=
  N.lxor (N.lxor (rotr 7 x) (rotr 18 x)) (N.shiftr x 3).

Definition sigma1 (x : N) : N :=
  N.lxor (N.lxor (rotr 17 x) (rotr 19 x)) (N.shiftr x 10).

(** The round constants and the initial state are the first 32 bits of the
    fractional parts of the cube roots of the first 64 primes, and of the
    square roots of the first 8. *)
Definition prime (n : nat) : bool :=
  forallb (fun d => negb (Nat.eqb (Nat.modulo n d) 0)) (seq 2 (n - 2)).

Definition primes : list N :=
  Eval vm_compute in map N.of_nat (filter prime (seq 2 310)).

(** The integer cube root of [n], found bit by bit from bit [bits - 1]
    down. *)
Fixpoint cube_root (bits : nat) (n r : N) : N :=
  match bits with
  | O => r
  | S b =>
      let c := r + 2 ^ N.of_nat b in
      cube_root b n (if c * c * c <=? n then c else r)
  end.

Definition K : list N :=
  Eval vm_compute in
    map (fun p => w32 (cube_root 40 (p * 2 ^ 96) 0)) primes.

(** Big-endian bytes of a number, [n] of them. *)
Fixpoint be_bytes (n : nat) (x : N) : bytes :=
  match n with
  | O => []
  | S n' => (x / 256 ^ N.of_nat n') mod 256 :: be_bytes n' x
  end.

Fixpoint be_words (n : nat) (b : bytes) : list N :=
  match n, b with
  | S n', b0 :: b1 :: b2 :: b3 :: r =>
      (((b0 * 256 + b1) * 256 + b2) * 256 + b3) :: be_words n' r
  | _, _ => []
  end.

(** The message followed by 0x80, zeros up to 56 modulo 64, and the bit
    length on eight bytes. *)
Definition pad (m : bytes) : bytes :=
  let len := N.of_nat (length m) in
  let zeros := (64 - ((len + 9) mod 64)) mod 64 in
  m ++ [128] ++ repeat 0 (N.to_nat zeros) ++ be_bytes 8 (8 * len).

(** The message schedule, newest word first: [w] holds the words computed
    so far, and each step adds the next one. *)
Fixpoint schedule (n : nat) (w : list N) : list N :=
  match n with
  | O => w
  | S n' =>
      let x := add32 (add32 (sigma1 (nth 1 w 0)) (nth 6 w 0))
                     (add32 (sigma0 (nth 14 w 0)) (nth 15 w 0)) in
      schedule n' (x :: w)
  end.

Definition state := (N * N * N * N * N * N * N * N)%type.

Definition round (s : state) (kw : N * N) : state :=
  let '(a, b, c, d, e, f, g, h) := s in
  let '(k, w) := kw in
  let t1 := add32 (add32 (add32 h (Sigma1 e)) (add32 (Ch e f g) k)) w in
  let t2 := add32 (Sigma0 a) (Maj a b c) in
  (add32 t1 t2, a, b, c, add32 d t1, e, f, g).

Definition compress (s : state) (block : bytes) : state :=
  let w := rev (schedule 48 (rev (be_words 16 block))) in
  let '(a, b, c, d, e, f, g, h) := fold_left round (combine K w) s in
  let '(a0, b0, c0, d0, e0, f0, g0, h0) := s in
  (add32 a0 a, add32 b0 b, add32 c0 c, add32 d0 d,
   add32 e0 e, add32 f0 f, add32 g0 g, add32 h0 h).

(** The blocks of a padded message, [n] of them, each of 64 bytes. *)
Fixpoint blocks (n : nat) (m : bytes) : list bytes :=
  match n with
  | O => []
  | S n' => firstn 64 m :: blocks n' (skipn 64 m)
  end.

Definition init : state :=
  Eval vm_compute in
    match map (fun p => w32 (N.sqrt (p * 2 ^ 64))) (firstn 8 primes) with
    | [a; b; c; d; e; f; g; h] => (a, b, c, d, e, f, g, h)
    | _ => (0, 0, 0, 0, 0, 0, 0, 0)
    end.

(** [hashlib.sha256(m).digest()] *)
Definition sha256 (m : bytes) : bytes :=
  let p := pad m in
  let '(a, b, c, d, e, f, g, h) :=
    fold_left compress (blocks (length p / 64) p) init in
  flat_map (be_bytes 4) [a; b; c; d; e; f; g; h].

Definition xor_pad (p : N) (key : bytes) : bytes :=
  map (fun b => N.lxor b p) (key ++ repeat 0 (64 - length key)).

(** [hmac.new(key, msg, hashlib.sha256).digest()] *)
Definition hmac_sha256 (key msg : bytes) : bytes :=
  let key' := if (64 <? N.of_nat (length key)) then sha256 key else key in
  sha256 (xor_pad 92 key' ++ sha256 (xor_pad 54 key' ++ msg)).

Definition hex_digit (d : N) : N := if d <? 10 then 48 + d else 87 + d.

(** [.hexdigest()]: two lowercase hexadecimal digits per byte. *)
Definition hexdigest (b : bytes) : pystr :=
  flat_map (fun x => [hex_digit ((x / 16) mod 16); hex_digit (x mod 16)]) b.

End Sha256.


(* ===================================================================== *)
(** ** Python values, exceptions and the error monad *)
(* ===================================================================== *)

Module Py.

Import PyStr.

(** The values that reach the handlers: parsed JSON documents, datastore
    rows and the dictionaries the handlers build. JSON numbers are
    integers here; floating-point numbers are outside the model. *)
Inductive value :=
| VNone
| VBool (b : bool)
| VInt (z : Z)
| VStr (s : pystr)
| VList (l : list value)
| VDict (d : list (pystr * value)).

(** A [dict] with string keys, in insertion order, keys distinct. *)
Definition dict (V : Type) := list (pystr * V).

Section Dict.
Variable V : Type.

(** [d.get(k)] *)
Fixpoint dict_get (k : pystr) (d : dict V) : option V :=
  match d with
  | [] => None
  | (k', v) :: r => if eqb k k' then Some v else dict_get k r
  end.

(** [d[k] = v]: the value of an existing key is replaced, a new key goes
    to the end. *)
Fixpoint dict_set (k : pystr) (v : V) (d : dict V) : dict V :=
  match d with
  | [] => [(k, v)]
  | (k', v') :: r =>
      if eqb k k' then (k, v) :: r else (k', v') :: dict_set k v r
  end.

(** [dict(pairs)]: later pairs win. *)
Definition dict_of (pairs : list (pystr * V)) : dict V :=
  fold_left (fun d kv => dict_set (fst kv) (snd kv) d) pairs [].
End Dict.

(** The exceptions that occur. All of them derive from [Exception], so
    [except Exception] catches each one. *)
Inductive exn :=
| AttributeError (v : value) (attr : string)
| KeyError (key : value)
| IndexError
| TypeError (v : value)
| ValueError
| UnicodeDecodeError
| UnboundLocalError (name : string)
| HTTPException (status_code : N) (detail : pystr)
| WebSocketDisconnect
| Error (name : string) (message : pystr).

Inductive result (A : Type) :=
| Ok (a : A)
| Raise (e : exn).

Arguments Ok {A} a.
Arguments Raise {A} e.

Definition bind {A B} (m : result A) (k : A -> result B) : result B :=
  match m with
  | Ok a => k a
  | Raise e => Raise e
  end.

Declare Scope py_scope.
Delimit Scope py_scope with py.
Notation "x <- m ;; k" := (bind m (fun x => k))
  (at level 61, m at next level, right associativity) : py_scope.
Notation "m ;;; k" := (bind m (fun _ => k))
  (at level 61, right associativity) : py_scope.
Local Open Scope py_scope.

(** [try: body except Exception as e: handler(e)]: every exception of the
    model derives from [Exception]. *)
Definition try_except {A} (body : result A) (handler : exn -> result A)
  : result A :=
  match body with
  | Ok a => Ok a
  | Raise e => handler e
  end.

(** [for x in xs: ...] with a body that may raise: the elements are
    visited in order and the first exception ends the loop. *)
Fixpoint for_each {A S} (body : S -> A -> result S) (xs : list A) (s : S)
  : result S :=
  match xs with
  | [] => Ok s
  | x :: r => s' <- body s x ;; for_each body r s'
  end.

(** What the interpreter and the standard library decide and the source
    does not: Unicode case mapping away from ASCII, the [repr] of a
    container, the text of an exception, and the JSON parser. *)
Record runtime := {
  unicode_lower : pystr -> pystr;
  unicode_capitalize : pystr -> pystr;
  repr : value -> pystr;
  exception_text : exn -> pystr;
  json_loads : pystr -> result value
}.

Definition lower (R : runtime) : pystr -> pystr :=
  lower_with (unicode_lower R).

Definition capitalize (R : runtime) : pystr -> pystr :=
  capitalize_with (unicode_capitalize R).

(** [bool(v)] *)
Definition truthy (v : value) : bool :=
  match v with
  | VNone => false
  | VBool b => b
  | VInt z => negb (z =? 0)%Z
  | VStr s => match s with [] => false | _ => true end
  | VList l => match l with [] => false | _ => true end
  | VDict d => match d with [] => false | _ => true end
  end.

(** [str(v)], which is also what an f-string writes for [{v}]. *)
Definition py_str (R : runtime) (v : value) : pystr :=
  match v with
  | VNone => str "None"
  | VBool true => str "True"
  | VBool false => str "False"
  | VInt z => str (DecimalString.NilZero.string_of_int (Z.to_int z))
  | VStr s => s
  | VList _ | VDict _ => repr R v
  end.

(** [v.get(k)] and [v.get(k, default)]: only a [dict] has the method. *)
Definition get (v : value) (k : string) : result value :=
  match v with
  | VDict d =>
      Ok (match dict_get (str k) d with Some x => x | None => VNone end)
  | _ => Raise (AttributeError v "get")
  end.

Definition get_or (v : value) (k : string) (default : value) : result value :=
  match v with
  | VDict d =>
      Ok (match dict_get (str k) d with Some x => x | None => default end)
  | _ => Raise (AttributeError v "get")
  end.

(** [v[k]] for a string key. *)
Definition item (v : value) (k : string) : result value :=
  match v with
  | VDict d =>
      match dict_get (str k) d with
      | Some x => Ok x
      | None => Raise (KeyError (VStr (str k)))
      end
  | _ => Raise (TypeError v)
  end.

(** [v[0]] *)
Definition item0 (v : value) : result value :=
  match v with
  | VList (x :: _) => Ok x
  | VStr (c :: _) => Ok (VStr [c])
  | VList [] | VStr [] => Raise IndexError
  | VDict _ => Raise (KeyError (VInt 0))
  | _ => Raise (TypeError v)
  end.

(** [len(v)] *)
Definition len (v : value) : result nat :=
  match v with
  | VStr s => Ok (length s)
  | VList l => Ok (length l)
  | VDict d => Ok (length d)
  | _ => Raise (TypeError v)
  end.

(** The elements [for x in v] visits. *)
Definition iter (v : value) : result (list value) :=
  match v with
  | VList l => Ok l
  | VStr s => Ok (map (fun c => VStr [c]) s)
  | VDict d => Ok (map (fun kv => VStr (fst kv)) d)
  | _ => Raise (TypeError v)
  end.

(** [v[:3]] *)
Definition slice3 (v : value) : result value :=
  match v with
  | VList l => Ok (VList (firstn 3 l))
  | VStr s => Ok (VStr (firstn 3 s))
  | VDict _ => Raise (KeyError v)
  | _ => Raise (TypeError v)
  end.

(** [k in v] for a string [k]. *)
Definition contains_key (k : string) (v : value) : result bool :=
  match v with
  | VDict d => Ok (match dict_get (str k) d with Some _ => true | None => false end)
  | VList l =>
      Ok (existsb (fun x => match x with VStr s => eqb s (str k) | _ => false end) l)
  | VStr s => Ok (contains (str k) s)
  | _ => Raise (TypeError v)
  end.

(** [sep.join(items)]: every item has to be a [str]. *)
Fixpoint strings (items : list value) : result (list pystr) :=
  match items with
  | [] => Ok []
  | VStr s :: r => ss <- strings r ;; Ok (s :: ss)
  | v :: _ => Raise (TypeError v)
  end.

Definition str_join (sep : string) (items : list value) : result pystr :=
  ss <- strings items ;; Ok (PyStr.join (str sep) ss).

(** A method of [str] called on [v]: anything else has no such attribute. *)
Definition str_method (attr : string) (v : value) : result pystr :=
  match v with
  | VStr s => Ok s
  | _ => Raise (AttributeError v attr)
  end.

(** The empty dictionary [{}]. *)
Definition empty : value := VDict [].

(** A dictionary display [{"k": v, ...}]. *)
Definition obj (fields : list (string * value)) : value :=
  VDict (map (fun kv => (str (fst kv), snd kv)) fields).

Definition text (s : string) : value := VStr (str s).

(** The phone normalization every handler starts with:
    [phone_number.strip().replace(" ", "")], then a ["+"] in front unless
    there is one. *)
Definition normalized_number (phone_number : pystr) : pystr :=
  let n := remove_spaces (strip phone_number) in
  if startswith (str "+") n then n else str "+" ++ n.

(** The hour of [datetime.datetime.now()] as the handlers bucket it. *)
Definition time_of_day (hour : N) : pystr :=
  if ((5 <=? hour) && (hour <? 12))%N then str "morning"
  else if ((12 <=? hour) && (hour <? 17))%N then str "afternoon"
  else str "evening".

End Py.

(* ===================================================================== *)
(** ** Collaborators: the datastore client and the web framework *)
(* ===================================================================== *)

Module Supabase.

Import PyStr Py.

(** The datastore client, seen from a handler: what a request returns.
    [select t cols c v] is the [data] of
    [supabase.table(t).select(cols).eq(c, v).execute()], and [insert t row]
    the [data] of [supabase.table(t).insert(row).execute()]; either call
    may raise. *)
Record client := {
  select : string -> string -> string -> value -> result value;
  insert : string -> value -> result value
}.

(** An insert request a handler has issued: the table and the row. *)
Definition write := (string * value)%type.

(** A computation that issues inserts on its way: the requests issued, in
    order, and how the computation ended. *)
Definition writer (A : Type) := (list write * result A)%type.

Definition pure {A} (r : result A) : writer A := ([], r).

Definition wbind {A B} (m : writer A) (k : A -> writer B) : writer B :=
  match m with
  | (w, Ok a) => let (w', r) := k a in (w ++ w', r)
  | (w, Raise e) => (w, Raise e)
  end.

Definition issue_insert (sb : client) (table : string) (row : value)
  : writer value :=
  ([(table, row)], insert sb table row).

End Supabase.

Module Http.

Import Py.

(** What the framework answers for a handler's outcome: 200 with the
    returned document, the status of a raised [HTTPException], and 500 for
    any other exception. *)
Definition status {A : Type} (r : result A) : N :=
  match r with
  | Ok _ => 200
  | Raise (HTTPException c _) => c
  | Raise _ => 500
  end.

End Http.

(* ===================================================================== *)
(** ** [POST /twilio/call-end]: [handle_call_end] *)
(* ===================================================================== *)

Module CallEnd.

Import PyStr Py Supabase.
Local Open Scope string_scope.
Local Open Scope list_scope.
Local Open Scope py_scope.

Notation "x <~ m ;; k" := (wbind m (fun x => k))
  (at level 61, m at next level, right associativity) : py_scope.

(** [hmac.compare_digest(a, b)] on two [str]: both have to be ASCII,
    otherwise the call raises [TypeError]. *)
Definition compare_digest (a b : pystr) : result bool :=
  if isascii a && isascii b then Ok (eqb a b) else Raise (TypeError (VStr b)).

(** [dict(part.split("=") for part in signature_header.split(","))]: every
    part has to split in exactly two, otherwise [dict] raises
    [ValueError]. *)
Definition signature_parts (signature_header : pystr)
  : result (dict pystr) :=
  for_each
    (fun d part =>
       match split 61 part with
       | [k; v] => Ok (dict_set k v d)
       | _ => Raise ValueError
       end)
    (split 44 signature_header) [].

(** [HMAC-SHA256(secret, "<timestamp>.<body>")] as lowercase hex. *)
Definition expected_signature (secret timestamp body_str : pystr) : pystr :=
  Sha256.hexdigest
    (Sha256.hmac_sha256 (encode_utf8 secret)
       (encode_utf8 (timestamp ++ str "." ++ body_str))).

(** The first part of [handle_call_end], up to the signature check
    (lines 194 to 225): the header is read and parsed, then the body is
    read and decoded, then the digests are compared. Returns [body_str]. *)
Definition authenticate (secret : pystr) (signature_header : option pystr)
    (body : bytes) : result pystr :=
  match signature_header with
  | None | Some [] =>
      Raise (HTTPException 401 (str "Missing ElevenLabs-Signature header"))
  | Some header =>
      parts <- signature_parts header ;;
      match dict_get (str "t") parts, dict_get (str "v0") parts with
      | Some ((_ :: _) as timestamp), Some ((_ :: _) as provided_signature) =>
          match decode_utf8 body with
          | None => Raise UnicodeDecodeError
          | Some body_str =>
              same <- compare_digest
                        (expected_signature secret timestamp body_str)
                        provided_signature ;;
              if same then Ok body_str
              else Raise (HTTPException 401 (str "Invalid signature"))
          end
      | _, _ =>
          Raise (HTTPException 401 (str "Invalid ElevenLabs-Signature format"))
      end
  end.

(** Lines 231 to 237: [conversation_id] and [caller_id], the latter from
    the call metadata or else from the initiation data. *)
Definition conversation_and_caller (data : value) : result (value * value) :=
  d <- get_or data "data" empty ;;
  conversation_id <- get d "conversation_id" ;;
  d <- get_or data "data" empty ;;
  m <- get_or d "metadata" empty ;;
  p <- get_or m "phone_call" empty ;;
  caller_id <- get p "external_number" ;;
  caller_id <-
    (if truthy caller_id then Ok caller_id
     else
       c <- get_or data "conversation_initiation_client_data" empty ;;
       v <- get_or c "dynamic_variables" empty ;;
       get v "system__caller_id") ;;
  Ok (conversation_id, caller_id).

(** Lines 250 to 257: one line per entry that has a message. *)
Definition transcript_line (R : runtime) (lines : list pystr) (entry : value)
  : result (list pystr) :=
  role <- get_or entry "role" (text "unknown") ;;
  message <- get_or entry "message" (text "") ;;
  if truthy message then
    r <- str_method "capitalize" role ;;
    Ok (lines ++ [capitalize R r ++ str ": " ++ py_str R message])
  else Ok lines.

Definition full_transcript (R : runtime) (transcript : value) : result pystr :=
  entries <- iter transcript ;;
  transcript_lines <- for_each (transcript_line R) entries [] ;;
  Ok (PyStr.join [10%N] transcript_lines).

Definition reply (status message : pystr) : value :=
  obj [("status", VStr status); ("message", VStr message)].

(** Lines 271 to 285: the caller's row, created when there is none. *)
Definition user_id_of (sb : client) (normalized : pystr) : writer value :=
  users <~ pure (select sb "users" "id" "phone_number" (VStr normalized)) ;;
  found <~ pure (if truthy users
                 then n <- len users ;; Ok (Nat.ltb 0 n)
                 else Ok false) ;;
  if found then pure (u <- item0 users ;; item u "id")
  else
    new_user <~ issue_insert sb "users"
                  (obj [("phone_number", VStr normalized);
                        ("user_name", text "Unknown User")]) ;;
    pure (u <- item0 new_user ;; item u "id").

(** [data.get("data", {}).get("transcript", [])] *)
Definition transcript_of (data : value) : result value :=
  d <- get_or data "data" empty ;; get_or d "transcript" (VList []).

(** The body of the [try] (lines 244 to 299). *)
Definition save (R : runtime) (sb : client) (data caller_id : value)
  : writer value :=
  transcript <~ pure (transcript_of data) ;;
  if negb (truthy transcript) then
    pure (Ok (reply (str "error") (str "No transcript available")))
  else
    text_ <~ pure (full_transcript R transcript) ;;
    metadata <~ pure (d <- get_or data "data" empty ;;
                      get_or d "metadata" empty) ;;
    analysis <~ pure (get_or data "analysis" empty) ;;
    call_duration_secs <~ pure (get metadata "call_duration_secs") ;;
    happiness_data <~ pure (r <- get_or analysis "data_collection_results" empty ;;
                            get_or r "happy does the person seem?" empty) ;;
    happiness_level <~ pure (get happiness_data "value") ;;
    phone_call <~ pure (get_or metadata "phone_call" empty) ;;
    call_direction <~ pure (get phone_call "direction") ;;
    number <~ pure (str_method "strip" caller_id) ;;
    let normalized := normalized_number number in
    user_id <~ user_id_of sb normalized ;;
    _ <~ issue_insert sb "conversations"
           (obj [("user_id", user_id);
                 ("phone_number", VStr normalized);
                 ("transcript", VStr text_);
                 ("call_duration_secs", call_duration_secs);
                 ("happiness_level", happiness_level);
                 ("call_direction", call_direction)]) ;;
    pure (Ok (reply (str "success")
                (str "Transcript and additional data saved"))).

(** Lines 231 to 303: what happens to an authenticated payload. An
    exception of the [try] body becomes an error reply; one of the lines
    before the [try] is not caught. The prints return here;
    [Logged.persist_printing] has them. *)
Definition persist (R : runtime) (sb : client) (data : value) : writer value :=
  ids <~ pure (conversation_and_caller data) ;;
  let (conversation_id, caller_id) := ids in
  if negb (truthy conversation_id) || negb (truthy caller_id) then
    pure (Ok (reply (str "error") (str "Missing required fields")))
  else
    match save R sb data caller_id with
    | (w, Ok v) => (w, Ok v)
    | (w, Raise e) => (w, Ok (reply (str "error") (exception_text R e)))
    end.

Definition handle_call_end (R : runtime) (secret : pystr) (sb : client)
    (signature_header : option pystr) (body : bytes) : writer value :=
  body_str <~ pure (authenticate secret signature_header body) ;;
  data <~ pure (json_loads R body_str) ;;
  persist R sb data.

End CallEnd.

(* ===================================================================== *)
(** ** [handle_call_end], lines 239 to 303, with what they print *)
(* ===================================================================== *)

Module Logged.

Import PyStr Py Supabase CallEnd.
Local Open Scope string_scope.
Local Open Scope list_scope.
Local Open Scope py_scope.

(** [print(text)] on the standard output of the process: the call
    returns, or it raises (a text the stream cannot encode, a stream that
    is closed). *)
Definition output := pystr -> result unit.

(** The texts printed at lines 240, 247, 258, 297 and 302. *)
Definition missing_line : pystr :=
  str "Missing conversation_id or caller_id in call end notification".

Definition no_transcript_line : pystr := str "No transcript found in payload".

Definition transcript_log (full_transcript : pystr) : pystr :=
  str "Formatted transcript:" ++ [10%N] ++ full_transcript.

Definition saved_line (R : runtime) (user_id : value) : pystr :=
  str "Transcript and additional data saved to Supabase for user_id: "
  ++ py_str R user_id.

Definition error_line (R : runtime) (e : exn) : pystr :=
  str "Error saving data to Supabase: " ++ exception_text R e.

(** The body of the [try] (lines 244 to 299), prints included: a print
    that raises there is an exception of the body like any other. *)
Definition save_printing (R : runtime) (out : output) (sb : client)
    (data caller_id : value) : writer value :=
  transcript <~ pure (transcript_of data) ;;
  if negb (truthy transcript) then
    _ <~ pure (out no_transcript_line) ;;
    pure (Ok (reply (str "error") (str "No transcript available")))
  else
    text_ <~ pure (full_transcript R transcript) ;;
    _ <~ pure (out (transcript_log text_)) ;;
    metadata <~ pure (d <- get_or data "data" empty ;;
                      get_or d "metadata" empty) ;;
    analysis <~ pure (get_or data "analysis" empty) ;;
    call_duration_secs <~ pure (get metadata "call_duration_secs") ;;
    happiness_data <~ pure (r <- get_or analysis "data_collection_results" empty ;;
                            get_or r "happy does the person seem?" empty) ;;
    happiness_level <~ pure (get happiness_data "value") ;;
    phone_call <~ pure (get_or metadata "phone_call" empty) ;;
    call_direction <~ pure (get phone_call "direction") ;;
    number <~ pure (str_method "strip" caller_id) ;;
    let normalized := normalized_number number in
    user_id <~ user_id_of sb normalized ;;
    _ <~ issue_insert sb "conversations"
           (obj [("user_id", user_id);
                 ("phone_number", VStr normalized);
                 ("transcript", VStr text_);
                 ("call_duration_secs", call_duration_secs);
                 ("happiness_level", happiness_level);
                 ("call_direction", call_direction)]) ;;
    _ <~ pure (out (saved_line R user_id)) ;;
    pure (Ok (reply (str "success")
                (str "Transcript and additional data saved"))).

(** Lines 239 to 303, prints included. The print of line 240 is outside
    the [try], and the print of line 302 is inside the [except] clause:
    an exception of either leaves the handler. *)
Definition persist_printing (R : runtime) (out : output) (sb : client)
    (data : value) : writer value :=
  ids <~ pure (conversation_and_caller data) ;;
  let (conversation_id, caller_id) := ids in
  if negb (truthy conversation_id) || negb (truthy caller_id) then
    _ <~ pure (out missing_line) ;;
    pure (Ok (reply (str "error") (str "Missing required fields")))
  else
    match save_printing R out sb data caller_id with
    | (w, Ok v) => (w, Ok v)
    | (w, Raise e) =>
        (w, _ <- out (error_line R e) ;;
            Ok (reply (str "error") (exception_text R e)))
    end.

End Logged.

(* ===================================================================== *)
(** ** [GET /get-caller-name] and [GET /get-loved-one-profile] *)
(* ===================================================================== *)

Module Profile.

Import PyStr Py Supabase.
Local Open Scope string_scope.
Local Open Scope list_scope.
Local Open Scope py_scope.

(** [not data or len(data) == 0] *)
Definition no_rows (data : value) : result bool :=
  if truthy data then n <- len data ;; Ok (Nat.eqb n 0) else Ok true.

Definition get_caller_name (sb : client) (phone_number : pystr)
  : result value :=
  let normalized := normalized_number phone_number in
  try_except
    (users <- select sb "users" "user_name" "phone_number" (VStr normalized) ;;
     found <- (if truthy users then n <- len users ;; Ok (Nat.ltb 0 n)
               else Ok false) ;;
     if found then
       u <- item0 users ;; name <- item u "user_name" ;;
       Ok (obj [("name", name)])
     else Ok (obj [("name", text "Valued Customer")]))
    (fun _ => Ok (obj [("name", text "Valued Customer")])).

(** Lines 367 to 372: the lower-cased time-of-day tags of a medication,
    from a list of tags or from one comma-separated string. *)
Definition times (R : runtime) (time_taken : value) : list pystr :=
  match time_taken with
  | VList l =>
      map (fun t => match t with
                    | VStr s => lower R s
                    | _ => lower R (py_str R t)
                    end) l
  | _ => map (fun t => lower R (strip t)) (split 44 (py_str R time_taken))
  end.

(** [any(name in t for t in times)] *)
Definition any_in (name : string) (ts : list pystr) : bool :=
  existsb (contains (str name)) ts.

Definition buckets := (list value * list value * list value)%type.

(** One turn of the loop of lines 363 to 379. *)
Definition bucket_medication (R : runtime) (b : buckets) (med : value)
  : result buckets :=
  med_name <- item med "medication_name" ;;
  time_taken <- get_or med "time_taken" (VList []) ;;
  let ts := times R time_taken in
  let '(morning_meds, afternoon_meds, evening_meds) := b in
  Ok (if any_in "morning" ts then morning_meds ++ [med_name] else morning_meds,
      if any_in "afternoon" ts then afternoon_meds ++ [med_name]
      else afternoon_meds,
      if any_in "evening" ts then evening_meds ++ [med_name] else evening_meds).

Definition bucket_medications (R : runtime) (medications : value)
  : result buckets :=
  meds <- iter medications ;;
  for_each (bucket_medication R) meds ([], [], []).

(** [", ".join(meds) if meds else "none"] *)
Definition names_or_none (meds : list value) : result value :=
  match meds with
  | [] => Ok (text "none")
  | _ => s <- str_join ", " meds ;; Ok (VStr s)
  end.

(** Lines 403 to 408: the ["medications"] entry of the profile. *)
Definition medications_entry (medications : value) (b : buckets)
  : result value :=
  let '(morning_meds, afternoon_meds, evening_meds) := b in
  n <- len medications ;;
  morning <- names_or_none morning_meds ;;
  afternoon <- names_or_none afternoon_meds ;;
  evening <- names_or_none evening_meds ;;
  Ok (obj [("has_medications", VBool (Nat.ltb 0 n));
           ("morning_medications", morning);
           ("afternoon_medications", afternoon);
           ("evening_medications", evening)]).

(** One turn of the loop of lines 383 to 389. *)
Definition upcoming_appointment (acc : list value) (appt : value)
  : result (list value) :=
  title <- item appt "appointment_title" ;;
  date <- item appt "appointment_date" ;;
  time <- item appt "appointment_time" ;;
  frequency <- item appt "frequency" ;;
  Ok (acc ++ [obj [("title", title); ("date", date); ("time", time);
                   ("frequency", frequency)]]).

(** [data[0] if data else {}] *)
Definition first_or_empty (data : value) : result value :=
  if truthy data then item0 data else Ok (VDict []).

(** The body of the [try] of [get_loved_one_profile_query]
    (lines 317 to 429). *)
Definition assemble (R : runtime) (sb : client) (normalized : pystr)
  : result value :=
  users <- select sb "users" "id, user_name" "phone_number" (VStr normalized) ;;
  none <- no_rows users ;;
  if (none : bool) then
    Ok (obj [("caller_name", text "Valued Customer");
             ("error", text "User not found")])
  else
    u <- item0 users ;; user_id <- item u "id" ;;
    u <- item0 users ;; user_name <- item u "user_name" ;;
    loved_ones <- select sb "loved_ones" "*" "user_id" user_id ;;
    none <- no_rows loved_ones ;;
    if (none : bool) then
      Ok (obj [("caller_name", user_name);
               ("error", text "No loved one profile found")])
    else
      loved_one <- item0 loved_ones ;;
      loved_one_id <- item loved_one "id" ;;
      _ <- item loved_one "name" ;;
      medications <- select sb "medications" "*" "loved_one_id" loved_one_id ;;
      prefs <- select sb "call_preferences" "*" "loved_one_id" loved_one_id ;;
      call_preferences <- first_or_empty prefs ;;
      notif <- select sb "notification_settings" "*" "loved_one_id"
                 loved_one_id ;;
      notification_settings <- first_or_empty notif ;;
      appointments <- select sb "consolidated_appointments" "*"
                        "loved_one_id" loved_one_id ;;
      b <- bucket_medications R medications ;;
      appts <- iter appointments ;;
      upcoming_appointments <- for_each upcoming_appointment appts [] ;;
      name <- item loved_one "name" ;;
      nickname <- item loved_one "nickname" ;;
      age_range <- item loved_one "age_range" ;;
      gender <- item loved_one "gender" ;;
      relationship <- item loved_one "relationship_to_user" ;;
      meds <- medications_entry medications b ;;
      length_ <- get_or call_preferences "call_length" (text "medium") ;;
      voice <- get_or call_preferences "voice_preference" (text "female") ;;
      frequency <- get_or call_preferences "call_frequency"
                     (text "daily check ins") ;;
      medication_reminders <- get_or call_preferences "medication_reminders"
                                (VBool false) ;;
      sleep_quality <- get_or call_preferences "sleep_quality" (VBool false) ;;
      mood_check <- get_or call_preferences "mood_check" (VBool false) ;;
      appointments_flag <- get_or call_preferences "upcoming_appointments"
                             (VBool false) ;;
      daily_summary <- get_or notification_settings "daily_call_summary"
                         (VBool false) ;;
      missed_calls <- get_or notification_settings "missed_calls"
                        (VBool false) ;;
      low_sentiment <- get_or notification_settings "low_sentiment"
                         (VBool false) ;;
      Ok (obj
            [("caller", obj [("name", user_name)]);
             ("loved_one",
              obj [("name", name); ("nickname", nickname);
                   ("age_range", age_range); ("gender", gender);
                   ("relationship", relationship)]);
             ("medications", meds);
             ("call_settings",
              obj [("length", length_); ("voice", voice);
                   ("frequency", frequency);
                   ("checklist",
                    obj [("medication_reminders", medication_reminders);
                         ("sleep_quality", sleep_quality);
                         ("mood_check", mood_check);
                         ("upcoming_appointments", appointments_flag)])]);
             ("notifications",
              obj [("daily_summary", daily_summary);
                   ("missed_calls", missed_calls);
                   ("low_sentiment", low_sentiment)]);
             ("appointments", VList upcoming_appointments)]).

(** What the [except] clause of lines 431 to 434 returns. *)
Definition failed (R : runtime) (e : exn) : value :=
  obj [("caller_name", text "Valued Customer");
       ("error", VStr (exception_text R e))].

Definition get_loved_one_profile_query (R : runtime) (sb : client)
    (phone_number : pystr) : result value :=
  try_except (assemble R sb (normalized_number phone_number))
    (fun e => Ok (failed R e)).

End Profile.

(* ===================================================================== *)
(** ** The dynamic variables of a conversation *)
(* ===================================================================== *)

Module Variables.

Import PyStr Py.
Local Open Scope string_scope.
Local Open Scope list_scope.
Local Open Scope py_scope.

(** [profile.get(a, {}).get(b, default)] *)
Definition get2 (a b : string) (default : value) (profile : value)
  : result value :=
  d <- get_or profile a empty ;; get_or d b default.

(** [str(profile.get(a, {}).get(b, False)).lower()] *)
Definition flag2 (R : runtime) (a b : string) (profile : value)
  : result value :=
  v <- get2 a b (VBool false) profile ;; Ok (VStr (lower R (py_str R v))).

(** [str(profile.get(a, {}).get(b, {}).get(c, False)).lower()] *)
Definition flag3 (R : runtime) (a b c : string) (profile : value)
  : result value :=
  d <- get2 a b empty profile ;;
  v <- get_or d c (VBool false) ;;
  Ok (VStr (lower R (py_str R v))).

(** The entries of the dictionary display of lines 123 to 154 (and again
    506 to 537), in the order they are evaluated. *)
Definition entries (R : runtime) : list (string * (value -> result value)) :=
  [("caller_name", get2 "caller" "name" (text "there"));
   ("loved_one_name", get2 "loved_one" "name" (text ""));
   ("loved_one_nickname", get2 "loved_one" "nickname" (text ""));
   ("loved_one_gender", get2 "loved_one" "gender" (text ""));
   ("loved_one_relationship", get2 "loved_one" "relationship" (text ""));
   ("has_medications", flag2 R "medications" "has_medications");
   ("morning_medications",
    get2 "medications" "morning_medications" (text "none"));
   ("afternoon_medications",
    get2 "medications" "afternoon_medications" (text "none"));
   ("evening_medications",
    get2 "medications" "evening_medications" (text "none"));
   ("call_length", get2 "call_settings" "length" (text "medium"));
   ("voice_preference", get2 "call_settings" "voice" (text "female"));
   ("call_frequency",
    get2 "call_settings" "frequency" (text "daily check ins"));
   ("check_medications",
    flag3 R "call_settings" "checklist" "medication_reminders");
   ("check_sleep", flag3 R "call_settings" "checklist" "sleep_quality");
   ("check_mood", flag3 R "call_settings" "checklist" "mood_check");
   ("check_appointments",
    flag3 R "call_settings" "checklist" "upcoming_appointments");
   ("notify_daily_summary", flag2 R "notifications" "daily_summary");
   ("notify_missed_calls", flag2 R "notifications" "missed_calls");
   ("notify_low_sentiment", flag2 R "notifications" "low_sentiment")].

Definition dynamic_variables (R : runtime) (profile : value)
  : result (dict value) :=
  for_each
    (fun d entry =>
       v <- snd entry profile ;; Ok (dict_set (str (fst entry)) v d))
    (entries R) [].

Definition client_data (dynamic_variables : dict value) : value :=
  obj [("type", text "conversation_initiation_client_data");
       ("dynamic_variables", VDict dynamic_variables)].

End Variables.

(* ===================================================================== *)
(** ** [POST /twilio/conversation-initiation] *)
(* ===================================================================== *)

Module ConversationInitiation.

Import PyStr Py Variables.
Local Open Scope string_scope.
Local Open Scope list_scope.
Local Open Scope py_scope.

(** The answer of [httpx]'s [client.get(url)], by what its two methods
    do. *)
Record response := {
  raise_for_status : result unit;
  json : result value
}.

(** The fallback of lines 94 to 99 and 178 to 183. *)
Definition there : value := client_data [(str "caller_name", text "there")].

Definition profile_url (R : runtime) (caller_id : value) : pystr :=
  str "https://520d-83-135-183-58.ngrok-free.app/get-loved-one-profile?phone_number="
  ++ py_str R caller_id.

(** The body of the [try] (lines 85 to 172): [request_json] is the outcome
    of [await request.json()], [http_get] the HTTP client and [hour] the
    local hour. *)
Definition initiation (R : runtime) (http_get : pystr -> result response)
    (request_json : result value) (hour : N) : result value :=
  data <- request_json ;;
  caller_id <- get_or data "caller_id" VNone ;;
  if negb (truthy caller_id) then Ok there
  else
    resp <- http_get (profile_url R caller_id) ;;
    _ <- raise_for_status resp ;;
    profile <- json resp ;;
    has_error <- contains_key "error" profile ;;
    if (has_error : bool) then
      name <- get_or profile "caller_name" (text "there") ;;
      Ok (client_data [(str "caller_name", name)])
    else
      dv <- dynamic_variables R profile ;;
      Ok (client_data
            (dict_set (str "time_of_day") (VStr (time_of_day hour)) dv)).

Definition handle_conversation_initiation (R : runtime)
    (http_get : pystr -> result response) (request_json : result value)
    (hour : N) : result value :=
  try_except (initiation R http_get request_json hour) (fun _ => Ok there).

End ConversationInitiation.

(* ===================================================================== *)
(** ** [GET /initiate_call/{phone_number}] *)
(* ===================================================================== *)

Module InitiateCall.

Import PyStr Py Supabase Variables.
Local Open Scope string_scope.
Local Open Scope list_scope.
Local Open Scope py_scope.

(** [f"{appt.get('title')} on {appt.get('date')} at {appt.get('time')}"] *)
Definition appt_detail (R : runtime) (acc : list pystr) (appt : value)
  : result (list pystr) :=
  title <- get appt "title" ;;
  date <- get appt "date" ;;
  time <- get appt "time" ;;
  Ok (acc ++ [py_str R title ++ str " on " ++ py_str R date ++ str " at "
              ++ py_str R time]).

(** Lines 539 to 557: the appointment variables, added to the dictionary
    built so far. *)
Definition appointment_variables (R : runtime) (profile : value)
    (dv : dict value) : result (dict value) :=
  appointments <- get_or profile "appointments" (VList []) ;;
  if truthy appointments then
    next_appt <- item0 appointments ;;
    let dv := dict_set (str "has_upcoming_appointment") (text "true") dv in
    title <- get_or next_appt "title" (text "") ;;
    let dv := dict_set (str "next_appointment_title") title dv in
    date <- get_or next_appt "date" (text "") ;;
    let dv := dict_set (str "next_appointment_date") date dv in
    time <- get_or next_appt "time" (text "") ;;
    let dv := dict_set (str "next_appointment_time") time dv in
    first3 <- slice3 appointments ;;
    appts <- iter first3 ;;
    appt_details <- for_each (appt_detail R) appts [] ;;
    Ok (dict_set (str "upcoming_appointments")
          (VStr (PyStr.join (str ", ") appt_details)) dv)
  else
    let dv := dict_set (str "has_upcoming_appointment") (text "false") dv in
    Ok (dict_set (str "upcoming_appointments") (text "none") dv).

(** Lines 505 to 570: everything the call is started with. *)
Definition call_variables (R : runtime) (profile : value) (hour : N)
  : result (dict value) :=
  dv <- dynamic_variables R profile ;;
  dv <- appointment_variables R profile dv ;;
  Ok (dict_set (str "time_of_day") (VStr (time_of_day hour)) dv).

(** The body of the [try] (lines 490 to 591); [twilio_outbound_call] is
    the ElevenLabs client's call of that name, given the number to dial
    and the initiation data. *)
Definition initiate (R : runtime) (sb : client)
    (twilio_outbound_call : pystr -> value -> result value)
    (normalized : pystr) (hour : N) : result value :=
  profile <- Profile.get_loved_one_profile_query R sb normalized ;;
  has_error <- contains_key "error" profile ;;
  if (has_error : bool) then
    message <- item profile "error" ;;
    Ok (obj [("status", text "error"); ("message", message)])
  else
    dv <- call_variables R profile hour ;;
    resp <- twilio_outbound_call normalized (client_data dv) ;;
    sid <- get_or resp "callSid" (text "") ;;
    Ok (obj [("status", text "success"); ("call_sid", sid)]).

Definition initiate_call (R : runtime) (sb : client)
    (twilio_outbound_call : pystr -> value -> result value)
    (phone_number : pystr) (hour : N) : result value :=
  try_except
    (initiate R sb twilio_outbound_call (normalized_number phone_number) hour)
    (fun e =>
       Ok (obj [("status", text "error");
                ("message", VStr (exception_text R e))])).

End InitiateCall.

(* ===================================================================== *)
(** ** [WS /media-stream]: [handle_media_stream] *)
(* ===================================================================== *)

Module MediaStream.

Import PyStr Py.

(** The calls the handler makes on the conversation and on the audio
    interface. *)
Inductive call :=
| StartSession
| HandleTwilioMessage (event : value)
| EndSession
| WaitForSessionEnd.

(** What [websocket.iter_text()] delivers next: a text frame, with what
    [handle_twilio_message] does once the frame is parsed, or an exception
    ([WebSocketDisconnect] among them). The end of the list is the end of
    the stream. *)
Inductive received :=
| Text (message : pystr) (handled : result unit)
| Broken (e : exn).

(** One media stream, from the moment the socket is accepted and the audio
    interface exists: how each call on a collaborator ends. *)
Record session := {
  conversation : result unit;
  start_session : result unit;
  stream : list received;
  end_session : result unit;
  wait_for_session_end : result unit
}.

(** The loop of lines 457 to 460: an empty frame is skipped, any other is
    parsed and handed to the audio interface. *)
Fixpoint relay (R : runtime) (frames : list received)
  : list call * result unit :=
  match frames with
  | [] => ([], Ok tt)
  | Broken e :: _ => ([], Raise e)
  | Text [] _ :: rest => relay R rest
  | Text message handled :: rest =>
      match json_loads R message with
      | Raise e => ([], Raise e)
      | Ok event =>
          match handled with
          | Raise e => ([HandleTwilioMessage event], Raise e)
          | Ok _ =>
              let (calls, r) := relay R rest in
              (HandleTwilioMessage event :: calls, r)
          end
      end
  end.

(** The body of the outer [try] (lines 445 to 460). *)
Definition converse (R : runtime) (s : session) : list call * result unit :=
  match conversation s with
  | Raise e => ([], Raise e)
  | Ok _ =>
      match start_session s with
      | Raise e => ([StartSession], Raise e)
      | Ok _ =>
          let (calls, r) := relay R (stream s) in (StartSession :: calls, r)
      end
  end.

(** The body of the [finally] (lines 469 to 471): without a conversation
    the name is unbound. *)
Definition teardown (s : session) : list call * result unit :=
  match conversation s with
  | Raise _ => ([], Raise (UnboundLocalError "conversation"))
  | Ok _ =>
      match end_session s with
      | Raise e => ([EndSession], Raise e)
      | Ok _ => ([EndSession; WaitForSessionEnd], wait_for_session_end s)
      end
  end.

(** The handler: both [except] clauses of the outer [try] and the one of
    the [finally] only log, so every exception ends there. *)
Definition handle_media_stream (R : runtime) (s : session)
  : list call * result unit :=
  let (calls, _) := converse R s in
  let (calls', _) := teardown s in
  (calls ++ calls', Ok tt).

End MediaStream.

(* ===================================================================== *)
(** * Reference definitions and example data *)
(* ===================================================================== *)

(** ** Collaborators for the examples *)

Module Fixtures.

Import PyStr Py Supabase.
Local Open Scope string_scope.
Local Open Scope list_scope.

(** A runtime and a datastore for the examples: the case mappings leave
    other than ASCII strings alone, the parser accepts nothing, and the
    datastore refuses every request. *)
Definition plain : runtime :=
  {| unicode_lower := fun s => s;
     unicode_capitalize := fun s => s;
     repr := fun _ => str "<container>";
     exception_text := fun _ => str "<exception>";
     json_loads := fun _ => Raise ValueError |}.

Definition offline : client :=
  {| select := fun _ _ _ _ => Raise (Error "APIError" (str "offline"));
     insert := fun _ _ => Raise (Error "APIError" (str "offline")) |}.

(** The same runtime with a parser that knows the empty object. *)
Definition parsing : runtime :=
  {| unicode_lower := fun s => s;
     unicode_capitalize := fun s => s;
     repr := fun _ => str "<container>";
     exception_text := fun _ => str "<exception>";
     json_loads := fun s =>
       if eqb s (str "{}") then Ok (VDict []) else Raise ValueError |}.

(** A datastore that knows no caller yet and accepts every insert. *)
Definition accepting : client :=
  {| select := fun _ _ _ _ => Ok (VList []);
     insert := fun _ _ => Ok (VList [obj [("id", VInt 7)]]) |}.

End Fixtures.

(** ** Canonical phone numbers *)

Module PyStrSpec.

Import PyStr.
Local Open Scope N_scope.

(** A string that does not start with white space. *)
Definition starts_clean (s : pystr) : Prop :=
  match s with
  | [] => True
  | c :: _ => isspace c = false
  end.

(** A string in canonical form: no white space at either end, no space
    anywhere, a ["+"] in front. *)
Record canonical (s : pystr) : Prop := {
  canonical_head : starts_clean s;
  canonical_last : starts_clean (rev s);
  canonical_spaces : remove_spaces s = s;
  canonical_plus : startswith [43] s = true
}.

End PyStrSpec.

(** ** A signed request *)

Module AuthSpec.

Import PyStr Py CallEnd.
Local Open Scope string_scope.
Local Open Scope list_scope.
Local Open Scope N_scope.

(** A signed request, for the examples below: the secret ["whsec"], the
    timestamp ["1700000000"] and the body ["{}"]. *)
Definition demo_digest : pystr :=
  str "7d44587dddbaf4c7f70fef20f48cd594834ffea1641e3ac227b84408298738af".

Definition demo_header : pystr := str "t=1700000000,v0=" ++ demo_digest.

(** One turn of the loop of [signature_parts]. *)
Definition add_part (d : dict pystr) (part : pystr) : result (dict pystr) :=
  match split 61 part with
  | [k; v] => Ok (dict_set k v d)
  | _ => Raise ValueError
  end.

End AuthSpec.

(** ** Payloads and the transcript text *)

Module PersistSpec.

Import PyStr Py Supabase CallEnd Fixtures.
Local Open Scope string_scope.
Local Open Scope list_scope.

(** A payload with a conversation id and a caller phone but an empty
    transcript. *)
Definition no_transcript_payload : value :=
  obj [("data",
        obj [("conversation_id", text "conv_1");
             ("metadata",
              obj [("phone_call",
                    obj [("external_number", text "+15550100")])]);
             ("transcript", VList [])])].

(** A JSON object, and what [v.get(k, {})] finds in one. *)
Definition object (v : value) : Prop := exists d, v = VDict d.

Definition child (k : string) (v : value) : value :=
  match v with
  | VDict d =>
      match dict_get (str k) d with Some x => x | None => VDict [] end
  | _ => VNone
  end.

(** The role and the message of a transcript entry, with the defaults of
    lines 253 and 254. *)
Definition role_of (entry : value) : pystr :=
  match entry with
  | VDict d =>
      match dict_get (str "role") d with
      | Some (VStr s) => s
      | _ => str "unknown"
      end
  | _ => str "unknown"
  end.

Definition message_of (entry : value) : value :=
  match entry with
  | VDict d =>
      match dict_get (str "message") d with
      | Some v => v
      | None => text ""
      end
  | _ => VNone
  end.

(** An entry says something when its message is not empty. *)
Definition spoken (entry : value) : bool := truthy (message_of entry).

(** ["<Role>: <message>"] *)
Definition line (R : runtime) (entry : value) : pystr :=
  capitalize R (role_of entry) ++ str ": " ++ py_str R (message_of entry).

(** The lines of the entries that say something, joined by newlines. *)
Definition transcript_text (R : runtime) (entries : list value) : pystr :=
  PyStr.join [10%N] (map (line R) (filter spoken entries)).

(** A transcript entry as the platform sends it: an object whose role,
    when given, is a string. *)
Definition turn (entry : value) : Prop :=
  match entry with
  | VDict d =>
      match dict_get (str "role") d with
      | None | Some (VStr _) => True
      | Some _ => False
      end
  | _ => False
  end.

(** Every row a computation sends to the conversations table has the
    property [Q]. *)
Definition rows_ok (Q : value -> Prop) {A} (m : writer A) : Prop :=
  forall row, In ("conversations", row) (fst m) -> Q row.

(** The call-end payload of a two-turn conversation. *)
Definition two_turns : list value :=
  [obj [("role", text "agent"); ("message", text "Hi")];
   obj [("role", text "user"); ("message", text "Hello")]].

Definition two_turns_payload : value :=
  obj [("data",
        obj [("conversation_id", text "conv_1");
             ("metadata",
              obj [("phone_call",
                    obj [("external_number", text " 15550100 ")])]);
             ("transcript", VList two_turns)])].

Definition two_turns_row : value :=
  obj [("user_id", VInt 7);
       ("phone_number", text "+15550100");
       ("transcript", VStr (str "Agent: Hi" ++ [10%N] ++ str "User: Hello"));
       ("call_duration_secs", VNone);
       ("happiness_level", VNone);
       ("call_direction", VNone)].

End PersistSpec.

(** ** The medication buckets *)

Module MedicationSpec.

Import PyStr Py Profile.
Local Open Scope string_scope.
Local Open Scope list_scope.

(** A medication row: an object whose ["medication_name"] is a string. *)
Definition medication (row : value) : Prop :=
  match row with
  | VDict d =>
      match dict_get (str "medication_name") d with
      | Some (VStr _) => True
      | _ => False
      end
  | _ => False
  end.

(** The name of a medication row. *)
Definition name_of (row : value) : pystr :=
  match row with
  | VDict d =>
      match dict_get (str "medication_name") d with
      | Some (VStr s) => s
      | _ => []
      end
  | _ => []
  end.

(** The time-of-day tags of a row: the elements of a list, or the pieces
    of a comma-separated text without the white space around them; no
    ["time_taken"] means no tag. *)
Definition tags (R : runtime) (row : value) : list pystr :=
  match row with
  | VDict d =>
      match dict_get (str "time_taken") d with
      | None => []
      | Some (VList l) => map (py_str R) l
      | Some v => map strip (split 44 (py_str R v))
      end
  | _ => []
  end.

(** The tag contains the bucket name, whatever the case of its letters. *)
Definition mentions (R : runtime) (bucket : string) (tag : pystr) : bool :=
  contains (str bucket) (lower R tag).

(** A medication is in a bucket when one of its tags mentions it. *)
Definition in_bucket (R : runtime) (bucket : string) (row : value) : bool :=
  existsb (mentions R bucket) (tags R row).

Definition bucket_names (R : runtime) (bucket : string) (rows : list value)
  : list pystr :=
  map name_of (filter (in_bucket R bucket) rows).

(** The names joined with [", "], or ["none"]. *)
Definition bucket_text (names : list pystr) : pystr :=
  match names with
  | [] => str "none"
  | _ => PyStr.join (str ", ") names
  end.

(** The ["medications"] entry, by the words of the design. *)
Definition reference (R : runtime) (rows : list value) : value :=
  obj [("has_medications",
        VBool (match rows with [] => false | _ => true end));
       ("morning_medications",
        VStr (bucket_text (bucket_names R "morning" rows)));
       ("afternoon_medications",
        VStr (bucket_text (bucket_names R "afternoon" rows)));
       ("evening_medications",
        VStr (bucket_text (bucket_names R "evening" rows)))].

(** The names of a bucket as the values the loop collects. *)
Definition picked (R : runtime) (bucket : string) (rows : list value)
  : list value :=
  map VStr (bucket_names R bucket rows).

(** Three rows: tags given as a list, as one text, and not at all. *)
Definition three_medications : list value :=
  [obj [("medication_name", text "Aspirin");
        ("time_taken", VList [text "Morning"; text "Evening"])];
   obj [("medication_name", text "Metformin");
        ("time_taken", text "morning, Afternoon")];
   obj [("medication_name", text "Melatonin")]].

End MedicationSpec.

(** ** A datastore with a nameless medication *)

Module FallbackSpec.

Import PyStr Py Supabase Profile Variables ConversationInitiation.
Local Open Scope string_scope.
Local Open Scope list_scope.

(** A datastore whose only medication row has no name. *)
Definition nameless_medication : client :=
  {| select := fun table _ _ _ =>
       if String.eqb table "users" then
         Ok (VList [obj [("id", VInt 1); ("user_name", text "Ada")]])
       else if String.eqb table "loved_ones" then
         Ok (VList [obj [("id", VInt 2); ("name", text "Grace")]])
       else if String.eqb table "medications" then
         Ok (VList [obj [("time_taken", VList [text "morning"])]])
       else Ok (VList []);
     insert := fun _ _ => Ok (VList []) |}.

End FallbackSpec.

(** ** The appointment summary *)

Module AppointmentSpec.

Import PyStr Py Variables InitiateCall.
Local Open Scope string_scope.
Local Open Scope list_scope.

(** An appointment record: an object. *)
Definition record (appt : value) : Prop := exists d, appt = VDict d.

(** [appt.get(k)] and [appt.get(k, "")] on a record. *)
Definition field (k : string) (appt : value) : value :=
  match appt with
  | VDict d => match dict_get (str k) d with Some x => x | None => VNone end
  | _ => VNone
  end.

Definition field_or_blank (k : string) (appt : value) : value :=
  match appt with
  | VDict d =>
      match dict_get (str k) d with Some x => x | None => text "" end
  | _ => VNone
  end.

(** ["<title> on <date> at <time>"] *)
Definition summary (R : runtime) (appt : value) : pystr :=
  py_str R (field "title" appt) ++ str " on " ++ py_str R (field "date" appt)
  ++ str " at " ++ py_str R (field "time" appt).

(** The appointment variables as they should read in [dv], given the
    appointments. *)
Definition summarized (R : runtime) (appts : list value) (dv : dict value)
  : Prop :=
  match appts with
  | [] =>
      dict_get (str "has_upcoming_appointment") dv = Some (text "false")
      /\ dict_get (str "upcoming_appointments") dv = Some (text "none")
  | next :: _ =>
      dict_get (str "has_upcoming_appointment") dv = Some (text "true")
      /\ dict_get (str "next_appointment_title") dv
         = Some (field_or_blank "title" next)
      /\ dict_get (str "next_appointment_date") dv
         = Some (field_or_blank "date" next)
      /\ dict_get (str "next_appointment_time") dv
         = Some (field_or_blank "time" next)
      /\ dict_get (str "upcoming_appointments") dv
         = Some (VStr (join (str ", ") (map (summary R) (firstn 3 appts))))
  end.

(** Four appointments, as the profile lists them. *)
Definition four_appointments : list value :=
  [obj [("title", text "Dentist"); ("date", text "2025-05-01");
        ("time", text "09:00"); ("frequency", text "once")];
   obj [("title", text "Physio"); ("date", text "2025-05-02");
        ("time", text "10:30"); ("frequency", text "weekly")];
   obj [("title", text "Eye test"); ("date", text "2025-05-03");
        ("time", text "14:00"); ("frequency", text "once")];
   obj [("title", text "Cardiology"); ("date", text "2025-05-04");
        ("time", text "08:15"); ("frequency", text "once")]].

End AppointmentSpec.

(** ** Counting the teardown calls *)

Module TeardownSpec.

Import PyStr Py MediaStream.
Local Open Scope list_scope.

(** The two teardown calls. *)
Definition is_end (c : call) : bool :=
  match c with EndSession => true | _ => false end.

Definition is_wait (c : call) : bool :=
  match c with WaitForSessionEnd => true | _ => false end.

(** How often a handler run ended the session, and how often it waited
    for the end. *)
Definition ends (run : list call * result unit) : nat :=
  length (filter is_end (fst run)).

Definition waits (run : list call * result unit) : nat :=
  length (filter is_wait (fst run)).

(** The call returned, it did not raise. *)
Definition returned {A} (r : result A) : bool :=
  match r with Ok _ => true | Raise _ => false end.

(** The frame at which the loop stops: the iterator raises, or a frame
    that is not empty fails to parse or to be handled. *)
Definition stops (R : runtime) (f : received) : bool :=
  match f with
  | Broken _ => true
  | Text [] _ => false
  | Text message handled =>
      negb (returned (json_loads R message)) || negb (returned handled)
  end.

(** A session in which a frame does not parse, and then the client
    disconnects as well. *)
Definition faulty_session : session :=
  {| conversation := Ok tt;
     start_session := Ok tt;
     stream :=
       [Text (str "{}") (Ok tt);
        Text (str "") (Ok tt);
        Text (str "{") (Ok tt);
        Broken WebSocketDisconnect];
     end_session := Ok tt;
     wait_for_session_end := Ok tt |}.

End TeardownSpec.

(** ** One household *)

Module Household.

Import PyStr Py Supabase.
Local Open Scope string_scope.
Local Open Scope list_scope.

(** A datastore with one caller, her loved one, three medications, one
    row of call preferences, no notification settings and four
    appointments. *)
Definition household : client :=
  {| select := fun table _ _ _ =>
       if String.eqb table "users" then
         Ok (VList [obj [("id", VInt 1); ("user_name", text "Ada")]])
       else if String.eqb table "loved_ones" then
         Ok (VList [obj [("id", VInt 2); ("name", text "Grace");
                         ("nickname", text "Gran");
                         ("age_range", text "80-90");
                         ("gender", text "female");
                         ("relationship_to_user", text "grandmother")]])
       else if String.eqb table "medications" then
         Ok (VList MedicationSpec.three_medications)
       else if String.eqb table "call_preferences" then
         Ok (VList [obj [("call_length", text "short");
                         ("medication_reminders", VBool true)]])
       else if String.eqb table "consolidated_appointments" then
         Ok (VList
               (map (fun a =>
                       obj [("appointment_title",
                             AppointmentSpec.field "title" a);
                            ("appointment_date",
                             AppointmentSpec.field "date" a);
                            ("appointment_time",
                             AppointmentSpec.field "time" a);
                            ("frequency",
                             AppointmentSpec.field "frequency" a)])
                    AppointmentSpec.four_appointments))
       else Ok (VList []);
     insert := fun _ _ => Ok (VList []) |}.

End Household.

(** ** Further reference definitions *)

Module HandlerSpec.

Import PyStr Py Supabase MediaStream.
Local Open Scope string_scope.
Local Open Scope list_scope.

(** A lowercase hexadecimal digit. *)
Definition hex_lower (c : N) : bool :=
  ((48 <=? c) && (c <=? 57))%N || ((97 <=? c) && (c <=? 102))%N.

(** The row made for a caller the datastore does not know. *)
Definition new_user (normalized : pystr) : value :=
  obj [("phone_number", VStr normalized); ("user_name", text "Unknown User")].

(** The value of a column in a row. *)
Definition column (k : string) (row : value) : option value :=
  match row with
  | VDict d => dict_get (str k) d
  | _ => None
  end.

(** A JSON string literal without escapes. *)
Definition quoted (s : string) : pystr := (34 :: str s ++ [34])%N.

(** The body of a call-end request for [PersistSpec.two_turns_payload], a
    runtime whose parser reads it, and the header that signs it with the
    secret ["whsec"] at ["1700000000"]. *)
Definition two_turns_body : pystr :=
  str "{" ++ quoted "data" ++ str ":{"
  ++ quoted "conversation_id" ++ str ":" ++ quoted "conv_1" ++ str ","
  ++ quoted "metadata" ++ str ":{" ++ quoted "phone_call" ++ str ":{"
  ++ quoted "external_number" ++ str ":" ++ quoted " 15550100 " ++ str "}},"
  ++ quoted "transcript" ++ str ":[{"
  ++ quoted "role" ++ str ":" ++ quoted "agent" ++ str ","
  ++ quoted "message" ++ str ":" ++ quoted "Hi" ++ str "},{"
  ++ quoted "role" ++ str ":" ++ quoted "user" ++ str ","
  ++ quoted "message" ++ str ":" ++ quoted "Hello" ++ str "}]}}".

Definition reading : runtime :=
  {| unicode_lower := fun s => s;
     unicode_capitalize := fun s => s;
     repr := fun _ => str "<container>";
     exception_text := fun _ => str "<exception>";
     json_loads := fun s =>
       if eqb s two_turns_body then Ok PersistSpec.two_turns_payload
       else Raise ValueError |}.

Definition two_turns_header : pystr :=
  str "t=1700000000,v0="
  ++ CallEnd.expected_signature (str "whsec") (str "1700000000")
       two_turns_body.

(** The row of a call in the conversations table. *)
Definition conversation_row (user_id : value) (normalized transcript : pystr)
    (call_duration_secs happiness_level call_direction : value) : value :=
  obj [("user_id", user_id);
       ("phone_number", VStr normalized);
       ("transcript", VStr transcript);
       ("call_duration_secs", call_duration_secs);
       ("happiness_level", happiness_level);
       ("call_direction", call_direction)].

(** Lines 271 to 299, once the fields of the payload are read: the
    caller's row is found or made, then the call is stored. *)
Definition store (sb : client) (normalized transcript : pystr)
    (call_duration_secs happiness_level call_direction : value)
  : writer value :=
  wbind (CallEnd.user_id_of sb normalized)
    (fun user_id =>
       wbind (issue_insert sb "conversations"
                (conversation_row user_id normalized transcript
                   call_duration_secs happiness_level call_direction))
         (fun _ =>
            pure (Ok (CallEnd.reply (str "success")
                        (str "Transcript and additional data saved"))))).

(** [users.data[0]["id"]] *)
Definition first_id (users : value) : result value :=
  bind (item0 users) (fun u => item u "id").

(** A payload whose transcript holds a number where a turn should be. *)
Definition odd_transcript_payload : value :=
  obj [("data",
        obj [("conversation_id", text "conv_1");
             ("metadata",
              obj [("phone_call",
                    obj [("external_number", text "+15550100")])]);
             ("transcript", VList [VInt 1])])].

(** An appointment as the profile lists it, and the row it is made from
    (lines 383 to 389). *)
Definition listed (row appt : value) : Prop :=
  exists title date time frequency,
    item row "appointment_title" = Ok title
    /\ item row "appointment_date" = Ok date
    /\ item row "appointment_time" = Ok time
    /\ item row "frequency" = Ok frequency
    /\ appt = obj [("title", title); ("date", date); ("time", time);
                   ("frequency", frequency)].

(** The answer of the profile endpoint when there is no profile to
    give. *)
Definition no_profile (profile : value) : Prop :=
  exists name message,
    profile = obj [("caller_name", name); ("error", VStr message)].

(** A profile with all its sections. *)
Definition full_profile (profile : value) : Prop :=
  exists user_name loved_one medications length_ voice frequency checklist
         notifications appts,
    profile
    = obj [("caller", obj [("name", user_name)]);
           ("loved_one", VDict loved_one);
           ("medications", VDict medications);
           ("call_settings",
            obj [("length", length_); ("voice", voice);
                 ("frequency", frequency); ("checklist", VDict checklist)]);
           ("notifications", VDict notifications);
           ("appointments", VList appts)]
    /\ Forall AppointmentSpec.record appts.

(** The sections the dynamic variables are read from. *)
Definition sections : list string :=
  ["caller"; "loved_one"; "medications"; "call_settings"; "notifications"].

(** A profile the dynamic variables can be read from: an object whose
    sections, and the checklist of the call settings, are objects where
    they are present. *)
Definition readable (profile : value) : Prop :=
  PersistSpec.object profile
  /\ (forall a, In a sections ->
        PersistSpec.object (PersistSpec.child a profile))
  /\ PersistSpec.object
       (PersistSpec.child "checklist"
          (PersistSpec.child "call_settings" profile)).

(** The names of the dynamic variables, in the order they are set. *)
Definition variable_names (R : runtime) : list pystr :=
  map (fun entry => str (fst entry)) (Variables.entries R).

(** The answer to an outbound call request. *)
Definition call_failed (message : value) : value :=
  obj [("status", text "error"); ("message", message)].

Definition call_placed (sid : value) : value :=
  obj [("status", text "success"); ("call_sid", sid)].

(** The keys of a dictionary after [d[k] = v]. *)
Fixpoint add_key (k : pystr) (keys : list pystr) : list pystr :=
  match keys with
  | [] => [k]
  | k' :: r => if eqb k k' then k :: r else k' :: add_key k r
  end.

(** The text frames of a stream that are not empty, and what it is for a
    frame to parse to an event. *)
Fixpoint payloads (frames : list received) : list pystr :=
  match frames with
  | [] => []
  | Text (c :: m) _ :: rest => (c :: m) :: payloads rest
  | _ :: rest => payloads rest
  end.

Definition parsed (R : runtime) (message : pystr) (event : value) : Prop :=
  json_loads R message = Ok event.

(** Two call-end payloads whose [phone_call] is null: one without a
    caller phone anywhere, one with the caller phone in the initiation
    data. *)
Definition null_phone_call_payload : value :=
  obj [("data",
        obj [("conversation_id", text "conv_1");
             ("metadata", obj [("phone_call", VNone)])])].

Definition null_phone_call_fallback_payload : value :=
  obj [("data",
        obj [("conversation_id", text "conv_1");
             ("metadata", obj [("phone_call", VNone)])]);
       ("conversation_initiation_client_data",
        obj [("dynamic_variables",
              obj [("system__caller_id", text "+15550100")])])].

End HandlerSpec.

(* ===================================================================== *)
(** * Facts *)
(* ===================================================================== *)

Unset Implicit Arguments.

(** ** Strings *)

Module PyStrFacts.

Import PyStr.
Import PyStrSpec.
Local Open Scope N_scope.

Lemma eqb_eq (a b : pystr) : eqb a b = true <-> a = b.
Proof.
  unfold eqb. destruct (list_eq_dec N.eq_dec a b); split; congruence.
Qed.

Lemma eqb_refl (a : pystr) : eqb a a = true.
Proof. now apply eqb_eq. Qed.

Lemma eqb_neq (a b : pystr) : eqb a b = false <-> a <> b.
Proof.
  unfold eqb. destruct (list_eq_dec N.eq_dec a b); split; congruence.
Qed.

Lemma lstrip_starts_clean (s : pystr) : starts_clean (lstrip s).
Proof.
  induction s as [|c r IH]; simpl; [exact I|].
  destruct (isspace c) eqn:E; [exact IH | exact E].
Qed.

Lemma lstrip_id (s : pystr) : starts_clean s -> lstrip s = s.
Proof.
  destruct s as [|c r]; simpl; [reflexivity|]. now intros ->.
Qed.

Lemma lstrip_keeps_last (u : pystr) (c : N) :
  isspace c = false -> exists w, lstrip (u ++ [c]) = w ++ [c].
Proof.
  intros Hc. induction u as [|a u IH]; simpl.
  - rewrite Hc. now exists [].
  - destruct (isspace a); [exact IH|]. now exists (a :: u).
Qed.

Lemma rstrip_starts_clean (s : pystr) :
  starts_clean s -> starts_clean (rstrip s).
Proof.
  destruct s as [|c r]; [intros _; exact I|]. simpl. intros Hc.
  unfold rstrip. simpl rev.
  destruct (lstrip_keeps_last (rev r) c Hc) as [w ->].
  rewrite rev_app_distr. exact Hc.
Qed.

Lemma strip_starts_clean (s : pystr) : starts_clean (strip s).
Proof. apply rstrip_starts_clean, lstrip_starts_clean. Qed.

Lemma strip_ends_clean (s : pystr) : starts_clean (rev (strip s)).
Proof.
  unfold strip, rstrip. rewrite rev_involutive. apply lstrip_starts_clean.
Qed.

Lemma strip_id (s : pystr) :
  starts_clean s -> starts_clean (rev s) -> strip s = s.
Proof.
  intros H1 H2. unfold strip, rstrip.
  rewrite (lstrip_id s H1), (lstrip_id (rev s) H2). apply rev_involutive.
Qed.

Lemma remove_spaces_rev (s : pystr) :
  remove_spaces (rev s) = rev (remove_spaces s).
Proof.
  unfold remove_spaces. induction s as [|c r IH]; simpl; [reflexivity|].
  rewrite filter_app, IH. simpl.
  destruct (negb (c =? 32)); simpl; [reflexivity | apply app_nil_r].
Qed.

Lemma remove_spaces_starts_clean (s : pystr) :
  starts_clean s -> starts_clean (remove_spaces s).
Proof.
  destruct s as [|c r]; simpl; [trivial|]. intros Hc.
  destruct (N.eqb_spec c 32) as [->|_]; simpl; [discriminate Hc | exact Hc].
Qed.

Lemma remove_spaces_idem (s : pystr) :
  remove_spaces (remove_spaces s) = remove_spaces s.
Proof.
  unfold remove_spaces. induction s as [|c r IH]; simpl; [reflexivity|].
  destruct (negb (c =? 32)) eqn:E; simpl; [rewrite E, IH|]; auto.
Qed.

Lemma normalized_number_canonical (x : pystr) :
  canonical (Py.normalized_number x).
Proof.
  unfold Py.normalized_number.
  change (str "+") with [43].
  set (n := remove_spaces (strip x)).
  assert (Hh : starts_clean n)
    by apply remove_spaces_starts_clean, strip_starts_clean.
  assert (Hl : starts_clean (rev n)).
  { unfold n. rewrite <- remove_spaces_rev.
    apply remove_spaces_starts_clean, strip_ends_clean. }
  assert (Hs : remove_spaces n = n) by apply remove_spaces_idem.
  destruct (startswith [43] n) eqn:E.
  - now split.
  - split.
    + reflexivity.
    + simpl rev. destruct (rev n) as [|c r]; [reflexivity | exact Hl].
    + simpl. now rewrite Hs.
    + reflexivity.
Qed.

Lemma canonical_fixed (s : pystr) :
  canonical s -> Py.normalized_number s = s.
Proof.
  intros [Hh Hl Hs Hp]. unfold Py.normalized_number.
  change (str "+") with [43].
  now rewrite (strip_id s Hh Hl), Hs, Hp.
Qed.

(** C9. Phone normalization (strip, drop the spaces, put a ["+"] in front
    unless there is one) is idempotent on every string, and
    [" 1234567890 "] normalizes to ["+1234567890"]. *)
Theorem normalized_number_idempotent :
  (forall x : pystr,
      Py.normalized_number (Py.normalized_number x) = Py.normalized_number x)
  /\ Py.normalized_number (str " 1234567890 ") = str "+1234567890".
Proof.
  split.
  - intros x. apply canonical_fixed, normalized_number_canonical.
  - reflexivity.
Qed.

End PyStrFacts.

(** ** Digests *)

Module Sha256Facts.

Import PyStr Sha256.
Local Open Scope N_scope.

(** The digest functions agree with [hashlib] and [hmac] on known
    inputs. *)
Example sha256_abc :
  hexdigest (sha256 (str "abc"))
  = str "ba7816bf8f01cfea414140de5dae2223b00361a396177a9cb410ff61f20015ad".
Proof. vm_compute. reflexivity. Qed.

Example sha256_two_blocks :
  hexdigest
    (sha256 (str "abcdbcdecdefdefgefghfghighijhijkijkljklmklmnlmnomnopnopq"))
  = str "248d6a61d20638b8e5c026930c3e6039a33ce45964ff2167f6ecedd419db06c1".
Proof. vm_compute. reflexivity. Qed.

Example hmac_sha256_fox :
  hexdigest
    (hmac_sha256 (str "key")
       (str "The quick brown fox jumps over the lazy dog"))
  = str "f7bc83f430538424b13298e6aa6fb143ef4d59a14946175997479dbc2d1a3cd8".
Proof. vm_compute. reflexivity. Qed.

Example hmac_sha256_long_key :
  hexdigest (hmac_sha256 (repeat 107 70) (repeat 120 130))
  = str "65f3828fb4164fc0fce3be71ca4cf0a8915b8e484444e7765ab030abe4c28ac0".
Proof. vm_compute. reflexivity. Qed.

Lemma sha256_length (m : bytes) : length (sha256 m) = 32%nat.
Proof.
  unfold sha256.
  destruct (fold_left compress _ init) as [[[[[[[a b] c] d] e] f] g] h].
  reflexivity.
Qed.

Lemma hex_digit_ascii (d : N) : d < 16 -> (hex_digit d <? 128) = true.
Proof.
  intros H. unfold hex_digit. apply N.ltb_lt.
  destruct (d <? 10); lia.
Qed.

Lemma hexdigest_isascii (b : bytes) : isascii (hexdigest b) = true.
Proof.
  unfold isascii, hexdigest. induction b as [|x r IH]; [reflexivity|].
  cbn [flat_map app forallb].
  rewrite !hex_digit_ascii, IH; try reflexivity;
    apply N.mod_lt; discriminate.
Qed.

Lemma hexdigest_nonempty (b : bytes) : b <> [] -> hexdigest b <> [].
Proof. destruct b; [congruence | discriminate]. Qed.

Lemma hmac_sha256_nonempty (key msg : bytes) : hmac_sha256 key msg <> [].
Proof.
  unfold hmac_sha256. intros H.
  pose proof (sha256_length
    (xor_pad 92 (if 64 <? N.of_nat (length key) then sha256 key else key)
     ++ sha256 (xor_pad 54
          (if 64 <? N.of_nat (length key) then sha256 key else key) ++ msg)))
    as L.
  rewrite H in L. discriminate L.
Qed.

End Sha256Facts.

(** ** The call-end webhook: authentication *)

Module AuthFacts.

Import PyStr Py CallEnd.
Import AuthSpec.
Local Open Scope string_scope.
Local Open Scope list_scope.
Local Open Scope N_scope.
Local Arguments expected_signature : simpl never.
Local Arguments decode_utf8 : simpl never.

Lemma expected_signature_isascii (secret t b : pystr) :
  isascii (expected_signature secret t b) = true.
Proof. apply Sha256Facts.hexdigest_isascii. Qed.

Lemma expected_signature_nonempty (secret t b : pystr) :
  exists c r, expected_signature secret t b = c :: r.
Proof.
  destruct (expected_signature secret t b) as [|c r] eqn:E; [|eauto].
  exfalso. revert E. apply Sha256Facts.hexdigest_nonempty,
    Sha256Facts.hmac_sha256_nonempty.
Qed.

Lemma compare_digest_same (a : pystr) :
  isascii a = true -> compare_digest a a = Ok true.
Proof.
  intros H. unfold compare_digest.
  now rewrite H, PyStrFacts.eqb_refl.
Qed.

Lemma compare_digest_differ (a b : pystr) :
  isascii a = true -> isascii b = true -> a <> b ->
  compare_digest a b = Ok false.
Proof.
  intros Ha Hb Hab. unfold compare_digest. rewrite Ha, Hb. cbn [andb].
  f_equal. now apply PyStrFacts.eqb_neq.
Qed.

Lemma signature_parts_nonempty (header : pystr) (parts : dict pystr) :
  signature_parts header = Ok parts -> header <> [].
Proof. intros H ->. discriminate H. Qed.

(** What [authenticate] does once the header has parsed. *)
Lemma authenticate_parsed (secret header : pystr) (parts : dict pystr)
    (body : bytes) :
  signature_parts header = Ok parts ->
  authenticate secret (Some header) body
  = match dict_get (str "t") parts, dict_get (str "v0") parts with
    | Some ((_ :: _) as timestamp), Some ((_ :: _) as provided_signature) =>
        match decode_utf8 body with
        | None => Raise UnicodeDecodeError
        | Some body_str =>
            bind (compare_digest
                    (expected_signature secret timestamp body_str)
                    provided_signature)
              (fun same : bool =>
                 if same then Ok body_str
                 else Raise (HTTPException 401 (str "Invalid signature")))
        end
    | _, _ =>
        Raise (HTTPException 401 (str "Invalid ElevenLabs-Signature format"))
    end.
Proof.
  intros H. pose proof (signature_parts_nonempty header parts H) as Hne.
  destruct header as [|c r]; [congruence|].
  unfold authenticate. rewrite H. reflexivity.
Qed.

(** C1 (amended). When the signature header parses to a non-empty
    timestamp [T] and a digest [D], a body that decodes to [B] is accepted
    if [D] is the lowercase hex digest of HMAC-SHA256(secret, T + "." + B),
    and is rejected with 401 if [D] is an ASCII string other than that
    digest; so a signature made for [B] is rejected for every body whose
    digest is another one. *)
Theorem signature_decides (secret header : pystr) (parts : dict pystr)
    (T D : pystr) (body : bytes) (B : pystr) :
  signature_parts header = Ok parts ->
  dict_get (str "t") parts = Some T ->
  dict_get (str "v0") parts = Some D ->
  T <> [] ->
  decode_utf8 body = Some B ->
  (D = expected_signature secret T B ->
   authenticate secret (Some header) body = Ok B)
  /\ (D <> expected_signature secret T B -> isascii D = true ->
      exists detail,
        authenticate secret (Some header) body
        = Raise (HTTPException 401 detail))
  /\ (forall (body' : bytes) (B' : pystr),
        D = expected_signature secret T B ->
        decode_utf8 body' = Some B' ->
        expected_signature secret T B' <> expected_signature secret T B ->
        authenticate secret (Some header) body'
        = Raise (HTTPException 401 (str "Invalid signature"))).
Proof.
  intros Hp Ht Hv HT Hb.
  destruct T as [|t0 T']; [congruence|].
  destruct (expected_signature_nonempty secret (t0 :: T') B) as (c & r & E).
  repeat split.
  - intros HD. rewrite E in HD. subst D.
    rewrite (authenticate_parsed secret header parts body Hp), Ht, Hv, Hb.
    cbv beta iota. rewrite <- E.
    rewrite compare_digest_same by apply expected_signature_isascii.
    reflexivity.
  - intros Hne Hascii.
    rewrite (authenticate_parsed secret header parts body Hp), Ht, Hv.
    destruct D as [|d0 D']; [eauto|]. rewrite Hb. cbv beta iota.
    rewrite compare_digest_differ;
      [eexists; reflexivity | apply expected_signature_isascii
      | exact Hascii | congruence].
  - intros body' B' HD Hb' Hne. rewrite E in HD. subst D.
    rewrite (authenticate_parsed secret header parts body' Hp), Ht, Hv, Hb'.
    cbv beta iota. rewrite <- E.
    rewrite compare_digest_differ;
      [reflexivity | apply expected_signature_isascii
      | apply expected_signature_isascii | exact Hne].
Qed.

Lemma signature_decides_witness :
  authenticate (str "whsec") (Some demo_header) (str "{}") = Ok (str "{}")
  /\ authenticate (str "whsec") (Some demo_header) (str "{]")
     = Raise (HTTPException 401 (str "Invalid signature")).
Proof.
  destruct (signature_decides (str "whsec") demo_header
              [(str "t", str "1700000000"); (str "v0", demo_digest)]
              (str "1700000000") demo_digest (str "{}") (str "{}"))
    as (Haccept & _ & Hflip).
  - vm_compute; reflexivity.
  - vm_compute; reflexivity.
  - vm_compute; reflexivity.
  - discriminate.
  - vm_compute; reflexivity.
  - split.
    + apply Haccept. vm_compute; reflexivity.
    + apply (Hflip (str "{]") (str "{]")).
      * vm_compute; reflexivity.
      * vm_compute; reflexivity.
      * vm_compute; discriminate.
Defined.

(** With an empty timestamp the request is refused although [v0] is the
    digest of HMAC-SHA256(secret, "" + "." + body). *)
Lemma empty_timestamp_rejected :
  expected_signature (str "whsec") (str "") (str "{}")
  = str "ddaa4f5e9de4b0218c19ae6ec362869631030787b809a170b1894d4d99d516fb"
  /\ authenticate (str "whsec")
       (Some (str "t=,v0=ddaa4f5e9de4b0218c19ae6ec362869631030787b809a170b1894d4d99d516fb"))
       (str "{}")
     = Raise (HTTPException 401 (str "Invalid ElevenLabs-Signature format")).
Proof. split; vm_compute; reflexivity. Qed.

(** *** Headers that do not parse *)

Lemma split_not_nil (sep : N) (s : pystr) : split sep s <> [].
Proof.
  induction s as [|c r IH]; simpl; [discriminate|].
  destruct (c =? sep); [discriminate|].
  destruct (split sep r); [congruence | discriminate].
Qed.

(** The pieces of a split are one more than the separators. *)
Lemma split_length (sep : N) (s : pystr) :
  length (split sep s) = S (count_occ N.eq_dec s sep).
Proof.
  induction s as [|c r IH]; simpl; [reflexivity|].
  destruct (N.eqb_spec c sep) as [->|Hne].
  - destruct (N.eq_dec sep sep); [|congruence]. simpl. now rewrite IH.
  - destruct (N.eq_dec c sep); [congruence|].
    pose proof (split_not_nil sep r).
    destruct (split sep r); [congruence | exact IH].
Qed.

Lemma add_part_bad (d : dict pystr) (part : pystr) :
  count_occ N.eq_dec part 61 <> 1%nat -> add_part d part = Raise ValueError.
Proof.
  intros H. unfold add_part. pose proof (split_length 61 part) as L.
  destruct (split 61 part) as [|a [|b [|c l]]]; try reflexivity.
  simpl in L. congruence.
Qed.

Lemma add_part_cases (d : dict pystr) (part : pystr) :
  (exists d', add_part d part = Ok d') \/ add_part d part = Raise ValueError.
Proof.
  unfold add_part. destruct (split 61 part) as [|a [|b [|c l]]]; eauto.
Qed.

Lemma add_parts_bad (parts : list pystr) (d : dict pystr) :
  Exists (fun part => count_occ N.eq_dec part 61 <> 1%nat) parts ->
  for_each add_part parts d = Raise ValueError.
Proof.
  intros H. revert d. induction H as [part rest Hbad | part rest _ IH];
    intros d; cbn [for_each].
  - now rewrite add_part_bad.
  - destruct (add_part_cases d part) as [[d' ->] | ->]; [apply IH | reflexivity].
Qed.

(** C10. A signature header that is present and has a comma-separated
    segment with no ["="] or with more than one makes the parsing step
    raise [ValueError]: the request ends as a server error (500), not as
    the 401 of the other authentication failures. *)
Theorem malformed_signature_header_raises (secret header : pystr)
    (body : bytes) :
  header <> [] ->
  Exists (fun part => count_occ N.eq_dec part 61 <> 1%nat) (split 44 header) ->
  authenticate secret (Some header) body = Raise ValueError
  /\ Http.status (authenticate secret (Some header) body) = 500.
Proof.
  intros Hne Hbad.
  assert (E : authenticate secret (Some header) body = Raise ValueError).
  { destruct header as [|c r]; [congruence|].
    unfold authenticate, signature_parts.
    change (fun (d : dict pystr) (part : pystr) =>
              match split 61 part with
              | [k; v] => Ok (dict_set k v d)
              | _ => Raise ValueError
              end) with add_part.
    now rewrite (add_parts_bad _ [] Hbad). }
  now rewrite E.
Qed.

Lemma malformed_signature_header_witness :
  authenticate (str "whsec") (Some (str "t=1,v0")) (str "{}")
  = Raise ValueError
  /\ Http.status
       (authenticate (str "whsec") (Some (str "t=1,v0")) (str "{}")) = 500.
Proof.
  apply (malformed_signature_header_raises (str "whsec") (str "t=1,v0")
           (str "{}")).
  - discriminate.
  - apply Exists_cons_tl, Exists_cons_hd. vm_compute. discriminate.
Defined.

(** *** Headers of the documented form *)

Lemma split_without (sep : N) (s : pystr) :
  ~ In sep s -> split sep s = [s].
Proof.
  induction s as [|c r IH]; [reflexivity|]. intros H. cbn [split].
  destruct (N.eqb_spec c sep) as [->|_]; [exfalso; apply H; now left|].
  rewrite IH; [reflexivity | intros Hin; apply H; now right].
Qed.

Lemma split_at_first (sep : N) (a b : pystr) :
  ~ In sep a -> split sep (a ++ sep :: b) = a :: split sep b.
Proof.
  induction a as [|c r IH]; intros H; cbn [app split].
  - now rewrite N.eqb_refl.
  - destruct (N.eqb_spec c sep) as [->|_]; [exfalso; apply H; now left|].
    rewrite IH; [reflexivity | intros Hin; apply H; now right].
Qed.

(** The header [t=<timestamp>,v0=<digest>] parses to its two values when
    neither holds a comma or an equals sign. *)
Lemma signature_parts_documented (T D : pystr) :
  ~ In 44 T -> ~ In 61 T -> ~ In 44 D -> ~ In 61 D ->
  signature_parts (str "t=" ++ T ++ str ",v0=" ++ D)
  = Ok [(str "t", T); (str "v0", D)].
Proof.
  intros HT44 HT61 HD44 HD61. unfold signature_parts.
  change (str "t=" ++ T ++ str ",v0=" ++ D)
    with ((str "t=" ++ T) ++ 44 :: (str "v0=" ++ D)).
  rewrite split_at_first.
  2:{ change (str "t=") with [116; 61]. cbn [app In].
      intros [H|[H|H]]; [discriminate H | discriminate H | exact (HT44 H)]. }
  rewrite split_without.
  2:{ change (str "v0=") with [118; 48; 61]. cbn [app In].
      intros [H|[H|[H|H]]]; try discriminate H. exact (HD44 H). }
  cbn [for_each].
  change (str "t=" ++ T) with (str "t" ++ 61 :: T).
  rewrite split_at_first by (intros [H|[]]; discriminate H).
  rewrite (split_without 61 T HT61). cbn [bind for_each].
  change (str "v0=" ++ D) with (str "v0" ++ 61 :: D).
  rewrite split_at_first by (intros [H|[H|[]]]; discriminate H).
  rewrite (split_without 61 D HD61). reflexivity.
Qed.

(** A header that parses but lacks [t] or [v0] is refused with 401 whatever
    the secret and the body are, a body that is not UTF-8 included: the
    refusal does not depend on the digest. *)
Lemma missing_key_rejected (secret header : pystr) (parts : dict pystr)
    (body : bytes) :
  signature_parts header = Ok parts ->
  dict_get (str "t") parts = None \/ dict_get (str "v0") parts = None ->
  authenticate secret (Some header) body
  = Raise (HTTPException 401 (str "Invalid ElevenLabs-Signature format")).
Proof.
  intros Hp Hmissing.
  rewrite (authenticate_parsed secret header parts body Hp).
  destruct Hmissing as [-> | ->]; [reflexivity|].
  now destruct (dict_get (str "t") parts) as [[|c r]|].
Qed.

(** So is a header whose timestamp or digest is empty. *)
Lemma empty_value_rejected (secret header : pystr) (parts : dict pystr)
    (body : bytes) :
  signature_parts header = Ok parts ->
  dict_get (str "t") parts = Some [] \/ dict_get (str "v0") parts = Some [] ->
  authenticate secret (Some header) body
  = Raise (HTTPException 401 (str "Invalid ElevenLabs-Signature format")).
Proof.
  intros Hp Hempty.
  rewrite (authenticate_parsed secret header parts body Hp).
  destruct Hempty as [-> | ->]; [reflexivity|].
  now destruct (dict_get (str "t") parts) as [[|c r]|].
Qed.

Example header_without_v0 (secret : pystr) (body : bytes) :
  authenticate secret (Some (str "t=1700000000")) body
  = Raise (HTTPException 401 (str "Invalid ElevenLabs-Signature format")).
Proof.
  apply (missing_key_rejected secret _ [(str "t", str "1700000000")] body);
    [reflexivity | right; reflexivity].
Qed.

Example header_absent (secret : pystr) (body : bytes) :
  authenticate secret None body
  = Raise (HTTPException 401 (str "Missing ElevenLabs-Signature header")).
Proof. reflexivity. Qed.

(** *** Every outcome of the authentication step *)

Lemma authenticate_outcomes (secret : pystr) (h : option pystr)
    (body : bytes) :
  (exists body_str, authenticate secret h body = Ok body_str)
  \/ (exists detail,
        authenticate secret h body = Raise (HTTPException 401 detail))
  \/ authenticate secret h body = Raise ValueError
  \/ authenticate secret h body = Raise UnicodeDecodeError
  \/ (exists v, authenticate secret h body = Raise (TypeError v)).
Proof.
  destruct h as [[|c r]|]; [right; left; eexists; reflexivity | |
                            right; left; eexists; reflexivity].
  unfold authenticate.
  destruct (signature_parts (c :: r)) as [parts|e] eqn:E.
  - cbn [bind].
    destruct (dict_get (str "t") parts) as [[|t0 T]|];
      try (right; left; eexists; reflexivity).
    destruct (dict_get (str "v0") parts) as [[|d0 D]|];
      try (right; left; eexists; reflexivity).
    destruct (decode_utf8 body) as [body_str|]; [|auto].
    unfold compare_digest.
    destruct (isascii _ && isascii _); cbn [bind]; [|eauto 7].
    destruct (eqb _ _); eauto.
  - cbn [bind]. right. right. left. f_equal.
    unfold signature_parts in E.
    change (fun (d : dict pystr) (part : pystr) =>
              match split 61 part with
              | [k; v] => Ok (dict_set k v d)
              | _ => Raise ValueError
              end) with add_part in E.
    revert E. generalize (@nil (pystr * pystr)).
    induction (split 44 (c :: r)) as [|part rest IH]; intros d; cbn [for_each].
    + discriminate.
    + destruct (add_part_cases d part) as [[d' ->] | ->]; cbn [bind].
      * apply IH.
      * congruence.
Qed.

(** C2, at the failing inputs. A header whose last segment is ["v0"]
    without ["="], and a header whose digest is not ASCII, are both refused
    with a server error (500) instead of 401. *)
Theorem auth_failure_not_unauthorized :
  authenticate (str "whsec") (Some (str "t=1700000000,v0")) (str "{}")
  = Raise ValueError
  /\ Http.status
       (authenticate (str "whsec") (Some (str "t=1700000000,v0")) (str "{}"))
     = 500
  /\ authenticate (str "whsec") (Some (str "t=1700000000,v0=" ++ [233]))
       (str "{}")
     = Raise (TypeError (VStr [233]))
  /\ Http.status
       (authenticate (str "whsec") (Some (str "t=1700000000,v0=" ++ [233]))
          (str "{}"))
     = 500.
Proof. repeat split; vm_compute; reflexivity. Qed.

End AuthFacts.

(** ** The call-end webhook: persisting the call *)

Module PersistFacts.

Import PyStr Py Supabase CallEnd Fixtures.
Import PersistSpec.
Local Open Scope string_scope.
Local Open Scope list_scope.

Lemma wbind_pure_ok {A B} (a : A) (k : A -> writer B) :
  wbind (pure (Ok a)) k = k a.
Proof. unfold wbind, pure. now destruct (k a). Qed.

Lemma wbind_pure_raise {A B} (e : exn) (k : A -> writer B) :
  wbind (pure (Raise e)) k = ([], Raise e).
Proof. reflexivity. Qed.

(** An exception of the lookups before the [try] leaves the handler. *)
Lemma persist_lookup_raises (R : runtime) (sb : client) (data : value)
    (e : exn) :
  conversation_and_caller data = Raise e ->
  persist R sb data = ([], Raise e).
Proof. intros H. unfold persist. now rewrite H. Qed.

(** The lookups complete on a payload. *)
Lemma lookup_completes_transcript (data : value) (ids : value * value) :
  conversation_and_caller data = Ok ids ->
  exists t, transcript_of data = Ok t.
Proof.
  unfold conversation_and_caller, transcript_of. intros H.
  destruct (get_or data "data" empty) as [d|e]; [|discriminate H].
  cbn [bind] in *. unfold get_or at 1.
  destruct d; try discriminate H. eauto.
Qed.

(** Where the field lookups complete, the replies are the structured
    ones: a missing (or empty) conversation id or caller phone gives the
    "Missing required fields" reply, and with both present a missing or
    empty transcript gives the "No transcript available" reply; in both
    cases no insert is issued, whatever the datastore. *)
Lemma missing_fields_not_persisted (R : runtime) (sb : client)
    (data conversation_id caller_id : value) :
  conversation_and_caller data = Ok (conversation_id, caller_id) ->
  (truthy conversation_id = false \/ truthy caller_id = false ->
   persist R sb data
   = ([], Ok (reply (str "error") (str "Missing required fields"))))
  /\ (truthy conversation_id = true -> truthy caller_id = true ->
      (exists t, transcript_of data = Ok t)
      /\ forall t, transcript_of data = Ok t -> truthy t = false ->
         persist R sb data
         = ([], Ok (reply (str "error") (str "No transcript available")))).
Proof.
  intros H. split.
  - intros Hmissing. unfold persist. rewrite H, wbind_pure_ok.
    destruct Hmissing as [-> | ->]; [reflexivity|].
    now rewrite orb_true_r.
  - intros Hc Hp. split; [exact (lookup_completes_transcript _ _ H)|].
    intros t Ht Hempty. unfold persist. rewrite H, wbind_pure_ok, Hc, Hp.
    cbn [negb orb]. unfold save. rewrite Ht, wbind_pure_ok, Hempty.
    reflexivity.
Qed.

Lemma missing_fields_witness :
  persist plain offline (obj [("data", obj [("transcript", VList [])])])
  = ([], Ok (reply (str "error") (str "Missing required fields")))
  /\ persist plain offline no_transcript_payload
     = ([], Ok (reply (str "error") (str "No transcript available"))).
Proof.
  split.
  - apply (missing_fields_not_persisted plain offline _ VNone VNone);
      [reflexivity | left; reflexivity].
  - destruct (missing_fields_not_persisted plain offline
                no_transcript_payload (text "conv_1") (text "+15550100"))
      as [_ H]; [reflexivity|].
    destruct (H eq_refl eq_refl) as [_ H'].
    apply (H' (VList [])); reflexivity.
Defined.

(** C5. The lookups of lines 232 to 237 miss a [phone_call] that is null.
    With a conversation id, a null [phone_call] and no caller phone in
    either place, the caller phone is missing, yet no "Missing required
    fields" reply is made: line 233 raises [AttributeError] outside the
    [try], nothing is written, and the request ends as a server error,
    whatever the runtime and the datastore. The same happens when the
    caller phone is there in the second place: line 233 raises before
    line 237 is tried. *)
Theorem null_phone_call_raises :
  conversation_and_caller HandlerSpec.null_phone_call_payload
  = Raise (AttributeError VNone "get")
  /\ conversation_and_caller HandlerSpec.null_phone_call_fallback_payload
     = Raise (AttributeError VNone "get")
  /\ forall (R : runtime) (sb : client),
       persist R sb HandlerSpec.null_phone_call_payload
       = ([], Raise (AttributeError VNone "get"))
       /\ Http.status
            (snd (persist R sb HandlerSpec.null_phone_call_payload))
          = 500%N
       /\ persist R sb HandlerSpec.null_phone_call_fallback_payload
          = ([], Raise (AttributeError VNone "get"))
       /\ Http.status
            (snd (persist R sb HandlerSpec.null_phone_call_fallback_payload))
          = 500%N.
Proof.
  split; [reflexivity|]. split; [reflexivity|]. intros R sb.
  rewrite (persist_lookup_raises R sb HandlerSpec.null_phone_call_payload
             (AttributeError VNone "get") eq_refl).
  rewrite (persist_lookup_raises R sb
             HandlerSpec.null_phone_call_fallback_payload
             (AttributeError VNone "get") eq_refl).
  repeat split.
Qed.

Lemma get_or_object (v : value) (k : string) :
  object v -> get_or v k empty = Ok (child k v).
Proof. intros [d ->]. reflexivity. Qed.

Lemma get_object (v : value) (k : string) :
  object v -> exists x, get v k = Ok x.
Proof. intros [d ->]. simpl. eauto. Qed.

Lemma lookups_complete (data : value) :
  object data ->
  object (child "data" data) ->
  object (child "metadata" (child "data" data)) ->
  object (child "phone_call" (child "metadata" (child "data" data))) ->
  object (child "conversation_initiation_client_data" data) ->
  object (child "dynamic_variables"
            (child "conversation_initiation_client_data" data)) ->
  exists ids, conversation_and_caller data = Ok ids.
Proof.
  intros H0 H1 H2 H3 H4 H5. unfold conversation_and_caller.
  rewrite (get_or_object data "data" H0). cbn [bind].
  destruct (get_object _ "conversation_id" H1) as [cid ->]. cbn [bind].
  rewrite (get_or_object _ "metadata" H1). cbn [bind].
  rewrite (get_or_object _ "phone_call" H2). cbn [bind].
  destruct (get_object _ "external_number" H3) as [caller ->]. cbn [bind].
  destruct (truthy caller); cbn [bind]; [eauto|].
  rewrite (get_or_object data "conversation_initiation_client_data" H0).
  cbn [bind].
  rewrite (get_or_object _ "dynamic_variables" H4). cbn [bind].
  destruct (get_object _ "system__caller_id" H5) as [c ->]. cbn [bind].
  eauto.
Qed.

(** *** The transcript text *)

Lemma transcript_line_turn (R : runtime) (acc : list pystr) (entry : value) :
  turn entry ->
  transcript_line R acc entry
  = Ok (acc ++ if spoken entry then [line R entry] else []).
Proof.
  destruct entry as [| | | |l|d]; try contradiction.
  unfold turn, transcript_line, spoken, line, role_of, message_of, get_or,
    text.
  cbn [bind].
  destruct (dict_get (str "role") d) as [[| | |s| |]|]; try contradiction;
    intros _;
    destruct (truthy match dict_get (str "message") d with
                     | Some x => x
                     | None => VStr (str "")
                     end);
    cbn [bind str_method]; now rewrite ?app_nil_r.
Qed.

Lemma transcript_lines_turns (R : runtime) (entries : list value)
    (acc : list pystr) :
  Forall turn entries ->
  for_each (transcript_line R) entries acc
  = Ok (acc ++ map (line R) (filter spoken entries)).
Proof.
  intros H. revert acc.
  induction H as [|entry rest He _ IH]; intros acc; cbn [for_each filter].
  - now rewrite app_nil_r.
  - rewrite (transcript_line_turn R acc entry He). cbn [bind]. rewrite IH.
    destruct (spoken entry); cbn [map]; now rewrite <- app_assoc.
Qed.

Lemma full_transcript_turns (R : runtime) (entries : list value) :
  Forall turn entries ->
  full_transcript R (VList entries) = Ok (transcript_text R entries).
Proof.
  intros H. unfold full_transcript. cbn [iter bind].
  now rewrite (transcript_lines_turns R entries [] H).
Qed.

Lemma rows_ok_pure (Q : value -> Prop) {A} (r : result A) :
  rows_ok Q (pure r).
Proof. intros row []. Qed.

Lemma rows_ok_wbind (Q : value -> Prop) {A B} (m : writer A)
    (k : A -> writer B) :
  rows_ok Q m -> (forall a, rows_ok Q (k a)) -> rows_ok Q (wbind m k).
Proof.
  intros Hm Hk row. destruct m as [w [a|e]]; cbn [wbind].
  - specialize (Hk a). destruct (k a) as [w' r]. cbn [fst] in *.
    rewrite in_app_iff. intros [H|H]; [apply Hm | apply Hk]; exact H.
  - apply Hm.
Qed.

Lemma rows_ok_users (Q : value -> Prop) (sb : client) (row : value) :
  rows_ok Q (issue_insert sb "users" row).
Proof. intros r [H|[]]. discriminate H. Qed.

Lemma rows_ok_conversations (Q : value -> Prop) (sb : client) (row : value) :
  Q row -> rows_ok Q (issue_insert sb "conversations" row).
Proof. intros H r [E|[]]. now inversion E; subst. Qed.

Lemma rows_ok_user_id_of (Q : value -> Prop) (sb : client) (n : pystr) :
  rows_ok Q (user_id_of sb n).
Proof.
  unfold user_id_of.
  apply rows_ok_wbind; [apply rows_ok_pure | intros users].
  apply rows_ok_wbind; [apply rows_ok_pure | intros found].
  destruct found; [apply rows_ok_pure|].
  apply rows_ok_wbind; [apply rows_ok_users | intros u; apply rows_ok_pure].
Qed.

(** Whatever [save] sends to the conversations table carries the text
    [full_transcript] made of the payload's transcript. *)
Lemma save_stores_full_transcript (R : runtime) (sb : client)
    (data caller_id transcript : value) (text_ : pystr) :
  transcript_of data = Ok transcript ->
  full_transcript R transcript = Ok text_ ->
  rows_ok (fun row => item row "transcript" = Ok (VStr text_))
    (save R sb data caller_id).
Proof.
  intros Ht Hf. unfold save. rewrite Ht, wbind_pure_ok.
  destruct (truthy transcript); cbn [negb]; [|apply rows_ok_pure].
  rewrite Hf, wbind_pure_ok.
  repeat (apply rows_ok_wbind; [apply rows_ok_pure | intros ?]).
  apply rows_ok_wbind; [apply rows_ok_user_id_of | intros user_id].
  apply rows_ok_wbind; [|intros _; apply rows_ok_pure].
  apply rows_ok_conversations. reflexivity.
Qed.

Lemma persist_stores_full_transcript (R : runtime) (sb : client)
    (data transcript : value) (text_ : pystr) :
  transcript_of data = Ok transcript ->
  full_transcript R transcript = Ok text_ ->
  rows_ok (fun row => item row "transcript" = Ok (VStr text_))
    (persist R sb data).
Proof.
  intros Ht Hf. unfold persist.
  apply rows_ok_wbind; [apply rows_ok_pure | intros [cid caller]].
  destruct (negb (truthy cid) || negb (truthy caller));
    [apply rows_ok_pure|].
  pose proof (save_stores_full_transcript R sb data caller transcript text_
                Ht Hf) as H.
  destruct (save R sb data caller) as [w [v|e]]; exact H.
Qed.

(** C8. The text made of a transcript has one line ["<Role>: <message>"]
    per entry whose message is not empty, the role capitalized, the lines
    joined by newlines; that text is what every row sent to the
    conversations table carries; and the transcript of an agent saying
    ["Hi"] and a user saying ["Hello"] gives ["Agent: Hi\nUser: Hello"]. *)
Theorem stored_transcript_text (R : runtime) (sb : client) (data : value)
    (entries : list value) :
  transcript_of data = Ok (VList entries) ->
  Forall turn entries ->
  full_transcript R (VList entries) = Ok (transcript_text R entries)
  /\ (forall row,
        In ("conversations", row) (fst (persist R sb data)) ->
        item row "transcript" = Ok (VStr (transcript_text R entries)))
  /\ full_transcript R
       (VList [obj [("role", text "agent"); ("message", text "Hi")];
               obj [("role", text "user"); ("message", text "Hello")]])
     = Ok (str "Agent: Hi" ++ [10%N] ++ str "User: Hello").
Proof.
  intros Ht Hturns.
  pose proof (full_transcript_turns R entries Hturns) as Hf.
  split; [exact Hf|]. split; [|reflexivity].
  exact (persist_stores_full_transcript R sb data (VList entries) _ Ht Hf).
Qed.

Lemma stored_transcript_witness :
  persist plain accepting two_turns_payload
  = ([("users", obj [("phone_number", text "+15550100");
                     ("user_name", text "Unknown User")]);
      ("conversations", two_turns_row)],
     Ok (reply (str "success") (str "Transcript and additional data saved")))
  /\ item two_turns_row "transcript"
     = Ok (VStr (str "Agent: Hi" ++ [10%N] ++ str "User: Hello")).
Proof.
  split; [reflexivity|].
  destruct (stored_transcript_text plain accepting two_turns_payload
              two_turns) as (_ & Hrow & _).
  - reflexivity.
  - repeat constructor.
  - apply (Hrow two_turns_row). right. left. reflexivity.
Defined.

End PersistFacts.

(** ** The profile: medications *)

Module MedicationFacts.

Import PyStr Py Profile.
Import MedicationSpec.
Local Open Scope string_scope.
Local Open Scope list_scope.

(** *** What "mentions" means on ASCII tags *)

Lemma startswith_prefix (p s : pystr) :
  startswith p s = true <-> exists post, s = p ++ post.
Proof.
  revert s. induction p as [|a p IH]; intros s; cbn [startswith].
  - split; [intros _; now exists s | reflexivity].
  - destruct s as [|b s].
    + split; [discriminate | intros [post H]; discriminate H].
    + rewrite andb_true_iff, N.eqb_eq, IH. split.
      * intros [-> [post ->]]. now exists post.
      * intros [post H]. inversion H; subst. eauto.
Qed.

Lemma contains_infix (p s : pystr) :
  contains p s = true <-> exists pre post, s = pre ++ p ++ post.
Proof.
  induction s as [|c s IH]; cbn [contains]; rewrite orb_true_iff.
  - rewrite startswith_prefix. split.
    + intros [[post H] | H]; [|discriminate H]. exists [], post. exact H.
    + intros (pre & post & H). left.
      destruct pre; [exists post; exact H | discriminate H].
  - rewrite startswith_prefix, IH. split.
    + intros [[post H] | (pre & post & H)].
      * exists [], post. exact H.
      * exists (c :: pre), post. now rewrite H.
    + intros (pre & post & H). destruct pre as [|c' pre].
      * left. exists post. exact H.
      * right. inversion H; subst. eauto.
Qed.

(** On an ASCII tag, the tag mentions the bucket exactly when a run of its
    characters is the bucket name up to the case of the letters. *)
Lemma mentions_ascii (R : runtime) (bucket : string) (tag : pystr) :
  isascii tag = true ->
  mentions R bucket tag = true
  <-> exists pre mid post,
        tag = pre ++ mid ++ post /\ map lower_ascii_char mid = str bucket.
Proof.
  intros Hascii. unfold mentions, lower, lower_with. rewrite Hascii.
  rewrite contains_infix. split.
  - intros (pre & post & H).
    apply map_eq_app in H. destruct H as (pre' & rest & -> & _ & H).
    apply map_eq_app in H. destruct H as (mid & post' & -> & Hmid & _).
    now exists pre', mid, post'.
  - intros (pre & mid & post & -> & Hmid).
    exists (map lower_ascii_char pre), (map lower_ascii_char post).
    now rewrite !map_app, Hmid.
Qed.

(** *** The code against the reference *)

Lemma existsb_map {A B} (f : A -> B) (p : B -> bool) (l : list A) :
  existsb p (map f l) = existsb (fun x => p (f x)) l.
Proof. induction l; simpl; congruence. Qed.

(** The test of lines 374 to 379 is the reference's membership test. *)
Lemma any_in_times (R : runtime) (bucket : string) (d : dict value) :
  any_in bucket
    (times R match dict_get (str "time_taken") d with
             | Some x => x
             | None => VList []
             end)
  = in_bucket R bucket (VDict d).
Proof.
  unfold any_in, in_bucket, tags, times, mentions.
  destruct (dict_get (str "time_taken") d) as [v|]; [|reflexivity].
  destruct v as [| | | |l|]; try (rewrite !existsb_map; reflexivity).
  rewrite !existsb_map.
  induction l as [|t l IH]; [reflexivity|]. cbn [existsb].
  rewrite IH. now destruct t.
Qed.

(** One turn of the loop on a medication row. *)
Lemma bucket_medication_row (R : runtime) (m a e : list value)
    (row : value) :
  medication row ->
  bucket_medication R (m, a, e) row
  = Ok (m ++ (if in_bucket R "morning" row then [VStr (name_of row)] else []),
        a ++ (if in_bucket R "afternoon" row then [VStr (name_of row)]
              else []),
        e ++ (if in_bucket R "evening" row then [VStr (name_of row)]
              else [])).
Proof.
  destruct row as [| | | | |d]; try contradiction.
  unfold medication, bucket_medication, name_of, item, get_or.
  destruct (dict_get (str "medication_name") d) as [[| | |s| |]|];
    try contradiction.
  intros _. cbn [bind]. rewrite !any_in_times.
  destruct (in_bucket R "morning" (VDict d)),
    (in_bucket R "afternoon" (VDict d)), (in_bucket R "evening" (VDict d));
    now rewrite ?app_nil_r.
Qed.

Lemma picked_cons (R : runtime) (bucket : string) (row : value)
    (rows : list value) :
  picked R bucket (row :: rows)
  = (if in_bucket R bucket row then [VStr (name_of row)] else [])
    ++ picked R bucket rows.
Proof.
  unfold picked, bucket_names. cbn [filter].
  now destruct (in_bucket R bucket row).
Qed.

Lemma bucket_medications_rows (R : runtime) (rows : list value)
    (m a e : list value) :
  Forall medication rows ->
  for_each (bucket_medication R) rows (m, a, e)
  = Ok (m ++ picked R "morning" rows, a ++ picked R "afternoon" rows,
        e ++ picked R "evening" rows).
Proof.
  intros H. revert m a e.
  induction H as [|row rows Hrow _ IH]; intros m a e; cbn [for_each].
  - unfold picked, bucket_names. cbn. now rewrite !app_nil_r.
  - rewrite (bucket_medication_row R m a e row Hrow). cbn [bind].
    rewrite IH, !picked_cons, <- !app_assoc. reflexivity.
Qed.

Lemma strings_map_VStr (ss : list pystr) : strings (map VStr ss) = Ok ss.
Proof.
  induction ss as [|s ss IH]; [reflexivity|].
  cbn [map strings]. now rewrite IH.
Qed.

Lemma names_or_none_picked (R : runtime) (bucket : string)
    (rows : list value) :
  names_or_none (picked R bucket rows)
  = Ok (VStr (bucket_text (bucket_names R bucket rows))).
Proof.
  unfold picked, names_or_none, bucket_text, str_join.
  destruct (bucket_names R bucket rows) as [|n ns]; [reflexivity|].
  cbn [map]. change (VStr n :: map VStr ns) with (map VStr (n :: ns)).
  rewrite strings_map_VStr. reflexivity.
Qed.

(** The loop and the entry together, on rows that are medications. *)
Lemma medications_of_rows (R : runtime) (rows : list value) :
  Forall medication rows ->
  bind (bucket_medications R (VList rows))
       (medications_entry (VList rows))
  = Ok (reference R rows).
Proof.
  intros H. unfold bucket_medications. cbn [iter bind].
  rewrite (bucket_medications_rows R rows [] [] [] H). cbn [bind app].
  unfold medications_entry. cbn [len bind].
  rewrite !names_or_none_picked. cbn [bind].
  unfold reference. now destruct rows.
Qed.

(** A profile that was assembled in full carries, as its ["medications"],
    what the loop and the entry make of the rows the datastore returned. *)
Lemma assembled_medications (R : runtime) (sb : Supabase.client)
    (normalized : pystr) (rows : value) (profile : value) :
  (forall id, Supabase.select sb "medications" "*" "loved_one_id" id
              = Ok rows) ->
  assemble R sb normalized = Ok profile ->
  contains_key "error" profile = Ok false ->
  bind (bucket_medications R rows) (medications_entry rows)
  = item profile "medications".
Proof.
  intros Hrows H Hfull. unfold assemble in H.
  repeat match type of H with
         | bind ?m _ = Ok _ =>
             destruct m eqn:?; cbn [bind] in H; [|discriminate H]
         | (if ?b then _ else _) = Ok _ => destruct b eqn:?
         end;
    injection H as <-; try discriminate Hfull.
  match goal with
  | Hs : Supabase.select sb "medications" _ _ _ = Ok ?m |- _ =>
      rewrite Hrows in Hs; injection Hs as <-
  end.
  match goal with
  | Hb : bucket_medications R rows = Ok _ |- _ => rewrite Hb
  end.
  cbn [bind].
  match goal with
  | He : medications_entry rows _ = Ok _ |- _ => rewrite He
  end.
  reflexivity.
Qed.

(** C6. For every list of medication rows, the ["medications"] entry the
    profile gets is the reference: a medication is in a bucket exactly when
    one of its tags mentions the bucket name in any case (so it may be in
    several), a bucket reads as its names joined with [", "] or as
    ["none"], and [has_medications] says whether there is a row at all.
    This holds of the loop and the entry taken alone, and of every profile
    the endpoint assembles from a datastore that returns these rows. *)
Theorem medications_entry_reference (R : runtime) (rows : list value) :
  Forall medication rows ->
  bind (bucket_medications R (VList rows))
       (medications_entry (VList rows))
  = Ok (reference R rows)
  /\ forall (sb : Supabase.client) (phone_number : pystr) (profile : value),
       (forall id, Supabase.select sb "medications" "*" "loved_one_id" id
                   = Ok (VList rows)) ->
       get_loved_one_profile_query R sb phone_number = Ok profile ->
       contains_key "error" profile = Ok false ->
       item profile "medications" = Ok (reference R rows).
Proof.
  intros H. pose proof (medications_of_rows R rows H) as Hentry.
  split; [exact Hentry|].
  intros sb phone_number profile Hrows Hprofile Hfull.
  unfold get_loved_one_profile_query in Hprofile.
  destruct (assemble R sb (normalized_number phone_number)) as [p|e] eqn:Ha;
    cbn [try_except] in Hprofile; injection Hprofile as <-;
    [|discriminate Hfull].
  now rewrite <- (assembled_medications R sb _ (VList rows) p Hrows Ha Hfull).
Qed.

Lemma medications_entry_witness :
  bind (bucket_medications Fixtures.plain (VList three_medications))
       (medications_entry (VList three_medications))
  = Ok (obj [("has_medications", VBool true);
             ("morning_medications", text "Aspirin, Metformin");
             ("afternoon_medications", text "Metformin");
             ("evening_medications", text "Aspirin")]).
Proof.
  destruct (medications_entry_reference Fixtures.plain three_medications)
    as [Hentry _]; [repeat constructor | exact Hentry].
Defined.

(** No row at all: [has_medications] is false and every bucket reads
    ["none"]. A row that lands in no bucket still counts as a row. *)
Example no_medications (R : runtime) :
  bind (bucket_medications R (VList [])) (medications_entry (VList []))
  = Ok (obj [("has_medications", VBool false);
             ("morning_medications", text "none");
             ("afternoon_medications", text "none");
             ("evening_medications", text "none")]).
Proof. reflexivity. Qed.

Example untimed_medication (R : runtime) :
  bind (bucket_medications R
          (VList [obj [("medication_name", text "Melatonin")]]))
       (medications_entry
          (VList [obj [("medication_name", text "Melatonin")]]))
  = Ok (obj [("has_medications", VBool true);
             ("morning_medications", text "none");
             ("afternoon_medications", text "none");
             ("evening_medications", text "none")]).
Proof. reflexivity. Qed.

End MedicationFacts.

(** ** The profile and the conversation initiation: failures *)

Module FallbackFacts.

Import PyStr Py Supabase Profile Variables ConversationInitiation.
Import FallbackSpec.
Local Open Scope string_scope.
Local Open Scope list_scope.

Lemma try_except_returns {A} (body : result A) (handler : exn -> A) :
  exists a, try_except body (fun e => Ok (handler e)) = Ok a.
Proof. destruct body; simpl; eauto. Qed.

(** C4 (amended). Neither endpoint lets an exception of its assembly out.
    When the assembly raises, the profile endpoint returns the caller name
    ["Valued Customer"] together with an ["error"] entry holding the text
    of the exception, and the conversation initiation returns dynamic
    variables that hold the caller name ["there"] and nothing else. *)
Theorem assembly_failure_falls_back (R : runtime) (sb : client)
    (phone_number : pystr) (http_get : pystr -> result response)
    (request_json : result value) (hour : N) :
  (exists v, get_loved_one_profile_query R sb phone_number = Ok v)
  /\ (forall e,
        assemble R sb (normalized_number phone_number) = Raise e ->
        get_loved_one_profile_query R sb phone_number
        = Ok (obj [("caller_name", text "Valued Customer");
                   ("error", VStr (exception_text R e))]))
  /\ (exists v,
        handle_conversation_initiation R http_get request_json hour = Ok v)
  /\ (forall e,
        initiation R http_get request_json hour = Raise e ->
        handle_conversation_initiation R http_get request_json hour
        = Ok (obj [("type", text "conversation_initiation_client_data");
                   ("dynamic_variables",
                    obj [("caller_name", text "there")])])).
Proof.
  repeat split.
  - apply try_except_returns.
  - intros e H. unfold get_loved_one_profile_query. now rewrite H.
  - unfold handle_conversation_initiation.
    apply (try_except_returns _ (fun _ => there)).
  - intros e H. unfold handle_conversation_initiation. now rewrite H.
Qed.

(** A datastore that refuses every request and a request whose body is
    not JSON. *)
Lemma assembly_failure_witness :
  get_loved_one_profile_query Fixtures.plain Fixtures.offline
    (str "+15550100")
  = Ok (obj [("caller_name", text "Valued Customer");
             ("error", text "<exception>")])
  /\ handle_conversation_initiation Fixtures.plain
       (fun _ => Raise (Error "ConnectError" (str "refused")))
       (Raise (Error "JSONDecodeError" (str "Expecting value"))) 9
     = Ok (obj [("type", text "conversation_initiation_client_data");
                ("dynamic_variables", obj [("caller_name", text "there")])]).
Proof.
  destruct (assembly_failure_falls_back Fixtures.plain
              Fixtures.offline (str "+15550100")
              (fun _ => Raise (Error "ConnectError" (str "refused")))
              (Raise (Error "JSONDecodeError" (str "Expecting value"))) 9)
    as (_ & Hprofile & _ & Hinit).
  split.
  - apply (Hprofile (Error "APIError" (str "offline"))). reflexivity.
  - apply (Hinit (Error "JSONDecodeError" (str "Expecting value"))).
    reflexivity.
Defined.

(** The object the profile endpoint returns on a failure is not the
    caller name alone: it has an ["error"] entry as well. *)
Lemma profile_fallback_has_error :
  ~ (forall (R : runtime) (sb : client) (phone_number : pystr) (e : exn),
        assemble R sb (normalized_number phone_number) = Raise e ->
        get_loved_one_profile_query R sb phone_number
        = Ok (obj [("caller_name", text "Valued Customer")])).
Proof.
  intros H.
  specialize (H Fixtures.plain Fixtures.offline (str "+15550100")
                (Error "APIError" (str "offline")) eq_refl).
  discriminate H.
Qed.

(** Failures of the joining, not only of the lookup, end the same way: a
    medication row without a name, and a profile answer that is not an
    object. *)
Example nameless_medication_falls_back (R : runtime) :
  get_loved_one_profile_query R nameless_medication (str "15550100")
  = Ok (obj [("caller_name", text "Valued Customer");
             ("error",
              VStr (exception_text R
                      (KeyError (text "medication_name"))))]).
Proof. reflexivity. Qed.

Example odd_profile_falls_back (R : runtime) (hour : N) :
  handle_conversation_initiation R
    (fun _ => Ok {| raise_for_status := Ok tt; json := Ok (VInt 5) |})
    (Ok (obj [("caller_id", text "+15550100")])) hour
  = Ok there.
Proof. reflexivity. Qed.

(** A profile answer that reports an error is no exception for the
    conversation initiation: the caller name of the answer is passed on,
    so a failure inside the profile endpoint reaches the conversation as
    ["Valued Customer"]. *)
Lemma reported_error_passes_caller_name (R : runtime)
    (http_get : pystr -> result response) (data caller_id : value)
    (resp : response) (profile name : value) (hour : N) :
  get_or data "caller_id" VNone = Ok caller_id ->
  truthy caller_id = true ->
  http_get (profile_url R caller_id) = Ok resp ->
  raise_for_status resp = Ok tt ->
  json resp = Ok profile ->
  contains_key "error" profile = Ok true ->
  get_or profile "caller_name" (text "there") = Ok name ->
  handle_conversation_initiation R http_get (Ok data) hour
  = Ok (client_data [(str "caller_name", name)]).
Proof.
  intros Hid Htruthy Hget Hstatus Hjson Herror Hname.
  unfold handle_conversation_initiation, initiation. cbn [bind].
  rewrite Hid. cbn [bind]. rewrite Htruthy. cbn [negb].
  rewrite Hget. cbn [bind]. rewrite Hstatus. cbn [bind].
  rewrite Hjson. cbn [bind]. rewrite Herror. cbn [bind].
  rewrite Hname. reflexivity.
Qed.

Example failed_profile_reaches_conversation (R : runtime) (e : exn)
    (hour : N) :
  handle_conversation_initiation R
    (fun _ => Ok {| raise_for_status := Ok tt;
                    json := Ok (Profile.failed R e) |})
    (Ok (obj [("caller_id", text "+15550100")])) hour
  = Ok (client_data [(str "caller_name", text "Valued Customer")]).
Proof. reflexivity. Qed.

End FallbackFacts.

(** ** The outbound call: appointments *)

Module AppointmentFacts.

Import PyStr Py Variables InitiateCall.
Import AppointmentSpec.
Local Open Scope string_scope.
Local Open Scope list_scope.

Lemma dict_get_set_same {V} (k : pystr) (v : V) (d : dict V) :
  dict_get k (dict_set k v d) = Some v.
Proof.
  induction d as [|[k' v'] d IH]; cbn [dict_set dict_get].
  - now rewrite PyStrFacts.eqb_refl.
  - destruct (eqb k k') eqn:E; cbn [dict_get];
      [now rewrite PyStrFacts.eqb_refl | now rewrite E].
Qed.

Lemma dict_get_set_other {V} (k k' : pystr) (v : V) (d : dict V) :
  eqb k k' = false -> dict_get k (dict_set k' v d) = dict_get k d.
Proof.
  intros Hne. induction d as [|[k0 v0] d IH]; cbn [dict_set dict_get].
  - now rewrite Hne.
  - destruct (eqb k' k0) eqn:E; cbn [dict_get].
    + apply PyStrFacts.eqb_eq in E. subst k0. now rewrite Hne.
    + now destruct (eqb k k0).
Qed.

Lemma appt_details_records (R : runtime) (appts : list value)
    (acc : list pystr) :
  Forall record appts ->
  for_each (appt_detail R) appts acc = Ok (acc ++ map (summary R) appts).
Proof.
  intros H. revert acc.
  induction H as [|appt rest [d ->] _ IH]; intros acc; cbn [for_each map].
  - now rewrite app_nil_r.
  - unfold appt_detail at 1. cbn [get bind]. rewrite IH, <- app_assoc.
    reflexivity.
Qed.

Lemma Forall_firstn {A} (P : A -> Prop) (n : nat) (l : list A) :
  Forall P l -> Forall P (firstn n l).
Proof.
  intros H. revert n. induction H; intros [|n]; cbn [firstn]; auto.
Qed.

Lemma appointment_variables_summarized (R : runtime) (profile : value)
    (dv : dict value) (appts : list value) :
  get_or profile "appointments" (VList []) = Ok (VList appts) ->
  Forall record appts ->
  exists dv',
    appointment_variables R profile dv = Ok dv' /\ summarized R appts dv'.
Proof.
  intros Hget Hrecords. unfold appointment_variables. rewrite Hget.
  cbn [bind]. destruct appts as [|next rest].
  - cbn [truthy]. eexists. split; [reflexivity|]. split.
    + rewrite dict_get_set_other by reflexivity. apply dict_get_set_same.
    + apply dict_get_set_same.
  - cbn [truthy item0 bind slice3 iter].
    pose proof (Forall_firstn record 3 _ Hrecords) as H3.
    rewrite (appt_details_records R _ [] H3). cbn [bind app].
    inversion Hrecords as [|? ? [d ->] _]; subst.
    cbn [get_or bind].
    eexists. split; [reflexivity|].
    repeat split;
      repeat (rewrite dict_get_set_other by reflexivity);
      apply dict_get_set_same.
Qed.

(** The time of day, set last, leaves the appointment variables alone. *)
Lemma summarized_time_of_day (R : runtime) (appts : list value)
    (dv : dict value) (v : value) :
  summarized R appts dv ->
  summarized R appts (dict_set (str "time_of_day") v dv).
Proof.
  unfold summarized. destruct appts as [|next rest].
  - intros [H1 H2]. split; now rewrite dict_get_set_other by reflexivity.
  - intros (H1 & H2 & H3 & H4 & H5).
    repeat split; now rewrite dict_get_set_other by reflexivity.
Qed.

(** C7. For every list of appointment records, the summary is made of the
    first three records at most, in the order given, each written
    ["<title> on <date> at <time>"] and joined with [", "]; the first
    record's title, date and time are the next appointment; and without
    any record [has_upcoming_appointment] is ["false"] and the summary is
    ["none"]. This holds of lines 539 to 557 from any dictionary, and of
    the variables the call is started with. *)
Theorem appointment_summary (R : runtime) (profile : value)
    (appts : list value) :
  get_or profile "appointments" (VList []) = Ok (VList appts) ->
  Forall record appts ->
  length (firstn 3 appts) <= 3
  /\ (forall dv : dict value,
        exists dv',
          appointment_variables R profile dv = Ok dv'
          /\ summarized R appts dv')
  /\ (forall (hour : N) (dv : dict value),
        dynamic_variables R profile = Ok dv ->
        exists dv',
          call_variables R profile hour = Ok dv'
          /\ summarized R appts dv').
Proof.
  intros Hget Hrecords. split; [apply firstn_le_length|]. split.
  - intros dv.
    exact (appointment_variables_summarized R profile dv appts Hget Hrecords).
  - intros hour dv Hdv. unfold call_variables. rewrite Hdv. cbn [bind].
    destruct (appointment_variables_summarized R profile dv appts Hget
                Hrecords) as (dv' & -> & Hs).
    cbn [bind]. eexists. split; [reflexivity|].
    now apply summarized_time_of_day.
Qed.

Lemma appointment_summary_witness :
  exists dv',
    appointment_variables Fixtures.plain
      (obj [("appointments", VList four_appointments)]) [] = Ok dv'
    /\ dict_get (str "has_upcoming_appointment") dv' = Some (text "true")
    /\ dict_get (str "next_appointment_title") dv' = Some (text "Dentist")
    /\ dict_get (str "next_appointment_date") dv' = Some (text "2025-05-01")
    /\ dict_get (str "next_appointment_time") dv' = Some (text "09:00")
    /\ dict_get (str "upcoming_appointments") dv'
       = Some (text "Dentist on 2025-05-01 at 09:00, Physio on 2025-05-02 at 10:30, Eye test on 2025-05-03 at 14:00").
Proof.
  destruct (appointment_summary Fixtures.plain
              (obj [("appointments", VList four_appointments)])
              four_appointments)
    as (_ & Hfrom & _).
  - reflexivity.
  - repeat constructor; eexists; reflexivity.
  - destruct (Hfrom []) as (dv' & Hrun & Hfields).
    exists dv'. split; [exact Hrun | exact Hfields].
Defined.

(** No appointment at all, whatever the runtime. *)
Example no_appointments (R : runtime) (dv : dict value) :
  exists dv',
    appointment_variables R (obj [("appointments", VList [])]) dv = Ok dv'
    /\ dict_get (str "has_upcoming_appointment") dv' = Some (text "false")
    /\ dict_get (str "upcoming_appointments") dv' = Some (text "none").
Proof.
  destruct (appointment_variables_summarized R
              (obj [("appointments", VList [])]) dv [])
    as (dv' & Hrun & Hfields); [reflexivity | constructor |].
  exists dv'. split; [exact Hrun | exact Hfields].
Qed.

End AppointmentFacts.

(** ** The media stream: teardown *)

Module TeardownFacts.

Import PyStr Py MediaStream.
Import TeardownSpec.
Local Open Scope list_scope.

Lemma relay_no_teardown (R : runtime) (frames : list received) :
  filter is_end (fst (relay R frames)) = []
  /\ filter is_wait (fst (relay R frames)) = [].
Proof.
  induction frames as [|f rest [IHe IHw]]; [now split|].
  destruct f as [[|c m] handled|e]; cbn [relay]; try (now split).
  destruct (json_loads R (c :: m)) as [event|e]; [|now split].
  destruct handled as [u|e]; [|now split].
  destruct (relay R rest) as [calls r]. cbn [fst filter is_end is_wait] in *.
  now split.
Qed.

Lemma converse_no_teardown (R : runtime) (s : session) :
  filter is_end (fst (converse R s)) = []
  /\ filter is_wait (fst (converse R s)) = [].
Proof.
  unfold converse.
  destruct (conversation s); [|now split].
  destruct (start_session s); [|now split].
  pose proof (relay_no_teardown R (stream s)) as [He Hw].
  destruct (relay R (stream s)) as [calls r].
  cbn [fst filter is_end is_wait] in *.
  now split.
Qed.

Lemma relay_stops (R : runtime) (before after : list received)
    (f : received) :
  stops R f = true ->
  relay R (before ++ f :: after) = relay R (before ++ [f]).
Proof.
  intros Hf. induction before as [|g before IH]; cbn [app].
  - destruct f as [[|c m] handled|e]; try discriminate Hf; cbn [relay];
      [|reflexivity].
    cbn [stops] in Hf.
    destruct (json_loads R (c :: m)) as [event|e]; [|reflexivity].
    destruct handled as [u|e]; [discriminate Hf | reflexivity].
  - destruct g as [[|c m] handled|e]; cbn [relay]; try reflexivity;
      try exact IH.
    now rewrite IH.
Qed.

(** The counts of a run. *)
Lemma run_counts (R : runtime) (s : session) :
  ends (handle_media_stream R s)
  = (if returned (conversation s) then 1 else 0)
  /\ waits (handle_media_stream R s)
     = (if returned (conversation s) && returned (end_session s) then 1
        else 0).
Proof.
  unfold ends, waits, handle_media_stream.
  pose proof (converse_no_teardown R s) as [He Hw].
  destruct (converse R s) as [calls r]. cbn [fst] in He, Hw.
  unfold teardown.
  destruct (conversation s) as [u|e]; cbn [returned andb].
  - destruct (end_session s) as [u'|e]; cbn [fst returned];
      rewrite !filter_app, He, Hw; now split.
  - cbn [fst]. rewrite !filter_app, He, Hw. now split.
Qed.

(** C3 (amended). In every session whose conversation object was made,
    however the relay ends (the stream closes, the client disconnects, a
    frame or the start of the session raises), the handler ends the
    session exactly once; it waits for the end exactly once when ending
    the session returned, and not at all when that call raised. No run
    makes either call twice, the handler itself always returns, and
    nothing that arrives after the frame that stopped the relay changes
    the run. *)
Theorem teardown_once (R : runtime) (s : session) :
  returned (conversation s) = true ->
  ends (handle_media_stream R s) = 1
  /\ waits (handle_media_stream R s)
     = (if returned (end_session s) then 1 else 0)
  /\ snd (handle_media_stream R s) = Ok tt
  /\ (forall s' : session,
        ends (handle_media_stream R s') <= 1
        /\ waits (handle_media_stream R s') <= 1)
  /\ (forall (before after : list received) (f : received),
        stream s = before ++ f :: after -> stops R f = true ->
        handle_media_stream R s
        = handle_media_stream R
            {| conversation := conversation s;
               start_session := start_session s;
               stream := before ++ [f];
               end_session := end_session s;
               wait_for_session_end := wait_for_session_end s |}).
Proof.
  intros Hc. pose proof (run_counts R s) as [He Hw]. rewrite Hc in He, Hw.
  repeat split.
  - exact He.
  - exact Hw.
  - unfold handle_media_stream.
    now destruct (converse R s), (teardown s).
  - destruct (run_counts R s') as [-> _].
    destruct (returned (conversation s')); auto.
  - destruct (run_counts R s') as [_ ->].
    destruct (returned (conversation s') && returned (end_session s')); auto.
  - intros before after f Hs Hf.
    unfold handle_media_stream, converse, teardown. cbn.
    now rewrite Hs, (relay_stops R before after f Hf).
Qed.

Lemma teardown_once_witness :
  ends (handle_media_stream Fixtures.parsing faulty_session) = 1
  /\ waits (handle_media_stream Fixtures.parsing faulty_session) = 1
  /\ fst (handle_media_stream Fixtures.parsing faulty_session)
     = [StartSession; HandleTwilioMessage (VDict []); EndSession;
        WaitForSessionEnd].
Proof.
  destruct (teardown_once Fixtures.parsing faulty_session eq_refl)
    as (He & Hw & _).
  split; [exact He|]. split; [exact Hw | reflexivity].
Defined.

(** The three ways out, for any runtime: the stream closes, the client
    disconnects, a frame cannot be handled. *)
Example ways_out (R : runtime) (e : exn) :
  let run frames :=
    fst (handle_media_stream R
           {| conversation := Ok tt; start_session := Ok tt;
              stream := frames; end_session := Ok tt;
              wait_for_session_end := Ok tt |}) in
  run [] = [StartSession; EndSession; WaitForSessionEnd]
  /\ run [Broken WebSocketDisconnect]
     = [StartSession; EndSession; WaitForSessionEnd]
  /\ run [Broken e] = [StartSession; EndSession; WaitForSessionEnd].
Proof. repeat split. Qed.

(** When ending the session raises, the handler does not wait for the
    end: on a stream that closes normally that call is made zero times. *)
Lemma failed_end_session_skips_wait :
  waits (handle_media_stream Fixtures.plain
           {| conversation := Ok tt;
              start_session := Ok tt;
              stream := [];
              end_session := Raise (Error "RuntimeError" (str "stop failed"));
              wait_for_session_end := Ok tt |})
  = 0
  /\ forall R : runtime,
       fst (handle_media_stream R
              {| conversation := Ok tt;
                 start_session := Ok tt;
                 stream := [];
                 end_session :=
                   Raise (Error "RuntimeError" (str "stop failed"));
                 wait_for_session_end := Ok tt |})
       = [StartSession; EndSession].
Proof. split; reflexivity. Qed.

End TeardownFacts.

(** ** One household, end to end *)

Module EndToEnd.

Import PyStr Py Supabase.
Import Household.
Local Open Scope string_scope.
Local Open Scope list_scope.

Example household_profile (R : runtime) :
  Profile.get_loved_one_profile_query R household (str " 1555 0100 ")
  = Ok (obj
          [("caller", obj [("name", text "Ada")]);
           ("loved_one",
            obj [("name", text "Grace"); ("nickname", text "Gran");
                 ("age_range", text "80-90"); ("gender", text "female");
                 ("relationship", text "grandmother")]);
           ("medications",
            obj [("has_medications", VBool true);
                 ("morning_medications", text "Aspirin, Metformin");
                 ("afternoon_medications", text "Metformin");
                 ("evening_medications", text "Aspirin")]);
           ("call_settings",
            obj [("length", text "short"); ("voice", text "female");
                 ("frequency", text "daily check ins");
                 ("checklist",
                  obj [("medication_reminders", VBool true);
                       ("sleep_quality", VBool false);
                       ("mood_check", VBool false);
                       ("upcoming_appointments", VBool false)])]);
           ("notifications",
            obj [("daily_summary", VBool false);
                 ("missed_calls", VBool false);
                 ("low_sentiment", VBool false)]);
           ("appointments", VList AppointmentSpec.four_appointments)]).
Proof. reflexivity. Qed.

(** The outbound call for that household at 9 o'clock, with a telephony
    client that hands back the initiation data as the call id. *)
Example household_call (R : runtime) :
  InitiateCall.initiate_call R household (fun _ data => Ok (obj [("callSid", data)]))
    (str "15550100") 9
  = Ok (obj
          [("status", text "success");
           ("call_sid",
            obj [("type", text "conversation_initiation_client_data");
                 ("dynamic_variables",
                  obj [("caller_name", text "Ada");
                       ("loved_one_name", text "Grace");
                       ("loved_one_nickname", text "Gran");
                       ("loved_one_gender", text "female");
                       ("loved_one_relationship", text "grandmother");
                       ("has_medications", text "true");
                       ("morning_medications", text "Aspirin, Metformin");
                       ("afternoon_medications", text "Metformin");
                       ("evening_medications", text "Aspirin");
                       ("call_length", text "short");
                       ("voice_preference", text "female");
                       ("call_frequency", text "daily check ins");
                       ("check_medications", text "true");
                       ("check_sleep", text "false");
                       ("check_mood", text "false");
                       ("check_appointments", text "false");
                       ("notify_daily_summary", text "false");
                       ("notify_missed_calls", text "false");
                       ("notify_low_sentiment", text "false");
                       ("has_upcoming_appointment", text "true");
                       ("next_appointment_title", text "Dentist");
                       ("next_appointment_date", text "2025-05-01");
                       ("next_appointment_time", text "09:00");
                       ("upcoming_appointments",
                        text "Dentist on 2025-05-01 at 09:00, Physio on 2025-05-02 at 10:30, Eye test on 2025-05-03 at 14:00");
                       ("time_of_day", text "morning")])])]).
Proof. reflexivity. Qed.

(** The call-end webhook for a two-turn conversation with a caller the
    datastore does not know yet. *)
Example two_turns_stored (R : runtime) :
  CallEnd.persist R Fixtures.accepting PersistSpec.two_turns_payload
  = ([("users", obj [("phone_number", text "+15550100");
                     ("user_name", text "Unknown User")]);
      ("conversations", PersistSpec.two_turns_row)],
     Ok (CallEnd.reply (str "success")
           (str "Transcript and additional data saved"))).
Proof. reflexivity. Qed.

End EndToEnd.

(** ** Phone numbers in two spellings *)

Module NormalizationFacts.

Import PyStr Py PyStrSpec.
Local Open Scope string_scope.
Local Open Scope list_scope.
Local Open Scope N_scope.

Lemma lstrip_remove_spaces (x : pystr) :
  lstrip (remove_spaces x) = remove_spaces (lstrip x).
Proof.
  induction x as [|c r IH]; [reflexivity|].
  cbn [lstrip]. unfold remove_spaces in *. cbn [filter].
  destruct (N.eqb_spec c 32) as [->|Hc]; cbn [negb].
  - exact IH.
  - cbn [lstrip]. destruct (isspace c); [exact IH|].
    cbn [filter]. destruct (N.eqb_spec c 32); [contradiction | reflexivity].
Qed.

Lemma strip_remove_spaces (x : pystr) :
  strip (remove_spaces x) = remove_spaces (strip x).
Proof.
  unfold strip, rstrip.
  rewrite lstrip_remove_spaces, <- PyStrFacts.remove_spaces_rev,
    lstrip_remove_spaces, PyStrFacts.remove_spaces_rev.
  reflexivity.
Qed.

Lemma normalized_without_spaces (x : pystr) :
  normalized_number (remove_spaces x) = normalized_number x.
Proof.
  unfold normalized_number.
  now rewrite strip_remove_spaces, PyStrFacts.remove_spaces_idem.
Qed.

Lemma remove_spaces_insert (a b : pystr) :
  remove_spaces (a ++ 32 :: b) = remove_spaces (a ++ b).
Proof. unfold remove_spaces. now rewrite !filter_app. Qed.

Lemma normalized_insert_space (a b : pystr) :
  normalized_number (a ++ 32 :: b) = normalized_number (a ++ b).
Proof.
  rewrite <- (normalized_without_spaces (a ++ 32 :: b)),
    <- (normalized_without_spaces (a ++ b)).
  now rewrite remove_spaces_insert.
Qed.

Lemma lstrip_snoc (u : pystr) (a : N) :
  isspace a = false -> lstrip (u ++ [a]) = lstrip u ++ [a].
Proof.
  intros Ha. induction u as [|c u IH]; cbn [app lstrip].
  - now rewrite Ha.
  - destruct (isspace c); [exact IH | reflexivity].
Qed.

Lemma rstrip_cons (a : N) (y : pystr) :
  isspace a = false -> rstrip (a :: y) = a :: rstrip y.
Proof.
  intros Ha. unfold rstrip. cbn [rev].
  now rewrite (lstrip_snoc _ a Ha), rev_app_distr.
Qed.

Lemma normalized_leading_plus (c : N) (r : pystr) :
  isspace c = false -> c <> 43 ->
  normalized_number (43 :: c :: r) = normalized_number (c :: r).
Proof.
  intros Hc Hplus. unfold normalized_number, strip.
  change (str "+") with [43].
  cbn [lstrip]. change (isspace 43) with false. cbv iota. rewrite Hc.
  rewrite (rstrip_cons 43 (c :: r) eq_refl), (rstrip_cons c r Hc).
  unfold remove_spaces. cbn [filter]. change (43 =? 32) with false.
  cbn [negb].
  destruct (N.eqb_spec c 32) as [->|_]; [discriminate Hc|]. cbn [negb].
  cbn [startswith]. rewrite N.eqb_refl. cbn [andb].
  destruct (N.eqb_spec 43 c) as [E|_]; [congruence | reflexivity].
Qed.

(** X1. Two spellings of one number have one canonical form: a space put
    anywhere into the number changes nothing, and neither does a ["+"] put
    in front of a number that starts with another character; so
    ["+1 234 567 8900"] and ["1 234 5678900"] are the same number. *)
Theorem spellings_agree :
  (forall a b : pystr,
      normalized_number (a ++ 32 :: b) = normalized_number (a ++ b))
  /\ (forall (c : N) (r : pystr),
        isspace c = false -> c <> 43 ->
        normalized_number (43 :: c :: r) = normalized_number (c :: r))
  /\ normalized_number (str "+1 234 567 8900")
     = normalized_number (str "1 234 5678900").
Proof.
  split; [exact normalized_insert_space|].
  split; [exact normalized_leading_plus | reflexivity].
Qed.

Lemma remove_spaces_fixed_no_space (s : pystr) :
  remove_spaces s = s -> ~ In 32 s.
Proof.
  unfold remove_spaces. intros H Hin. rewrite <- H in Hin.
  apply filter_In in Hin. destruct Hin as [_ Hin].
  now rewrite N.eqb_refl in Hin.
Qed.

(** X2. Whatever the input, the normalized number starts with ["+"], holds
    no space, and has no white space at either end: stripping it again
    gives it back. *)
Theorem normalized_number_shape (x : pystr) :
  exists r,
    normalized_number x = 43 :: r
    /\ ~ In 32 (normalized_number x)
    /\ strip (normalized_number x) = normalized_number x.
Proof.
  destruct (PyStrFacts.normalized_number_canonical x) as [Hh Hl Hs Hp].
  destruct (normalized_number x) as [|c r] eqn:E; [discriminate Hp|].
  cbn [startswith] in Hp. apply andb_true_iff in Hp. destruct Hp as [Hc _].
  apply N.eqb_eq in Hc. subst c. exists r. split; [reflexivity|]. split.
  - now apply remove_spaces_fixed_no_space.
  - now apply PyStrFacts.strip_id.
Qed.

End NormalizationFacts.

(** ** The signature check, further *)

Module SignatureFacts.

Import PyStr Py CallEnd AuthSpec HandlerSpec.
Local Open Scope string_scope.
Local Open Scope list_scope.
Local Open Scope N_scope.

Local Arguments expected_signature : simpl never.

(** What an accepted request looks like. *)
Lemma authenticate_accepted (secret : pystr) (h : option pystr)
    (body : bytes) (body_str : pystr) :
  authenticate secret h body = Ok body_str ->
  exists header parts T D,
    h = Some header
    /\ signature_parts header = Ok parts
    /\ dict_get (str "t") parts = Some T /\ T <> []
    /\ dict_get (str "v0") parts = Some D
    /\ decode_utf8 body = Some body_str
    /\ D = expected_signature secret T body_str.
Proof.
  intros H. destruct h as [[|c r]|]; try discriminate H.
  unfold authenticate in H.
  destruct (signature_parts (c :: r)) as [parts|e] eqn:Hp; [|discriminate H].
  cbn [bind] in H.
  destruct (dict_get (str "t") parts) as [[|t0 T]|] eqn:Ht;
    try discriminate H.
  destruct (dict_get (str "v0") parts) as [[|d0 D]|] eqn:Hv;
    try discriminate H.
  destruct (decode_utf8 body) as [b|] eqn:Hb; [|discriminate H].
  unfold compare_digest in H.
  destruct (isascii _ && isascii _); [|discriminate H]. cbn [bind] in H.
  destruct (eqb _ _) eqn:E; [|discriminate H]. injection H as <-.
  apply PyStrFacts.eqb_eq in E.
  exists (c :: r), parts, (t0 :: T), (d0 :: D).
  repeat split; auto. discriminate.
Qed.

(** X3. The check never lets a request through on anything but the
    digest: when a request is accepted, its header parsed to a timestamp
    that is not empty and to a [v0], its body is valid UTF-8, and [v0] is
    the lowercase hex digest of HMAC-SHA256(secret, timestamp + "." +
    body). *)
Theorem accepted_means_signed (secret : pystr) (h : option pystr)
    (body : bytes) (body_str : pystr) :
  authenticate secret h body = Ok body_str ->
  exists header parts T,
    h = Some header
    /\ signature_parts header = Ok parts
    /\ dict_get (str "t") parts = Some T /\ T <> []
    /\ decode_utf8 body = Some body_str
    /\ dict_get (str "v0") parts
       = Some (expected_signature secret T body_str).
Proof.
  intros H.
  destruct (authenticate_accepted secret h body body_str H)
    as (header & parts & T & D & Hh & Hp & Ht & HT & Hv & Hb & HD).
  exists header, parts, T. subst D. repeat split; assumption.
Qed.

Lemma accepted_means_signed_witness :
  exists header parts T,
    Some demo_header = Some header
    /\ signature_parts header = Ok parts
    /\ dict_get (str "t") parts = Some T /\ T <> []
    /\ decode_utf8 (str "{}") = Some (str "{}")
    /\ dict_get (str "v0") parts
       = Some (expected_signature (str "whsec") T (str "{}")).
Proof.
  apply (accepted_means_signed (str "whsec") (Some demo_header) (str "{}")
           (str "{}")).
  vm_compute. reflexivity.
Defined.

(** *** The digest *)

Lemma hexdigest_length (b : bytes) :
  length (Sha256.hexdigest b) = (2 * length b)%nat.
Proof.
  unfold Sha256.hexdigest. induction b as [|x r IH]; [reflexivity|].
  cbn [flat_map app length]. rewrite IH. lia.
Qed.

Lemma hex_digit_lower (d : N) : d < 16 -> hex_lower (Sha256.hex_digit d) = true.
Proof.
  intros H. unfold hex_lower, Sha256.hex_digit.
  destruct (N.ltb_spec d 10).
  - apply orb_true_iff. left. apply andb_true_iff.
    split; apply N.leb_le; lia.
  - apply orb_true_iff. right. apply andb_true_iff.
    split; apply N.leb_le; lia.
Qed.

Lemma hexdigest_lower (b : bytes) :
  forallb hex_lower (Sha256.hexdigest b) = true.
Proof.
  unfold Sha256.hexdigest. induction b as [|x r IH]; [reflexivity|].
  cbn [flat_map app forallb].
  rewrite !hex_digit_lower, IH; try reflexivity;
    apply N.mod_lt; discriminate.
Qed.

Lemma expected_signature_shape (secret t b : pystr) :
  length (expected_signature secret t b) = 64%nat
  /\ forallb hex_lower (expected_signature secret t b) = true.
Proof.
  unfold expected_signature. split; [|apply hexdigest_lower].
  rewrite hexdigest_length. unfold Sha256.hmac_sha256.
  now rewrite Sha256Facts.sha256_length.
Qed.

(** X4. The digest the check expects is always 64 lowercase hexadecimal
    digits. So when the header parses and the body decodes, a [v0] made of
    ASCII characters that is shorter or longer, or has any other character
    (an upper-case digit, say), is refused with 401. *)
Theorem other_shapes_refused (secret header : pystr) (parts : dict pystr)
    (T D : pystr) (body : bytes) (B : pystr) :
  signature_parts header = Ok parts ->
  dict_get (str "t") parts = Some T ->
  dict_get (str "v0") parts = Some D ->
  decode_utf8 body = Some B ->
  isascii D = true ->
  length D <> 64%nat \/ forallb hex_lower D = false ->
  (length (expected_signature secret T B) = 64%nat
   /\ forallb hex_lower (expected_signature secret T B) = true)
  /\ exists detail,
       authenticate secret (Some header) body
       = Raise (HTTPException 401 detail).
Proof.
  intros Hp Ht Hv Hb Hascii Hshape.
  pose proof (expected_signature_shape secret T B) as [Hlen Hhex].
  split; [now split|].
  rewrite (AuthFacts.authenticate_parsed secret header parts body Hp), Ht, Hv.
  destruct T as [|t0 T']; [eauto|].
  destruct D as [|d0 D']; [eauto|]. rewrite Hb. cbv beta iota.
  rewrite AuthFacts.compare_digest_differ;
    [eexists; reflexivity | apply AuthFacts.expected_signature_isascii
    | exact Hascii |].
  intros E. rewrite <- E in Hshape. destruct Hshape; congruence.
Qed.

Lemma other_shapes_refused_witness :
  exists detail,
    authenticate (str "whsec")
      (Some (str "t=1700000000,v0=7D44587DDDBAF4C7F70FEF20F48CD594834FFEA1641E3AC227B84408298738AF"))
      (str "{}")
    = Raise (HTTPException 401 detail).
Proof.
  apply (other_shapes_refused (str "whsec") _
           [(str "t", str "1700000000");
            (str "v0", str "7D44587DDDBAF4C7F70FEF20F48CD594834FFEA1641E3AC227B84408298738AF")]
           (str "1700000000")
           (str "7D44587DDDBAF4C7F70FEF20F48CD594834FFEA1641E3AC227B84408298738AF")
           (str "{}") (str "{}")); try reflexivity.
  right. reflexivity.
Defined.

(** *** The bytes that are signed *)

Ltac to_props :=
  repeat match goal with
         | H : (_ && _)%bool = true |- _ =>
             apply andb_true_iff in H; destruct H
         | H : negb _ = true |- _ => apply negb_true_iff in H
         | H : (_ && _)%bool = false |- _ => apply andb_false_iff in H
         | H : (_ <=? _) = true |- _ => apply N.leb_le in H
         | H : (_ <=? _) = false |- _ => apply N.leb_gt in H
         | H : (_ <? _) = true |- _ => apply N.ltb_lt in H
         | H : (_ <? _) = false |- _ => apply N.ltb_ge in H
         end.

Ltac by_division := zify; Z.to_euclidean_division_equations; lia.

Lemma utf8_char_two (b0 b1 : N) :
  194 <= b0 -> b0 <= 223 -> continuation b1 = true ->
  utf8_char ((b0 - 192) * 64 + (b1 - 128)) = [b0; b1].
Proof.
  unfold continuation. intros. to_props. unfold utf8_char.
  destruct (N.ltb_spec ((b0 - 192) * 64 + (b1 - 128)) 128); [lia|].
  destruct (N.ltb_spec ((b0 - 192) * 64 + (b1 - 128)) 2048); [|lia].
  f_equal; [|f_equal]; by_division.
Qed.

Lemma utf8_char_three (b0 b1 b2 : N) :
  224 <= b0 -> b0 <= 239 ->
  continuation b1 = true -> continuation b2 = true ->
  2048 <= (b0 - 224) * 4096 + (b1 - 128) * 64 + (b2 - 128) ->
  utf8_char ((b0 - 224) * 4096 + (b1 - 128) * 64 + (b2 - 128))
  = [b0; b1; b2].
Proof.
  unfold continuation. intros. to_props. unfold utf8_char.
  set (c := (b0 - 224) * 4096 + (b1 - 128) * 64 + (b2 - 128)) in *.
  destruct (N.ltb_spec c 128); [lia|].
  destruct (N.ltb_spec c 2048); [lia|].
  destruct (N.ltb_spec c 65536); [|subst c; lia].
  subst c. f_equal; [|f_equal; [|f_equal]]; by_division.
Qed.

Lemma utf8_char_four (b0 b1 b2 b3 : N) :
  240 <= b0 -> b0 <= 244 ->
  continuation b1 = true -> continuation b2 = true ->
  continuation b3 = true ->
  65536 <= (b0 - 240) * 262144 + (b1 - 128) * 4096 + (b2 - 128) * 64
           + (b3 - 128) ->
  utf8_char ((b0 - 240) * 262144 + (b1 - 128) * 4096 + (b2 - 128) * 64
             + (b3 - 128))
  = [b0; b1; b2; b3].
Proof.
  unfold continuation. intros. to_props. unfold utf8_char.
  set (c := (b0 - 240) * 262144 + (b1 - 128) * 4096 + (b2 - 128) * 64
            + (b3 - 128)) in *.
  destruct (N.ltb_spec c 128); [lia|].
  destruct (N.ltb_spec c 2048); [lia|].
  destruct (N.ltb_spec c 65536); [lia|].
  subst c. f_equal; [|f_equal; [|f_equal; [|f_equal]]]; by_division.
Qed.

Lemma encode_cons (c : N) (s : pystr) :
  encode_utf8 (c :: s) = utf8_char c ++ encode_utf8 s.
Proof. reflexivity. Qed.

(** Encoding what was decoded gives the bytes back. *)
Lemma encode_decoded (n : nat) :
  forall (b : bytes) (s : pystr),
    (length b <= n)%nat -> decode_utf8 b = Some s -> encode_utf8 s = b.
Proof.
  induction n as [|n IH]; intros b s Hlen H.
  - destruct b; [|cbn in Hlen; lia]. now injection H as <-.
  - destruct b as [|b0 r0]; [now injection H as <-|].
    cbn [length] in Hlen. cbn [decode_utf8] in H.
    destruct (b0 <? 128) eqn:E0.
    { destruct (decode_utf8 r0) as [s0|] eqn:Hr; [|discriminate H].
      cbn [option_map] in H.
      injection H as <-. rewrite encode_cons, (IH r0 s0); [|lia|exact Hr].
      unfold utf8_char. now rewrite E0. }
    destruct ((194 <=? b0) && (b0 <=? 223))%bool eqn:E1.
    { destruct r0 as [|b1 r1]; [discriminate H|].
      destruct (continuation b1) eqn:C1; [|discriminate H].
      destruct (decode_utf8 r1) as [s1|] eqn:Hr; [|discriminate H].
      injection H as <-. cbn [length] in Hlen.
      rewrite encode_cons, (IH r1 s1); [|lia|exact Hr].
      to_props. now rewrite utf8_char_two. }
    destruct ((224 <=? b0) && (b0 <=? 239))%bool eqn:E2.
    { destruct r0 as [|b1 [|b2 r2]]; try discriminate H.
      match type of H with
      | (if ?c then _ else _) = _ => destruct c eqn:C; [|discriminate H]
      end.
      destruct (decode_utf8 r2) as [s2|] eqn:Hr; [|discriminate H].
      injection H as <-. cbn [length] in Hlen.
      rewrite encode_cons, (IH r2 s2); [|lia|exact Hr].
      apply andb_true_iff in C. destruct C as [C _].
      apply andb_true_iff in C. destruct C as [C C3].
      apply andb_true_iff in C. destruct C as [C1 C2].
      to_props. now rewrite utf8_char_three. }
    destruct ((240 <=? b0) && (b0 <=? 244))%bool eqn:E3; [|discriminate H].
    destruct r0 as [|b1 [|b2 [|b3 r3]]]; try discriminate H.
    match type of H with
    | (if ?c then _ else _) = _ => destruct c eqn:C; [|discriminate H]
    end.
    destruct (decode_utf8 r3) as [s3|] eqn:Hr; [|discriminate H].
    injection H as <-. cbn [length] in Hlen.
    rewrite encode_cons, (IH r3 s3); [|lia|exact Hr].
    apply andb_true_iff in C. destruct C as [C _].
    apply andb_true_iff in C. destruct C as [C C4].
    apply andb_true_iff in C. destruct C as [C C3].
    apply andb_true_iff in C. destruct C as [C1 C2].
    to_props. now rewrite utf8_char_four.
Qed.

(** X5. What is signed is the timestamp, a full stop and the body as it
    came: for a body that is valid UTF-8, decoding it and encoding the
    message again gives the timestamp's bytes, 0x2E and the raw bytes of
    the body, and the expected digest is the HMAC over exactly these. *)
Theorem signed_bytes_are_raw_body (secret T : pystr) (body : bytes)
    (B : pystr) :
  decode_utf8 body = Some B ->
  encode_utf8 (T ++ str "." ++ B) = encode_utf8 T ++ 46 :: body
  /\ expected_signature secret T B
     = Sha256.hexdigest
         (Sha256.hmac_sha256 (encode_utf8 secret)
            (encode_utf8 T ++ 46 :: body)).
Proof.
  intros H.
  assert (E : encode_utf8 (T ++ str "." ++ B) = encode_utf8 T ++ 46 :: body).
  { unfold encode_utf8. rewrite !flat_map_app.
    change (flat_map utf8_char (str ".")) with [46].
    change (flat_map utf8_char B) with (encode_utf8 B).
    now rewrite (encode_decoded (length body) body B (le_n _) H). }
  split; [exact E|]. unfold expected_signature. now rewrite E.
Qed.

Lemma signed_bytes_witness :
  encode_utf8 (str "1700000000" ++ str "." ++ [123; 233; 8364; 128512; 125])
  = encode_utf8 (str "1700000000")
    ++ 46 :: [123; 195; 169; 226; 130; 172; 240; 159; 152; 128; 125].
Proof.
  apply (signed_bytes_are_raw_body (str "whsec") (str "1700000000")
           [123; 195; 169; 226; 130; 172; 240; 159; 152; 128; 125]
           [123; 233; 8364; 128512; 125]).
  vm_compute. reflexivity.
Defined.

(** *** Segments given twice *)

Lemma split_last (sep : N) (a b : pystr) :
  ~ In sep b -> split sep (a ++ sep :: b) = split sep a ++ [b].
Proof.
  intros Hb. induction a as [|c r IH]; cbn [app split].
  - now rewrite N.eqb_refl, (AuthFacts.split_without sep b Hb).
  - rewrite IH. destruct (c =? sep); [reflexivity|].
    destruct (split sep r) as [|p ps] eqn:E; [|reflexivity].
    now destruct (AuthFacts.split_not_nil sep r).
Qed.

Lemma for_each_app {A S} (body : S -> A -> result S) (xs ys : list A)
    (s : S) :
  for_each body (xs ++ ys) s
  = bind (for_each body xs s) (for_each body ys).
Proof.
  revert s. induction xs as [|x xs IH]; intros s; cbn [app for_each bind].
  - reflexivity.
  - destruct (body s x) as [s'|e]; cbn [bind]; [apply IH | reflexivity].
Qed.

(** X21. Of two segments with the same key the later one counts: a
    segment [k=v] added at the end of a header sets [k] to [v] in what the
    header parses to and leaves the other keys alone, so a header that
    gives [v0] twice is judged on the second. *)
Theorem later_segment_wins (header k v : pystr) :
  ~ In 44 k -> ~ In 61 k -> ~ In 44 v -> ~ In 61 v ->
  signature_parts (header ++ 44 :: k ++ 61 :: v)
  = bind (signature_parts header) (fun parts => Ok (dict_set k v parts))
  /\ forall parts,
       signature_parts header = Ok parts ->
       exists parts',
         signature_parts (header ++ 44 :: k ++ 61 :: v) = Ok parts'
         /\ dict_get k parts' = Some v
         /\ forall k', eqb k' k = false ->
                       dict_get k' parts' = dict_get k' parts.
Proof.
  intros Hk44 Hk61 Hv44 Hv61.
  assert (E : signature_parts (header ++ 44 :: k ++ 61 :: v)
              = bind (signature_parts header)
                  (fun parts => Ok (dict_set k v parts))).
  { unfold signature_parts. rewrite split_last.
    2:{ intros H. apply in_app_or in H. destruct H as [H|[H|H]];
        [exact (Hk44 H) | discriminate H | exact (Hv44 H)]. }
    rewrite for_each_app.
    match goal with
    | |- bind ?m _ = _ => destruct m as [parts|e]; cbn [bind]; [|reflexivity]
    end.
    cbn [for_each].
    rewrite (AuthFacts.split_at_first 61 k v Hk61),
      (AuthFacts.split_without 61 v Hv61).
    reflexivity. }
  split; [exact E|]. intros parts Hp. rewrite E, Hp. cbn [bind].
  eexists. split; [reflexivity|]. split.
  - apply AppointmentFacts.dict_get_set_same.
  - intros k' Hne. now apply AppointmentFacts.dict_get_set_other.
Qed.

Lemma later_segment_witness :
  signature_parts (str "t=1700000000,v0=aa,v0=bb")
  = Ok [(str "t", str "1700000000"); (str "v0", str "bb")].
Proof.
  destruct (later_segment_wins (str "t=1700000000,v0=aa") (str "v0")
              (str "bb")) as [H _].
  - intros [H|[H|[]]]; discriminate H.
  - intros [H|[H|[]]]; discriminate H.
  - intros [H|[H|[]]]; discriminate H.
  - intros [H|[H|[]]]; discriminate H.
  - exact H.
Defined.

End SignatureFacts.

(** ** The call-end webhook: what is written, and when *)

Module WriteFacts.

Import PyStr Py Supabase CallEnd Fixtures.
Import PersistSpec HandlerSpec.
Local Open Scope string_scope.
Local Open Scope list_scope.

Local Arguments expected_signature : simpl never.

Ltac read_field H :=
  match type of H with
  | _ = wbind (pure ?m) _ =>
      let E := fresh "E" in
      destruct m eqn:E;
      [rewrite PersistFacts.wbind_pure_ok in H
      | rewrite PersistFacts.wbind_pure_raise in H]
  end.

(** [save] either writes nothing, or has read its fields and goes on to
    [store]. *)
Lemma save_outcome (R : runtime) (sb : client) (data caller_id : value) :
  (fst (save R sb data caller_id) = []
   /\ (snd (save R sb data caller_id)
       = Ok (reply (str "error") (str "No transcript available"))
       \/ exists e, snd (save R sb data caller_id) = Raise e))
  \/ exists number transcript t cds hl dir,
       caller_id = VStr number
       /\ transcript_of data = Ok transcript
       /\ truthy transcript = true
       /\ full_transcript R transcript = Ok t
       /\ save R sb data caller_id
          = store sb (normalized_number number) t cds hl dir.
Proof.
  remember (save R sb data caller_id) as s eqn:Hs. unfold save in Hs.
  read_field Hs;
    [|subst s; left; split; [reflexivity | right; eexists; reflexivity]].
  destruct (truthy a) eqn:Ht; cbn [negb] in Hs;
    [|subst s; left; split; [reflexivity | left; reflexivity]].
  do 9 (read_field Hs;
        [|subst s; left; split; [reflexivity | right; eexists; reflexivity]]).
  right. destruct caller_id; try discriminate.
  match goal with H : str_method _ _ = Ok _ |- _ =>
    cbn in H; injection H as <- end.
  do 6 eexists. repeat split; try eassumption; try reflexivity.
Qed.

(** The caller's row: found, or made. *)
Lemma user_id_of_found (sb : client) (n : pystr) (users : value) :
  select sb "users" "id" "phone_number" (VStr n) = Ok users ->
  truthy users = true ->
  fst (user_id_of sb n) = []
  /\ forall id, snd (user_id_of sb n) = Ok id -> first_id users = Ok id.
Proof.
  intros Hs Ht. unfold user_id_of.
  rewrite Hs, PersistFacts.wbind_pure_ok, Ht.
  destruct (len users) as [k|e] eqn:E; cbn [bind];
    [|rewrite PersistFacts.wbind_pure_raise; split;
      [reflexivity | discriminate]].
  rewrite PersistFacts.wbind_pure_ok.
  destruct (Nat.ltb 0 k) eqn:Hk.
  - split; [reflexivity|]. intros id H. exact H.
  - exfalso. destruct users as [| | |[|]|[|]|[|]]; try discriminate;
      cbn in E; injection E as <-; discriminate.
Qed.

Lemma user_id_of_made (sb : client) (n : pystr) (users : value) :
  select sb "users" "id" "phone_number" (VStr n) = Ok users ->
  truthy users = false ->
  user_id_of sb n
  = ([("users", new_user n)],
     bind (insert sb "users" (new_user n)) first_id).
Proof.
  intros Hs Ht. unfold user_id_of.
  rewrite Hs, PersistFacts.wbind_pure_ok, Ht, PersistFacts.wbind_pure_ok.
  unfold wbind, issue_insert, new_user, first_id.
  now destruct (insert sb "users" _).
Qed.

Lemma user_id_of_writes (sb : client) (n : pystr) :
  fst (user_id_of sb n) = [] \/ fst (user_id_of sb n) = [("users", new_user n)].
Proof.
  destruct (select sb "users" "id" "phone_number" (VStr n)) as [users|e] eqn:Hs.
  - destruct (truthy users) eqn:Ht.
    + left. now apply (user_id_of_found sb n users).
    + right. now rewrite (user_id_of_made sb n users).
  - left. unfold user_id_of. now rewrite Hs.
Qed.

(** What [store] writes and answers, by how the caller's row came out. *)
Lemma store_outcome (sb : client) (n t : pystr) (cds hl dir : value) :
  (exists e, snd (user_id_of sb n) = Raise e
             /\ store sb n t cds hl dir = (fst (user_id_of sb n), Raise e))
  \/ exists user_id,
       snd (user_id_of sb n) = Ok user_id
       /\ store sb n t cds hl dir
          = (fst (user_id_of sb n)
               ++ [("conversations", conversation_row user_id n t cds hl dir)],
             bind (insert sb "conversations"
                     (conversation_row user_id n t cds hl dir))
               (fun _ => Ok (reply (str "success")
                               (str "Transcript and additional data saved")))).
Proof.
  unfold store. destruct (user_id_of sb n) as [w [user_id|e]].
  - right. exists user_id. split; [reflexivity|].
    unfold wbind, issue_insert, pure. cbn [fst].
    destruct (insert sb "conversations" _); cbn [bind];
      now rewrite ?app_nil_r.
  - left. exists e. now split.
Qed.

Lemma persist_save (R : runtime) (sb : client)
    (data conversation_id caller_id : value) :
  conversation_and_caller data = Ok (conversation_id, caller_id) ->
  truthy conversation_id = true -> truthy caller_id = true ->
  fst (persist R sb data) = fst (save R sb data caller_id)
  /\ snd (persist R sb data)
     = match snd (save R sb data caller_id) with
       | Ok v => Ok v
       | Raise e => Ok (reply (str "error") (exception_text R e))
       end.
Proof.
  intros H Hc Hp. unfold persist.
  rewrite H, PersistFacts.wbind_pure_ok, Hc, Hp. cbn [negb orb].
  destruct (save R sb data caller_id) as [w [v|e]]; split; reflexivity.
Qed.

(** When [persist] writes, the identifiers were there and [save] wrote. *)
Lemma persist_wrote (R : runtime) (sb : client) (data : value) :
  fst (persist R sb data) <> [] ->
  exists conversation_id caller_id,
    conversation_and_caller data = Ok (conversation_id, caller_id)
    /\ truthy conversation_id = true /\ truthy caller_id = true.
Proof.
  unfold persist. intros H.
  destruct (conversation_and_caller data) as [[cid caller]|e];
    [|exfalso; apply H; reflexivity].
  rewrite PersistFacts.wbind_pure_ok in H.
  destruct (truthy cid) eqn:Hc; [|exfalso; apply H; reflexivity].
  destruct (truthy caller) eqn:Hp; [|exfalso; apply H; reflexivity].
  now exists cid, caller.
Qed.

(** X6. The webhook writes nothing for a request it has not
    authenticated and understood: when any insert is issued, the signature
    was accepted, the body parsed, the conversation id and the caller
    phone were both there, and the transcript was not empty. *)
Theorem writes_need_signature (R : runtime) (secret : pystr) (sb : client)
    (signature_header : option pystr) (body : bytes) :
  fst (handle_call_end R secret sb signature_header body) <> [] ->
  exists body_str data conversation_id caller_id transcript,
    authenticate secret signature_header body = Ok body_str
    /\ json_loads R body_str = Ok data
    /\ conversation_and_caller data = Ok (conversation_id, caller_id)
    /\ truthy conversation_id = true /\ truthy caller_id = true
    /\ transcript_of data = Ok transcript /\ truthy transcript = true.
Proof.
  unfold handle_call_end. intros H.
  destruct (authenticate secret signature_header body) as [body_str|e];
    [|exfalso; apply H; reflexivity].
  rewrite PersistFacts.wbind_pure_ok in H.
  destruct (json_loads R body_str) as [data|e] eqn:Hj;
    [|exfalso; apply H; reflexivity].
  rewrite PersistFacts.wbind_pure_ok in H.
  destruct (persist_wrote R sb data H) as (cid & caller & Hids & Hc & Hp).
  destruct (persist_save R sb data cid caller Hids Hc Hp) as [Hw _].
  rewrite Hw in H.
  destruct (save_outcome R sb data caller)
    as [[Hnil _] | (number & tr & t & cds & hl & dir & _ & Htr & Ht & _)];
    [now contradiction H|].
  exists body_str, data, cid, caller, tr. repeat split; assumption.
Qed.

Lemma writes_need_signature_witness :
  exists body_str data conversation_id caller_id transcript,
    authenticate (str "whsec") (Some two_turns_header) two_turns_body
    = Ok body_str
    /\ json_loads reading body_str = Ok data
    /\ conversation_and_caller data = Ok (conversation_id, caller_id)
    /\ truthy conversation_id = true /\ truthy caller_id = true
    /\ transcript_of data = Ok transcript /\ truthy transcript = true.
Proof.
  apply (writes_need_signature reading (str "whsec") accepting
           (Some two_turns_header) two_turns_body).
  vm_compute. discriminate.
Defined.

Lemma canonical_number (x : pystr) :
  normalized_number (normalized_number x) = normalized_number x.
Proof.
  apply PyStrFacts.canonical_fixed, PyStrFacts.normalized_number_canonical.
Qed.

(** What [persist] writes once it goes on to [store]. *)
Lemma persist_store (R : runtime) (sb : client) (data : value) :
  fst (persist R sb data) = []
  \/ exists conversation_id number t cds hl dir,
       conversation_and_caller data = Ok (conversation_id, VStr number)
       /\ fst (persist R sb data)
          = fst (store sb (normalized_number number) t cds hl dir)
       /\ snd (persist R sb data)
          = match snd (store sb (normalized_number number) t cds hl dir) with
            | Ok v => Ok v
            | Raise e => Ok (reply (str "error") (exception_text R e))
            end.
Proof.
  destruct (fst (persist R sb data)) as [|w0 w] eqn:Hw; [now left|].
  right.
  assert (H : fst (persist R sb data) <> []) by now rewrite Hw.
  destruct (persist_wrote R sb data H) as (cid & caller & Hids & Hc & Hp).
  destruct (persist_save R sb data cid caller Hids Hc Hp) as [Hf Hr].
  destruct (save_outcome R sb data caller)
    as [[Hnil _] | (number & tr & t & cds & hl & dir & -> & _ & _ & _ & E)].
  - rewrite Hf, Hnil in Hw. discriminate Hw.
  - exists cid, number, t, cds, hl, dir. rewrite <- Hw, Hf, Hr, E.
    now repeat split.
Qed.

(** X7. Whatever the payload and the datastore, the call-end webhook
    issues at most two inserts: none, or the caller's new row, or the call
    alone, or the caller's new row followed by the call. When it issues
    any, the caller phone of the payload is a string, and the phone
    number in each row is that string in canonical form. *)
Theorem inserts_issued (R : runtime) (sb : client) (data : value) :
  fst (persist R sb data) = []
  \/ exists conversation_id number,
       conversation_and_caller data = Ok (conversation_id, VStr number)
       /\ normalized_number (normalized_number number)
          = normalized_number number
       /\ (fst (persist R sb data)
           = [("users", new_user (normalized_number number))]
           \/ exists row,
                column "phone_number" row
                = Some (VStr (normalized_number number))
                /\ (fst (persist R sb data) = [("conversations", row)]
                    \/ fst (persist R sb data)
                       = [("users", new_user (normalized_number number));
                          ("conversations", row)])).
Proof.
  destruct (persist_store R sb data)
    as [Hnil | (cid & number & t & cds & hl & dir & Hids & Hf & _)];
    [now left|].
  rewrite Hf.
  assert (Hright :
    forall w,
      (w = [("users", new_user (normalized_number number))]
       \/ exists row,
            column "phone_number" row
            = Some (VStr (normalized_number number))
            /\ (w = [("conversations", row)]
                \/ w = [("users", new_user (normalized_number number));
                        ("conversations", row)])) ->
      w = []
      \/ exists conversation_id number',
           conversation_and_caller data = Ok (conversation_id, VStr number')
           /\ normalized_number (normalized_number number')
              = normalized_number number'
           /\ (w = [("users", new_user (normalized_number number'))]
               \/ exists row,
                    column "phone_number" row
                    = Some (VStr (normalized_number number'))
                    /\ (w = [("conversations", row)]
                        \/ w = [("users",
                                 new_user (normalized_number number'));
                                ("conversations", row)]))).
  { intros w H. right. exists cid, number. split; [exact Hids|].
    split; [apply canonical_number | exact H]. }
  destruct (store_outcome sb (normalized_number number) t cds hl dir)
    as [(e & He & ->) | (user_id & _ & ->)]; cbn [fst];
    destruct (user_id_of_writes sb (normalized_number number)) as [-> | ->].
  - now left.
  - apply Hright. now left.
  - apply Hright. right. eexists. split; [|left; reflexivity]. reflexivity.
  - apply Hright. right. eexists. split; [|right; reflexivity]. reflexivity.
Qed.

(** *** The persister with its prints *)

Lemma wbind_ext {A B} (m : writer A) (k k' : A -> writer B) :
  (forall a, k a = k' a) -> wbind m k = wbind m k'.
Proof. intros H. destruct m as [w [a|e]]; cbn; now rewrite ?H. Qed.

(** On a standard output that takes every text, the persister with its
    prints is [persist]. *)
Lemma save_printing_quiet (R : runtime) (out : Logged.output) (sb : client)
    (data caller_id : value) :
  (forall line, out line = Ok tt) ->
  Logged.save_printing R out sb data caller_id = save R sb data caller_id.
Proof.
  intros H. unfold Logged.save_printing, save.
  apply wbind_ext. intros transcript.
  destruct (negb (truthy transcript));
    [now rewrite H, PersistFacts.wbind_pure_ok|].
  apply wbind_ext. intros t. rewrite H, PersistFacts.wbind_pure_ok.
  do 8 (apply wbind_ext; intros ?). cbv zeta.
  apply wbind_ext. intros user_id. apply wbind_ext. intros _.
  now rewrite H, PersistFacts.wbind_pure_ok.
Qed.

Lemma persist_printing_quiet (R : runtime) (out : Logged.output)
    (sb : client) (data : value) :
  (forall line, out line = Ok tt) ->
  Logged.persist_printing R out sb data = persist R sb data.
Proof.
  intros H. unfold Logged.persist_printing, persist.
  apply wbind_ext. intros [conversation_id caller_id].
  destruct (negb (truthy conversation_id) || negb (truthy caller_id));
    [now rewrite H, PersistFacts.wbind_pure_ok|].
  rewrite (save_printing_quiet R out sb data caller_id H).
  destruct (save R sb data caller_id) as [w [v|e]]; [reflexivity|].
  now rewrite H.
Qed.

(** What the body of the [try] has done when it returns. *)
Lemma save_printing_returns (R : runtime) (out : Logged.output)
    (sb : client) (data caller_id : value) (w : list write) (v : value) :
  Logged.save_printing R out sb data caller_id = (w, Ok v) ->
  (w = [] /\ v = reply (str "error") (str "No transcript available"))
  \/ (v = reply (str "success") (str "Transcript and additional data saved")
      /\ exists before row stored,
           w = before ++ [("conversations", row)]
           /\ insert sb "conversations" row = Ok stored).
Proof.
  intros H. symmetry in H. unfold Logged.save_printing in H.
  read_field H; [|discriminate H].
  destruct (truthy a); cbn [negb] in H.
  - do 10 (read_field H; [|discriminate H]). cbv zeta in H.
    match type of H with
    | context [user_id_of sb ?n] =>
        destruct (user_id_of sb n) as [wu [user_id|e]];
        cbv [wbind issue_insert pure] in H; [|discriminate H]
    end.
    match type of H with
    | context [insert sb "conversations" ?row] =>
        destruct (insert sb "conversations" row) as [stored|e] eqn:Hi;
        [|discriminate H]
    end.
    destruct (out (Logged.saved_line R user_id)); [|discriminate H].
    injection H as -> ->. right. split; [reflexivity|].
    eexists wu, _, stored. split; [reflexivity | exact Hi].
  - read_field H; [|discriminate H]. injection H as -> ->. now left.
Qed.

(** X8. Once the identifiers of the payload are read, an exception leaves
    the persister from two places only, the print before the "Missing
    required fields" reply and the print inside the [except] clause: when
    these return, as they do on a standard output that takes every text,
    every other exception (of the datastore, of the payload's shape, of
    the prints inside the [try]) ends in a reply whose status is
    ["error"]. The status ["success"] is answered only after the insert
    into the conversations table, the last request issued, has
    returned. *)
Theorem reply_follows_store (R : runtime) (out : Logged.output)
    (sb : client) (data : value) (ids : value * value) :
  conversation_and_caller data = Ok ids ->
  (exists status message,
      snd (Logged.persist_printing R out sb data) = Ok (reply status message)
      /\ (status = str "success" \/ status = str "error")
      /\ (status = str "success" ->
          exists before row stored,
            fst (Logged.persist_printing R out sb data)
            = before ++ [("conversations", row)]
            /\ insert sb "conversations" row = Ok stored))
  \/ (exists line e,
        out line = Raise e
        /\ snd (Logged.persist_printing R out sb data) = Raise e
        /\ (line = Logged.missing_line
            \/ exists e',
                 snd (Logged.save_printing R out sb data (snd ids))
                 = Raise e'
                 /\ line = Logged.error_line R e')).
Proof.
  intros Hids. destruct ids as [cid caller]. cbn [snd].
  unfold Logged.persist_printing.
  rewrite Hids, PersistFacts.wbind_pure_ok.
  destruct (negb (truthy cid) || negb (truthy caller)).
  - destruct (out Logged.missing_line) as [u|e] eqn:Ho.
    + left. rewrite PersistFacts.wbind_pure_ok.
      eexists (str "error"), _. split; [reflexivity|].
      split; [now right | discriminate].
    + right. exists Logged.missing_line, e.
      split; [exact Ho|]. split; [reflexivity | now left].
  - destruct (Logged.save_printing R out sb data caller)
      as [w [v|e']] eqn:Hs; cbn [fst snd].
    + left.
      destruct (save_printing_returns R out sb data caller w v Hs)
        as [[-> ->] | [-> Hstored]].
      * eexists (str "error"), _. split; [reflexivity|].
        split; [now right | discriminate].
      * eexists (str "success"), _. split; [reflexivity|].
        split; [now left | intros _; exact Hstored].
    + destruct (out (Logged.error_line R e')) as [u|e] eqn:Ho; cbn [bind].
      * left. eexists (str "error"), _. split; [reflexivity|].
        split; [now right | discriminate].
      * right. exists (Logged.error_line R e'), e.
        split; [exact Ho|]. split; [reflexivity|]. right. now exists e'.
Qed.

Lemma reply_follows_store_witness :
  exists status message,
    snd (Logged.persist_printing plain (fun _ => Ok tt) accepting
           two_turns_payload)
    = Ok (reply status message)
    /\ (status = str "success" \/ status = str "error")
    /\ (status = str "success" ->
        exists before row stored,
          fst (Logged.persist_printing plain (fun _ => Ok tt) accepting
                 two_turns_payload)
          = before ++ [("conversations", row)]
          /\ insert accepting "conversations" row = Ok stored).
Proof.
  destruct (reply_follows_store plain (fun _ => Ok tt) accepting
              two_turns_payload (text "conv_1", text " 15550100 ") eq_refl)
    as [H | (line & e & Ho & _)]; [exact H | discriminate Ho].
Defined.

(** A standard output that cannot encode what it is given. The
    datastore is down and the text of its exception cannot be printed:
    the exception of the print inside the [except] clause leaves the
    handler. A transcript that cannot be printed is not stored, although
    the datastore would have taken it. And when the last print of the
    [try] raises, the call is stored and the answer is an error. *)
Example unprintable_text (R : runtime) :
  Logged.persist_printing R
    (fun _ => Raise (Error "UnicodeEncodeError" (str "surrogates not allowed")))
    offline two_turns_payload
  = ([], Raise (Error "UnicodeEncodeError" (str "surrogates not allowed")))
  /\ Logged.persist_printing R
       (fun line =>
          if startswith (str "Formatted transcript:") line
          then Raise (Error "UnicodeEncodeError"
                        (str "surrogates not allowed"))
          else Ok tt)
       accepting two_turns_payload
     = ([], Ok (reply (str "error")
                  (exception_text R
                     (Error "UnicodeEncodeError"
                        (str "surrogates not allowed")))))
  /\ Logged.persist_printing R
       (fun line =>
          if startswith (str "Transcript and additional data saved") line
          then Raise (Error "UnicodeEncodeError"
                        (str "surrogates not allowed"))
          else Ok tt)
       accepting two_turns_payload
     = ([("users", new_user (str "+15550100"));
         ("conversations", two_turns_row)],
        Ok (reply (str "error")
              (exception_text R
                 (Error "UnicodeEncodeError"
                    (str "surrogates not allowed"))))).
Proof. repeat split. Qed.

(** X9. A caller the datastore knows is not made again: when the lookup
    by the canonical number finds rows, no insert into the users table is
    issued, and a call that is stored carries the id of the first row
    found. *)
Theorem known_caller_not_recreated (R : runtime) (sb : client)
    (data conversation_id : value) (number : pystr) (users : value) :
  conversation_and_caller data = Ok (conversation_id, VStr number) ->
  select sb "users" "id" "phone_number" (VStr (normalized_number number))
  = Ok users ->
  truthy users = true ->
  (forall row, ~ In ("users", row) (fst (persist R sb data)))
  /\ (forall row, In ("conversations", row) (fst (persist R sb data)) ->
      exists id, first_id users = Ok id /\ column "user_id" row = Some id).
Proof.
  intros Hids Hsel Hfound.
  destruct (user_id_of_found sb _ users Hsel Hfound) as [Hw Hid].
  destruct (persist_store R sb data)
    as [Hnil | (cid & number' & t & cds & hl & dir & Hids' & Hf & _)].
  - rewrite Hnil. split; intros row H; destruct H.
  - rewrite Hids in Hids'. injection Hids' as _ <-. rewrite Hf.
    destruct (store_outcome sb (normalized_number number) t cds hl dir)
      as [(e & _ & ->) | (user_id & Hu & ->)]; cbn [fst]; rewrite Hw.
    + split; intros row H; destruct H.
    + split; intros row [H|[]]; [discriminate H|].
      injection H as <-. exists user_id. split; [now apply Hid | reflexivity].
Qed.

Lemma known_caller_witness :
  (forall row,
      ~ In ("users", row)
          (fst (persist plain Household.household two_turns_payload)))
  /\ (forall row,
         In ("conversations", row)
            (fst (persist plain Household.household two_turns_payload)) ->
         exists id,
           first_id (VList [obj [("id", VInt 1); ("user_name", text "Ada")]])
           = Ok id
           /\ column "user_id" row = Some id).
Proof.
  apply (known_caller_not_recreated plain Household.household
           two_turns_payload (text "conv_1") (str " 15550100 ")
           (VList [obj [("id", VInt 1); ("user_name", text "Ada")]]));
    reflexivity.
Defined.

(** X10. A caller the datastore does not know is made before the call is
    stored: when the lookup by the canonical number finds no row, a stored
    call comes second, after the insert of the caller's row with the name
    ["Unknown User"], and carries the id the datastore gave that row. *)
Theorem unknown_caller_created (R : runtime) (sb : client)
    (data conversation_id : value) (number : pystr) (users row : value) :
  conversation_and_caller data = Ok (conversation_id, VStr number) ->
  select sb "users" "id" "phone_number" (VStr (normalized_number number))
  = Ok users ->
  truthy users = false ->
  In ("conversations", row) (fst (persist R sb data)) ->
  fst (persist R sb data)
  = [("users", new_user (normalized_number number)); ("conversations", row)]
  /\ exists created id,
       insert sb "users" (new_user (normalized_number number)) = Ok created
       /\ first_id created = Ok id
       /\ column "user_id" row = Some id.
Proof.
  intros Hids Hsel Hnone Hin.
  pose proof (user_id_of_made sb _ users Hsel Hnone) as Hu.
  destruct (persist_store R sb data)
    as [Hnil | (cid & number' & t & cds & hl & dir & Hids' & Hf & _)].
  - rewrite Hnil in Hin. destruct Hin.
  - rewrite Hids in Hids'. injection Hids' as _ <-. rewrite Hf in *.
    destruct (store_outcome sb (normalized_number number) t cds hl dir)
      as [(e & _ & Hst) | (user_id & Hid & Hst)]; rewrite Hst in *;
      rewrite Hu in *; cbn [fst snd app] in *.
    + destruct Hin as [H|[]]. discriminate H.
    + destruct Hin as [H|[H|[]]]; [discriminate H|].
      injection H as <-. split; [reflexivity|].
      destruct (insert sb "users" _) as [created|e]; [|discriminate Hid].
      exists created, user_id. now repeat split.
Qed.

Lemma unknown_caller_witness :
  fst (persist plain accepting two_turns_payload)
  = [("users", new_user (normalized_number (str " 15550100 ")));
     ("conversations", two_turns_row)]
  /\ exists created id,
       insert accepting "users"
         (new_user (normalized_number (str " 15550100 "))) = Ok created
       /\ first_id created = Ok id
       /\ column "user_id" two_turns_row = Some id.
Proof.
  apply (unknown_caller_created plain accepting two_turns_payload
           (text "conv_1") (str " 15550100 ") (VList []) two_turns_row);
    try reflexivity.
  right. left. reflexivity.
Defined.

(** X11. A transcript that cannot be turned into text is not stored, and
    neither is its caller: when building the text raises, the webhook
    answers with the error status and the text of the exception, and no
    insert is issued. *)
Theorem unreadable_transcript_not_stored (R : runtime) (sb : client)
    (data conversation_id caller_id transcript : value) (e : exn) :
  conversation_and_caller data = Ok (conversation_id, caller_id) ->
  truthy conversation_id = true -> truthy caller_id = true ->
  transcript_of data = Ok transcript -> truthy transcript = true ->
  full_transcript R transcript = Raise e ->
  persist R sb data = ([], Ok (reply (str "error") (exception_text R e))).
Proof.
  intros Hids Hc Hp Ht Hn He. unfold persist.
  rewrite Hids, PersistFacts.wbind_pure_ok, Hc, Hp. cbn [negb orb].
  unfold save. rewrite Ht, PersistFacts.wbind_pure_ok, Hn. cbn [negb].
  now rewrite He, PersistFacts.wbind_pure_raise.
Qed.

Lemma unreadable_transcript_witness :
  persist plain accepting odd_transcript_payload
  = ([], Ok (reply (str "error")
               (exception_text plain (AttributeError (VInt 1) "get")))).
Proof.
  apply (unreadable_transcript_not_stored plain accepting
           odd_transcript_payload (text "conv_1") (text "+15550100")
           (VList [VInt 1]) (AttributeError (VInt 1) "get"));
    reflexivity.
Defined.

End WriteFacts.

(** ** The caller's name and the profile, further *)

Module ProfileFacts.

Import PyStr Py Supabase Profile Variables Fixtures.
Import PersistSpec HandlerSpec.
Local Open Scope string_scope.
Local Open Scope list_scope.

Ltac run H :=
  repeat match type of H with
         | bind ?m _ = Ok _ =>
             let E := fresh "E" in
             destruct m eqn:E; [cbn [bind] in H | discriminate H]
         end.

(** X12. The caller-name endpoint always answers, with an object that
    holds a name and nothing else: the [user_name] of the first row the
    datastore has for the canonical number, and ["Valued Customer"] when
    there is no row, when the row has no [user_name], or when the
    datastore raises. *)
Theorem caller_name_answer (sb : client) (phone_number : pystr) :
  exists name,
    get_caller_name sb phone_number = Ok (obj [("name", name)])
    /\ (name = text "Valued Customer"
        \/ exists users u,
             select sb "users" "user_name" "phone_number"
               (VStr (normalized_number phone_number)) = Ok users
             /\ truthy users = true
             /\ item0 users = Ok u
             /\ item u "user_name" = Ok name).
Proof.
  unfold get_caller_name, try_except.
  destruct (select sb "users" "user_name" "phone_number" _)
    as [users|e] eqn:Hs; cbn [bind]; [|eauto].
  destruct (truthy users) eqn:Ht; cbn [bind]; [|eauto].
  destruct (len users) as [n|e]; cbn [bind]; [|eauto].
  destruct (Nat.ltb 0 n); [|eauto].
  destruct (item0 users) as [u|e] eqn:Hu; cbn [bind]; [|eauto].
  destruct (item u "user_name") as [name|e] eqn:Hn; cbn [bind]; [|eauto].
  exists name. split; [reflexivity|]. right. now exists users, u.
Qed.

(** *** The shapes of a profile *)

Lemma upcoming_appointments_listed (rows : list value) :
  forall acc l,
    for_each upcoming_appointment rows acc = Ok l ->
    exists new, l = acc ++ new /\ Forall2 listed rows new.
Proof.
  induction rows as [|row rows IH]; intros acc l H; cbn [for_each] in H.
  - injection H as <-. exists []. now rewrite app_nil_r.
  - unfold upcoming_appointment at 1 in H. run H.
    rename E into Hrow. run Hrow. injection Hrow as <-.
    destruct (IH _ _ H) as (new & -> & Hnew).
    eexists (_ :: new). rewrite <- app_assoc. split; [reflexivity|].
    constructor; [|exact Hnew]. unfold listed. eauto 10.
Qed.

Lemma listed_record (row appt : value) :
  listed row appt -> AppointmentSpec.record appt.
Proof. intros (t & d & tm & f & _ & _ & _ & _ & ->). eexists. reflexivity. Qed.

Lemma listed_records (rows appts : list value) :
  Forall2 listed rows appts -> Forall AppointmentSpec.record appts.
Proof.
  induction 1; constructor; [eapply listed_record; eassumption | assumption].
Qed.

(** X13. The appointments of a profile are the rows of the datastore, one
    for one and in their order: each is an object with the title, date,
    time and frequency of its row, so what the appointment summary is
    made from is always a list of records. *)
Theorem appointments_listed (rows appts : list value) :
  for_each upcoming_appointment rows [] = Ok appts ->
  Forall2 listed rows appts
  /\ length appts = length rows
  /\ Forall AppointmentSpec.record appts.
Proof.
  intros H. destruct (upcoming_appointments_listed rows [] appts H)
    as (new & -> & Hnew). cbn [app].
  split; [exact Hnew|]. split.
  - symmetry. exact (Forall2_length Hnew).
  - exact (listed_records rows new Hnew).
Qed.

Lemma appointments_listed_witness :
  Forall2 listed
    [obj [("appointment_title", text "Dentist");
          ("appointment_date", text "2025-05-01");
          ("appointment_time", text "09:00");
          ("frequency", text "once");
          ("notes", text "bring the card")]]
    [obj [("title", text "Dentist"); ("date", text "2025-05-01");
          ("time", text "09:00"); ("frequency", text "once")]].
Proof.
  apply (appointments_listed
           [obj [("appointment_title", text "Dentist");
                 ("appointment_date", text "2025-05-01");
                 ("appointment_time", text "09:00");
                 ("frequency", text "once");
                 ("notes", text "bring the card")]]).
  reflexivity.
Defined.

Lemma medications_entry_object (medications : value) (b : buckets)
    (v : value) :
  medications_entry medications b = Ok v -> exists d, v = VDict d.
Proof.
  unfold medications_entry. destruct b as [[m a] e]. intros H. run H.
  injection H as <-. eexists. reflexivity.
Qed.

Lemma assemble_shapes (R : runtime) (sb : client) (normalized : pystr)
    (profile : value) :
  assemble R sb normalized = Ok profile ->
  no_profile profile \/ full_profile profile.
Proof.
  unfold assemble. intros H. run H.
  destruct a0; [injection H as <-; left; eexists _, _; reflexivity|].
  run H.
  destruct a4; [injection H as <-; left; eexists _, _; reflexivity|].
  run H. injection H as <-. right.
  match goal with
  | Hm : medications_entry _ _ = Ok _ |- _ =>
      destruct (medications_entry_object _ _ _ Hm) as [meds ->]
  end.
  match goal with
  | Ha : for_each upcoming_appointment _ [] = Ok ?l |- _ =>
      destruct (upcoming_appointments_listed _ _ _ Ha) as (new & Hl & Hnew);
      cbn [app] in Hl; subst l
  end.
  unfold full_profile.
  eexists _, _, _, _, _, _, _, _, _. split; [reflexivity|].
  eapply listed_records. eassumption.
Qed.

(** X14. The profile endpoint always answers, in one of two shapes that
    the test ["error" in profile] of its callers tells apart: an object
    with a caller name and an error text and nothing else, or a full
    profile, which has its six sections, no ["error"] entry, and a list
    of records as appointments. *)
Theorem profile_shapes (R : runtime) (sb : client) (phone_number : pystr) :
  exists profile,
    get_loved_one_profile_query R sb phone_number = Ok profile
    /\ ((no_profile profile /\ contains_key "error" profile = Ok true)
        \/ (full_profile profile /\ contains_key "error" profile = Ok false)).
Proof.
  unfold get_loved_one_profile_query, try_except.
  destruct (assemble R sb (normalized_number phone_number))
    as [profile|e] eqn:H.
  - exists profile. split; [reflexivity|].
    destruct (assemble_shapes R sb _ profile H) as [Hn | Hf].
    + left. split; [exact Hn|]. now destruct Hn as (name & m & ->).
    + right. split; [exact Hf|].
      now destruct Hf as (? & ? & ? & ? & ? & ? & ? & ? & ? & -> & _).
  - eexists. split; [reflexivity|]. left.
    split; [eexists _, _|]; reflexivity.
Qed.

(** *** Reading the dynamic variables *)

Lemma keys_dict_set {V} (k : pystr) (v : V) (d : dict V) :
  map fst (dict_set k v d) = add_key k (map fst d).
Proof.
  induction d as [|[k' v'] d IH]; cbn [dict_set add_key map fst];
    [reflexivity|].
  destruct (eqb k k'); cbn [map fst]; [reflexivity | now rewrite IH].
Qed.

Lemma key_present {V} (k : pystr) (d : dict V) :
  existsb (eqb k) (map fst d) = true -> exists v, dict_get k d = Some v.
Proof.
  induction d as [|[k' v'] d IH]; cbn [map fst existsb dict_get];
    [discriminate|].
  destruct (eqb k k'); [eauto | exact IH].
Qed.

Lemma variables_keys (profile : value)
    (es : list (string * (value -> result value))) :
  forall d dv,
    for_each
      (fun d entry =>
         bind (snd entry profile)
           (fun v => Ok (dict_set (str (fst entry)) v d)))
      es d = Ok dv ->
    map fst dv
    = fold_left (fun keys entry => add_key (str (fst entry)) keys) es
        (map fst d).
Proof.
  induction es as [|entry es IH]; intros d dv H; cbn [for_each fold_left] in *.
  - now injection H as <-.
  - destruct (snd entry profile) as [v|e]; [|discriminate H].
    cbn [bind] in H. rewrite (IH _ _ H). now rewrite keys_dict_set.
Qed.

Lemma dynamic_variables_names (R : runtime) (profile : value)
    (dv : dict value) :
  dynamic_variables R profile = Ok dv -> map fst dv = variable_names R.
Proof.
  intros H. unfold dynamic_variables in H.
  rewrite (variables_keys profile (entries R) [] dv H). reflexivity.
Qed.

Lemma variables_read (profile : value)
    (es : list (string * (value -> result value))) :
  Forall (fun entry => exists v, snd entry profile = Ok v) es ->
  forall d, exists dv,
    for_each
      (fun d entry =>
         bind (snd entry profile)
           (fun v => Ok (dict_set (str (fst entry)) v d)))
      es d = Ok dv.
Proof.
  induction 1 as [|entry es [v Hv] _ IH]; intros d; cbn [for_each].
  - eauto.
  - rewrite Hv. cbn [bind]. apply IH.
Qed.

Lemma get2_object (a b : string) (default profile : value) :
  object profile -> object (child a profile) ->
  exists v, get2 a b default profile = Ok v.
Proof.
  intros Hp [d Hd]. unfold get2.
  rewrite (PersistFacts.get_or_object profile a Hp), Hd. cbn. eauto.
Qed.

Lemma flag2_object (R : runtime) (a b : string) (profile : value) :
  object profile -> object (child a profile) ->
  exists v, flag2 R a b profile = Ok v.
Proof.
  intros Hp Ha. unfold flag2.
  destruct (get2_object a b (VBool false) profile Hp Ha) as [v ->].
  cbn [bind]. eauto.
Qed.

Lemma flag3_object (R : runtime) (a b c : string) (profile : value) :
  object profile -> object (child a profile) ->
  object (child b (child a profile)) ->
  exists v, flag3 R a b c profile = Ok v.
Proof.
  intros Hp [d Hd] [d' Hd']. unfold flag3, get2.
  rewrite (PersistFacts.get_or_object profile a Hp). cbn [bind].
  rewrite (PersistFacts.get_or_object _ b (ex_intro _ d Hd)). cbn [bind].
  rewrite Hd'. cbn. eauto.
Qed.

Lemma readable_read (R : runtime) (profile : value) :
  readable profile ->
  exists dv,
    dynamic_variables R profile = Ok dv /\ map fst dv = variable_names R.
Proof.
  intros (Hp & Hs & Hc).
  assert (Ha : forall a, In a sections -> object (child a profile))
    by exact Hs.
  destruct (variables_read profile (entries R)) with (d := @nil (pystr * value))
    as [dv Hdv].
  - unfold entries.
    repeat constructor;
      first [ apply get2_object | apply flag2_object | apply flag3_object ];
      try assumption; apply Ha; cbn; tauto.
  - exists dv. split; [exact Hdv|].
    exact (dynamic_variables_names R profile dv Hdv).
Qed.

(** X15. The dynamic variables can be read from every profile whose
    sections are objects where they are present, the empty profile among
    them: reading never raises, and gives the nineteen variables, each
    once, in the order of the source. *)
Theorem readable_profile_variables (R : runtime) (profile : value) :
  readable profile ->
  exists dv,
    dynamic_variables R profile = Ok dv
    /\ map fst dv = variable_names R
    /\ length dv = 19.
Proof.
  intros H. destruct (readable_read R profile H) as (dv & Hdv & Hk).
  exists dv. split; [exact Hdv|]. split; [exact Hk|].
  rewrite <- (length_map fst), Hk. reflexivity.
Qed.

Lemma readable_profile_witness :
  exists dv,
    dynamic_variables plain (VDict []) = Ok dv
    /\ map fst dv = variable_names plain
    /\ length dv = 19.
Proof.
  apply (readable_profile_variables plain (VDict [])).
  split; [eexists; reflexivity|].
  split; [intros a _|]; eexists; reflexivity.
Defined.

End ProfileFacts.

(** ** Starting a conversation and placing a call *)

Module ConversationFacts.

Import PyStr Py Supabase Profile Variables ConversationInitiation.
Import InitiateCall Fixtures.
Import PersistSpec HandlerSpec.
Local Open Scope string_scope.
Local Open Scope list_scope.

Lemma caller_name_set (R : runtime) (profile : value) (dv : dict value) :
  dynamic_variables R profile = Ok dv ->
  exists name, dict_get (str "caller_name") dv = Some name.
Proof.
  intros H. apply ProfileFacts.key_present.
  rewrite (ProfileFacts.dynamic_variables_names R profile dv H).
  reflexivity.
Qed.

(** X16. The conversation initiation always answers with initiation data
    that name the caller, whatever the request, the HTTP client and the
    profile it is given; and for a request without a caller id (none, or
    an empty one) the answer is the fallback ["there"] and no HTTP request
    is made. *)
Theorem initiation_always_answers (R : runtime)
    (http_get : pystr -> result response) (request_json : result value)
    (hour : N) :
  (exists dv name,
      handle_conversation_initiation R http_get request_json hour
      = Ok (client_data dv)
      /\ dict_get (str "caller_name") dv = Some name)
  /\ (forall data caller_id,
        request_json = Ok data ->
        get_or data "caller_id" VNone = Ok caller_id ->
        truthy caller_id = false ->
        forall http_get' : pystr -> result response,
          handle_conversation_initiation R http_get' request_json hour
          = Ok there).
Proof.
  split.
  - unfold handle_conversation_initiation, try_except.
    destruct (initiation R http_get request_json hour) as [v|e] eqn:H;
      [|eexists _, _; split; reflexivity].
    unfold initiation in H. ProfileFacts.run H.
    destruct (truthy a0); cbn [negb] in H;
      [|injection H as <-; eexists _, _; split; reflexivity].
    ProfileFacts.run H.
    destruct a4.
    + ProfileFacts.run H. injection H as <-. eexists _, _. split; reflexivity.
    + ProfileFacts.run H. injection H as <-.
      match goal with
      | Hdv : dynamic_variables R _ = Ok ?dv |- _ =>
          destruct (caller_name_set R _ dv Hdv) as [name Hname]
      end.
      eexists _, name. split; [reflexivity|].
      now rewrite AppointmentFacts.dict_get_set_other.
  - intros data caller_id -> Hid Hfalsy http_get'.
    unfold handle_conversation_initiation, initiation. cbn [bind].
    rewrite Hid. cbn [bind]. now rewrite Hfalsy.
Qed.

Lemma same_profile (R : runtime) (sb : client) (phone_number : pystr) :
  get_loved_one_profile_query R sb (normalized_number phone_number)
  = get_loved_one_profile_query R sb phone_number.
Proof.
  unfold get_loved_one_profile_query.
  now rewrite WriteFacts.canonical_number.
Qed.

(** X17. Without a profile no call is placed: when the profile endpoint
    reports an error for the number (an unknown caller, a caller without a
    loved one, or a failure of the assembly), the outbound call request
    answers with the error status and that message, whatever the
    telephony client would do. *)
Theorem no_profile_no_call (R : runtime) (sb : client)
    (phone_number : pystr) (profile : value) :
  get_loved_one_profile_query R sb phone_number = Ok profile ->
  no_profile profile ->
  exists message,
    item profile "error" = Ok message
    /\ forall (twilio_outbound_call : pystr -> value -> result value)
              (hour : N),
         initiate_call R sb twilio_outbound_call phone_number hour
         = Ok (call_failed message).
Proof.
  intros Hq (name & m & ->). exists (VStr m). split; [reflexivity|].
  intros call hour. unfold initiate_call, initiate.
  now rewrite same_profile, Hq.
Qed.

Lemma no_profile_no_call_witness :
  initiate_call plain accepting (fun _ _ => Ok (obj [("callSid", text "CA1")]))
    (str "15550100") 9
  = Ok (call_failed (text "User not found")).
Proof.
  destruct (no_profile_no_call plain accepting (str "15550100")
              (obj [("caller_name", text "Valued Customer");
                    ("error", text "User not found")]))
    as (message & Hm & Hcall).
  - reflexivity.
  - eexists _, _. reflexivity.
  - injection Hm as <-. apply Hcall.
Defined.

Lemma full_profile_readable (profile : value) :
  full_profile profile -> readable profile.
Proof.
  intros (? & ? & ? & ? & ? & ? & ? & ? & ? & -> & _).
  split; [eexists; reflexivity|]. split; [|eexists; reflexivity].
  intros a [<-|[<-|[<-|[<-|[<-|[]]]]]]; eexists; reflexivity.
Qed.

(** X18. With a full profile the call is placed: reading the variables
    of the call never raises, the telephony client is asked to dial the
    canonical number with these variables, the time of day among them,
    and the answer is the call id on success and the error status with
    the text of the exception when the client raises. *)
Theorem full_profile_is_called (R : runtime) (sb : client)
    (twilio_outbound_call : pystr -> value -> result value)
    (phone_number : pystr) (hour : N) (profile : value) :
  get_loved_one_profile_query R sb phone_number = Ok profile ->
  full_profile profile ->
  exists dv,
    call_variables R profile hour = Ok dv
    /\ dict_get (str "time_of_day") dv = Some (VStr (time_of_day hour))
    /\ initiate_call R sb twilio_outbound_call phone_number hour
       = try_except
           (bind (twilio_outbound_call (normalized_number phone_number)
                    (client_data dv))
              (fun resp =>
                 bind (get_or resp "callSid" (text ""))
                   (fun sid => Ok (call_placed sid))))
           (fun e => Ok (call_failed (VStr (exception_text R e)))).
Proof.
  intros Hq Hfull.
  destruct (ProfileFacts.readable_read R profile
              (full_profile_readable profile Hfull)) as (dv0 & Hdv0 & _).
  assert (Herr : contains_key "error" profile = Ok false)
    by now destruct Hfull as (? & ? & ? & ? & ? & ? & ? & ? & ? & -> & _).
  assert (Happts : exists appts,
             get_or profile "appointments" (VList []) = Ok (VList appts)
             /\ Forall AppointmentSpec.record appts).
  { destruct Hfull as (? & ? & ? & ? & ? & ? & ? & ? & appts & -> & Hr).
    now exists appts. }
  destruct Happts as (appts & Hget & Hrecords).
  destruct (AppointmentFacts.appointment_variables_summarized R profile dv0
              appts Hget Hrecords) as (dv1 & Hdv1 & _).
  assert (Hcv : call_variables R profile hour
                = Ok (dict_set (str "time_of_day") (VStr (time_of_day hour))
                        dv1)).
  { unfold call_variables. rewrite Hdv0. cbn [bind]. now rewrite Hdv1. }
  eexists. split; [exact Hcv|].
  split; [apply AppointmentFacts.dict_get_set_same|].
  unfold initiate_call, initiate.
  rewrite same_profile, Hq. cbn [bind]. rewrite Herr. cbn [bind].
  rewrite Hcv. reflexivity.
Qed.

Lemma full_profile_witness :
  initiate_call plain Household.household
    (fun _ _ => Ok (obj [("callSid", text "CA1")])) (str " 1555 0100 ") 9
  = Ok (call_placed (text "CA1")).
Proof.
  destruct (full_profile_is_called plain Household.household
              (fun _ _ => Ok (obj [("callSid", text "CA1")]))
              (str " 1555 0100 ") 9 _ eq_refl)
    as (dv & _ & _ & H).
  - eexists _, _, _, _, _, _, _, _, _. split; [reflexivity|].
    repeat constructor; eexists; reflexivity.
  - rewrite H. reflexivity.
Defined.

End ConversationFacts.

(** ** The media stream: what is forwarded, and in which order *)

Module StreamFacts.

Import PyStr Py MediaStream Fixtures.
Import TeardownSpec HandlerSpec.
Local Open Scope list_scope.

Lemma relay_forwards (R : runtime) (frames : list received) :
  exists events n,
    fst (relay R frames) = map HandleTwilioMessage events
    /\ Forall2 (parsed R) (firstn n (payloads frames)) events
    /\ (snd (relay R frames) = Ok tt -> n = length (payloads frames)).
Proof.
  induction frames as [|f rest (events & n & Hc & Hp & Hn)].
  - exists [], 0. now repeat split.
  - destruct f as [[|c m] handled|e]; cbn [relay payloads].
    + now exists events, n.
    + destruct (json_loads R (c :: m)) as [event|e] eqn:Hj.
      * destruct handled as [u|e].
        -- destruct (relay R rest) as [calls r]. cbn [fst snd] in *.
           exists (event :: events), (S n). cbn [map firstn length].
           repeat split; [now rewrite Hc | now constructor | auto].
        -- exists [event], 1. cbn [fst snd map firstn].
           repeat split; [|discriminate].
           destruct (payloads rest); now repeat constructor.
      * exists [], 0. repeat split; [constructor | discriminate].
    + exists [], 0. repeat split; [constructor | discriminate].
Qed.

(** X19. The relay forwards events in the order the frames came, one for
    each frame that is not empty, up to the frame at which it stops:
    nothing is forwarded twice, out of order, or for an empty frame, and
    when the stream closes without an exception every frame that is not
    empty has been forwarded. *)
Theorem forwarded_in_order (R : runtime) (frames : list received) :
  exists events n,
    fst (relay R frames) = map HandleTwilioMessage events
    /\ Forall2 (parsed R) (firstn n (payloads frames)) events
    /\ (snd (relay R frames) = Ok tt ->
        Forall2 (parsed R) (payloads frames) events).
Proof.
  destruct (relay_forwards R frames) as (events & n & Hc & Hp & Hn).
  exists events, n. repeat split; [exact Hc | exact Hp|].
  intros H. rewrite (Hn H), firstn_all in Hp. exact Hp.
Qed.

(** X20. The calls of a run come in the order of the protocol. Without a
    conversation object the handler calls nothing and still returns. With
    one, the session is started first, then come the forwarded events and
    nothing else, then the session is ended, and last the wait for the
    end when ending returned; when starting the session raises, no event
    is forwarded and the session is ended all the same. *)
Theorem calls_in_protocol_order (R : runtime) (s : session) :
  (returned (conversation s) = false ->
   handle_media_stream R s = ([], Ok tt))
  /\ (returned (conversation s) = true ->
      exists events,
        fst (handle_media_stream R s)
        = StartSession :: map HandleTwilioMessage events
          ++ EndSession
             :: (if returned (end_session s) then [WaitForSessionEnd]
                 else [])
        /\ (returned (start_session s) = false -> events = [])).
Proof.
  unfold handle_media_stream, converse, teardown.
  destruct (conversation s) as [u|e]; cbn [returned];
    (split; [try discriminate | try discriminate]); [|reflexivity].
  intros _. destruct (start_session s) as [u'|e]; cbn [returned].
  - destruct (relay_forwards R (stream s)) as (events & n & Hc & _).
    destruct (relay R (stream s)) as [calls r]. cbn [fst] in Hc. subst calls.
    exists events. split; [|discriminate].
    destruct (end_session s); reflexivity.
  - exists []. split; [|reflexivity].
    destruct (end_session s); reflexivity.
Qed.

End StreamFacts.
